(** * Retrieval core of the creator chatbot: a shallow embedding

    The development follows the Python sources:

    - [src/src/chunking.py]        (SmartChunker)
    - [src/src/embeddings.py]      (GeminiEmbedder)
    - [src/src/vector_store.py]    (CreatorVectorStore)
    - [src/src/query_analyzer.py]  (QueryAnalyzer, single-process path)
    - [src/src/retrieval.py]       (IntelligentRetriever, single-process path)
    - [src/scalable_chatbot/retrieval_service/retrieval.py]
                                   (QueryAnalyzer and IntelligentRetriever of
                                    the microservice path)

    Python [str] values are modelled as [string]; a character is one of the
    code points U+0000..U+00FF.  Python [int]s are [Z], lengths are [nat]
    injected into [Z] where they meet an [int].  The floats the code computes
    with, the distances the vector database reports and the similarities
    [retrieve_context] derives from them, are binary64 values [float]; the
    floats it only stores, passes on or compares (coordinates of embeddings,
    times, thresholds, certainties) are the rationals [Q] they denote. *)

From Stdlib Require Import String Ascii List ZArith QArith Bool Lia Lqa.
From Stdlib Require Import PrimFloat.
From stdpp Require Import gmap strings.
Import ListNotations.

Local Open Scope string_scope.
Local Open Scope Z_scope.

(** ** Python text primitives *)

Module Py.

(** [len(s)] as a Python [int]. *)
Definition len (s : string) : Z := Z.of_nat (String.length s).

(** Truthiness of a [str]: the empty string is falsy. *)
Definition truthy (s : string) : bool :=
  match s with
  | EmptyString => false
  | String _ _ => true
  end.

(** Truthiness of a [list]. *)
Definition truthy_list {A} (l : list A) : bool :=
  match l with
  | [] => false
  | _ :: _ => true
  end.

(** [str.isspace] on one character, which is also the class [\s] of [re]:
    TAB..CR, FS..US, SPACE, NEL and NBSP. *)
Definition is_space (c : ascii) : bool :=
  let n := nat_of_ascii c in
  ((9 <=? n) && (n <=? 13) || (28 <=? n) && (n <=? 32)
   || (n =? 133) || (n =? 160))%nat.

(** The class [\w] of [re] on a [str] pattern: alphanumerics and the
    underscore. *)
Definition is_word (c : ascii) : bool :=
  let n := nat_of_ascii c in
  ((48 <=? n) && (n <=? 57) || (65 <=? n) && (n <=? 90) || (n =? 95)
   || (97 <=? n) && (n <=? 122)
   || (n =? 170) || (n =? 178) || (n =? 179) || (n =? 181) || (n =? 185)
   || (n =? 186) || (188 <=? n) && (n <=? 190)
   || (192 <=? n) && (n <=? 214) || (216 <=? n) && (n <=? 246)
   || (248 <=? n))%nat.

(** [str.lower] on one character. *)
Definition lower_char (c : ascii) : ascii :=
  let n := nat_of_ascii c in
  if ((65 <=? n) && (n <=? 90)
      || (192 <=? n) && (n <=? 222) && negb (n =? 215))%nat
  then ascii_of_nat (n + 32) else c.

Fixpoint lower (s : string) : string :=
  match s with
  | EmptyString => EmptyString
  | String c r => String (lower_char c) (lower r)
  end.

(** [s.lstrip()], [s.rstrip()] and [s.strip()]. *)
Fixpoint lstrip (s : string) : string :=
  match s with
  | EmptyString => EmptyString
  | String c r => if is_space c then lstrip r else s
  end.

Fixpoint rstrip (s : string) : string :=
  match s with
  | EmptyString => EmptyString
  | String c r =>
      match rstrip r with
      | EmptyString => if is_space c then EmptyString else String c EmptyString
      | r' => String c r'
      end
  end.

Definition strip (s : string) : string := rstrip (lstrip s).

(** Every character of [s] is whitespace (true of the empty string). *)
Fixpoint all_space (s : string) : bool :=
  match s with
  | EmptyString => true
  | String c r => is_space c && all_space r
  end.

(** [s.split()] without argument: the maximal runs of non-space characters.
    [cur] is the word being read, in reverse. *)
Definition string_rev_acc (cur : list ascii) : string :=
  string_of_list_ascii (rev cur).

Fixpoint split_ws_aux (s : string) (cur : list ascii) : list string :=
  match s with
  | EmptyString =>
      match cur with
      | [] => []
      | _ => [string_rev_acc cur]
      end
  | String c r =>
      if is_space c then
        match cur with
        | [] => split_ws_aux r []
        | _ => string_rev_acc cur :: split_ws_aux r []
        end
      else split_ws_aux r (c :: cur)
  end.

Definition split (s : string) : list string := split_ws_aux s [].

(** [s.split(sep)] for a one-character separator: always at least one piece. *)
Fixpoint split_on_aux (sep : ascii) (s : string) (cur : list ascii)
  : list string :=
  match s with
  | EmptyString => [string_rev_acc cur]
  | String c r =>
      if Ascii.eqb c sep then string_rev_acc cur :: split_on_aux sep r []
      else split_on_aux sep r (c :: cur)
  end.

Definition split_on (sep : ascii) (s : string) : list string :=
  split_on_aux sep s [].

(** [sep.join(words)]. *)
Definition join (sep : string) (words : list string) : string :=
  String.concat sep words.

(** [sub in s]: substring test. *)
Fixpoint contains (sub s : string) : bool :=
  String.prefix sub s
  || match s with
     | EmptyString => false
     | String _ r => contains sub r
     end.

(** [any(p(x) for x in l)]. *)
Definition any {A} (p : A -> bool) (l : list A) : bool := existsb p l.

(** Number of characters of [s] satisfying [p]: [len(re.findall(cls, s))]
    for a one-character class [cls]. *)
Fixpoint count_chars (p : ascii -> bool) (s : string) : Z :=
  match s with
  | EmptyString => 0
  | String c r => (if p c then 1 else 0) + count_chars p r
  end.

(** A Python number: an [int] or a [float] (binary64). *)
Inductive number :=
| Int (z : Z)
| Float (f : float).

(** [1 - x].  With an [int] the difference is exact; with a [float] the
    [int] one is converted to 1.0 and the difference is rounded to
    binary64. *)
Definition one_minus (x : number) : number :=
  match x with
  | Int z => Int (1 - z)
  | Float f => Float (1 - f)%float
  end.

End Py.

(** ** [config.py]: the constants the core reads *)

Module config.
Definition CHUNK_SIZE : Z := 1000.
Definition CHUNK_OVERLAP : Z := 200.
End config.

(** ** [src/src/chunking.py]: SmartChunker *)

Module Chunking.

Record SmartChunker := {
  chunk_size : Z;
  overlap : Z
}.

(** [x or default] on an optional [int]: [None] and [0] are falsy. *)
Definition int_or (x : option Z) (default : Z) : Z :=
  match x with
  | Some v => if v =? 0 then default else v
  | None => default
  end.

(** [SmartChunker.__init__]. *)
Definition init (chunk_size overlap : option Z) : SmartChunker :=
  {| chunk_size := int_or chunk_size config.CHUNK_SIZE;
     overlap := int_or overlap config.CHUNK_OVERLAP |}.

(** [re.sub(r'\s+', ' ', text)]: every maximal run of whitespace becomes one
    space.  [in_ws] tells that the previous character was whitespace. *)
Fixpoint collapse_ws (text : string) (in_ws : bool) : string :=
  match text with
  | EmptyString => EmptyString
  | String c r =>
      if Py.is_space c then
        if in_ws then collapse_ws r true
        else String " "%char (collapse_ws r true)
      else String c (collapse_ws r false)
  end.

(** The characters kept by the second [re.sub] of [_clean_text], whose
    class is the complement of: word characters, whitespace, the
    punctuation . , ! ? ; : ( ) - and the double quote (code point 34). *)
Definition kept_char (c : ascii) : bool :=
  Py.is_word c || Py.is_space c
  || existsb (Ascii.eqb c)
       ["."; ","; "!"; "?"; ";"; ":"; "("; ")"; "-"; ascii_of_nat 34]%char.

Fixpoint filter_chars (p : ascii -> bool) (s : string) : string :=
  match s with
  | EmptyString => EmptyString
  | String c r => if p c then String c (filter_chars p r) else filter_chars p r
  end.

(** [SmartChunker._clean_text]. *)
Definition _clean_text (text : string) : string :=
  let text := collapse_ws text false in
  let text := filter_chars kept_char text in
  Py.strip text.

(** [re.split(r'[.!?]+\s+', text)], read one character at a time.  The
    scanner is in one of three modes: reading a piece, reading a run of
    sentence punctuation that may start a separator, or inside the
    whitespace of a separator.  [cur] is the current piece and [pend] the
    pending punctuation, both in reverse. *)
Inductive split_mode := Piece | Punct (pend : list ascii) | SepWs.

Definition is_sentence_end (c : ascii) : bool :=
  existsb (Ascii.eqb c) ["."; "!"; "?"]%char.

Fixpoint re_split_sentences (text : string) (mode : split_mode)
    (cur : list ascii) : list string :=
  match text with
  | EmptyString =>
      match mode with
      | Punct pend => [Py.string_rev_acc (pend ++ cur)%list]
      | _ => [Py.string_rev_acc cur]
      end
  | String c r =>
      match mode with
      | Piece =>
          if is_sentence_end c then re_split_sentences r (Punct [c]) cur
          else re_split_sentences r Piece (c :: cur)
      | Punct pend =>
          if is_sentence_end c then re_split_sentences r (Punct (c :: pend)) cur
          else if Py.is_space c then
            Py.string_rev_acc cur :: re_split_sentences r SepWs []
          else re_split_sentences r Piece (c :: pend ++ cur)%list
      | SepWs =>
          if Py.is_space c then re_split_sentences r SepWs []
          else if is_sentence_end c then re_split_sentences r (Punct [c]) []
          else re_split_sentences r Piece [c]
      end
  end.

(** [SmartChunker._split_into_sentences]. *)
Definition _split_into_sentences (text : string) : list string :=
  let sentences := re_split_sentences text Piece [] in
  flat_map
    (fun sentence =>
       flat_map
         (fun sub => if Py.truthy (Py.strip sub) then [Py.strip sub] else [])
         (Py.split_on "010"%char sentence))
    sentences.

(** The loop of [_get_overlap_text] over [reversed(words)]; the [break]
    ends the recursion. *)
Fixpoint overlap_loop (rwords : list string) (overlap_size : Z)
    (overlap_words : list string) (char_count : Z) : list string :=
  match rwords with
  | [] => overlap_words
  | word :: rest =>
      if char_count + Py.len word + 1 <=? overlap_size then
        overlap_loop rest overlap_size (word :: overlap_words)
          (char_count + Py.len word + 1)
      else overlap_words
  end.

(** [SmartChunker._get_overlap_text]. *)
Definition _get_overlap_text (text : string) (overlap_size : Z) : string :=
  if Py.len text <=? overlap_size then text
  else
    let words := Py.split text in
    Py.join " " (overlap_loop (rev words) overlap_size [] 0).

(** One iteration of the loop of [_create_semantic_chunks] on the state
    [(chunks, current_chunk)]. *)
Definition chunk_step (self : SmartChunker) (st : list string * string)
    (sentence : string) : list string * string :=
  let '(chunks, current_chunk) := st in
  let potential_chunk :=
    if Py.truthy current_chunk then current_chunk +:+ " " +:+ sentence
    else sentence in
  if Py.len potential_chunk <=? chunk_size self then (chunks, potential_chunk)
  else
    let chunks :=
      if Py.truthy current_chunk
      then (chunks ++ [Py.strip current_chunk])%list
      else chunks in
    if Py.truthy_list chunks && (0 <? overlap self) then
      let overlap_text := _get_overlap_text current_chunk (overlap self) in
      (chunks, overlap_text +:+ " " +:+ sentence)
    else (chunks, sentence).

(** [SmartChunker._create_semantic_chunks]. *)
Definition _create_semantic_chunks (self : SmartChunker)
    (sentences : list string) : list string :=
  let '(chunks, current_chunk) :=
    fold_left (chunk_step self) sentences ([], "") in
  if Py.truthy current_chunk then (chunks ++ [Py.strip current_chunk])%list
  else chunks.

(** The chunk objects built by [chunk_text]; [chunk_id] is
    [f"{source}_chunk_{i}"], kept as the pair it is formatted from. *)
Record Chunk := {
  content : string;
  chunk_id : string * nat;
  source : string;
  chunk_index : nat;
  word_count : nat;
  character_count : Z
}.

Fixpoint enumerate_from {A} (i : nat) (l : list A) : list (nat * A) :=
  match l with
  | [] => []
  | x :: r => (i, x) :: enumerate_from (S i) r
  end.

(** [SmartChunker.chunk_text]. *)
Definition chunk_text (self : SmartChunker) (text source : string)
    : list Chunk :=
  let text := _clean_text text in
  let sentences := _split_into_sentences text in
  let chunks := _create_semantic_chunks self sentences in
  map (fun '(i, chunk) =>
         {| content := chunk;
            chunk_id := (source, i);
            source := source;
            chunk_index := i;
            word_count := List.length (Py.split chunk);
            character_count := Py.len chunk |})
      (enumerate_from 0 chunks).

End Chunking.

(** ** Exceptions and effects

    A Python call either returns a value or raises; what it did before
    raising stays done.  [M S A] is a computation over a state [S] standing
    for the objects the code mutates and for the outside world (provider,
    vector database, clock), which is recorded as a log of events. *)

Module Exc.

(** Exceptions, with the message [str(e)] shows.  [ExternalError] stands
    for whatever an external client library raises. *)
Inductive exn :=
| ValueError (msg : string)
| IndexError (msg : string)
| Exception (msg : string)
| ExternalError (msg : string).

Definition str (e : exn) : string :=
  match e with
  | ValueError msg | IndexError msg | Exception msg | ExternalError msg => msg
  end.

Inductive result (A : Type) :=
| Ok (a : A)
| Raise (e : exn).
Arguments Ok {A} a.
Arguments Raise {A} e.

Definition M (S A : Type) : Type := S -> result A * S.

Definition ret {S A} (a : A) : M S A := fun s => (Ok a, s).

Definition bind {S A B} (c : M S A) (k : A -> M S B) : M S B :=
  fun s =>
    match c s with
    | (Ok a, s') => k a s'
    | (Raise e, s') => (Raise e, s')
    end.

Definition raise {S A} (e : exn) : M S A := fun s => (Raise e, s).

(** [try: body  except Exception as e: handler(e)]. *)
Definition try_catch {S A} (body : M S A) (handler : exn -> M S A) : M S A :=
  fun s =>
    match body s with
    | (Ok a, s') => (Ok a, s')
    | (Raise e, s') => handler e s'
    end.

Definition get {S} : M S S := fun s => (Ok s, s).
Definition modify {S} (f : S -> S) : M S unit := fun s => (Ok tt, f s).

(** Lifting a value-or-exception into a computation. *)
Definition lift {S A} (r : result A) : M S A := fun s => (r, s).

Fixpoint mapM {S A B} (f : A -> M S B) (l : list A) : M S (list B) :=
  match l with
  | [] => ret []
  | x :: r => bind (f x) (fun y => bind (mapM f r) (fun ys => ret (y :: ys)))
  end.

End Exc.

Notation "'let!' x ':=' c 'in' k" := (Exc.bind c (fun x => k))
  (at level 10, x pattern, c at level 100, k at level 200).
Notation "'do!' c 'in' k" := (Exc.bind c (fun _ => k))
  (at level 10, c at level 100, k at level 200).

(** ** The single-process path: state, events and external collaborators *)

Module Mono.
Import Exc.

(** An embedding vector; [None] where Python passes [None] on. *)
Definition embedding := list Q.

(** Metadata stored with a chunk by [add_chunks_to_collection]. *)
Record Metadata := {
  md_source : string;
  md_chunk_index : nat;
  md_word_count : nat;
  md_creator_id : string;
  md_creator_name : string;
  md_creator_specialty : string
}.

(** A row of a collection of the vector database. *)
Record Row := {
  row_id : string;
  row_embedding : embedding;
  row_document : string;
  row_metadata : Metadata
}.

(** A collection handle, identified with the rows it holds. *)
Abbreviation Collection := (list Row).

(** The dict [collection.query] answers with: one inner list per query
    embedding. *)
Record QueryResult := {
  documents : list (list string);
  metadatas : list (list Metadata);
  distances : list (list float)
}.

(** What the code does to the outside world. *)
Inductive Event :=
| EvSleep (seconds : Q)
| EvEmbedContent (text : string)
| EvCollectionQuery (collection : Collection)
    (query_embeddings : list (option embedding)) (n_results : Z).

(** The external collaborators.  [embed_content n text] is what the [n]-th
    call (from 0) of [genai.embed_content] followed by [result['embedding']]
    gives; [collection_query] is [collection.query] of the vector database
    client. *)
Record Env := {
  embed_content : nat -> string -> result embedding;
  collection_query :
    Collection -> list (option embedding) -> Z -> result QueryResult
}.

(** The mutable objects and the world. *)
Record World := {
  clock : Q;
  log : list Event;
  embedding_dimension : option Z;
  collections : gmap string Collection;
  last_query_time : Q
}.

Definition set_clock (t : Q) (w : World) : World :=
  {| clock := t; log := log w; embedding_dimension := embedding_dimension w;
     collections := collections w; last_query_time := last_query_time w |}.
Definition add_event (e : Event) (w : World) : World :=
  {| clock := clock w; log := (log w ++ [e])%list;
     embedding_dimension := embedding_dimension w;
     collections := collections w; last_query_time := last_query_time w |}.
Definition set_embedding_dimension (d : option Z) (w : World) : World :=
  {| clock := clock w; log := log w; embedding_dimension := d;
     collections := collections w; last_query_time := last_query_time w |}.
Definition set_last_query_time (t : Q) (w : World) : World :=
  {| clock := clock w; log := log w;
     embedding_dimension := embedding_dimension w;
     collections := collections w; last_query_time := t |}.

(** [time.time()]: the clock of the world. *)
Definition time_time : M World Q := fun w => (Ok (clock w), w).

(** [time.sleep(d)]: logged, and the clock moves on by [d]. *)
Definition time_sleep (d : Q) : M World unit :=
  modify (fun w => add_event (EvSleep d) (set_clock (clock w + d)%Q w)).

Definition is_embed_event (e : Event) : bool :=
  match e with
  | EvEmbedContent _ => true
  | _ => false
  end.

(** Number of provider calls made so far. *)
Definition provider_calls (w : World) : nat :=
  List.length (List.filter is_embed_event (log w)).

(** [genai.embed_content(model=..., content=...)['embedding']]. *)
Definition genai_embed_content (env : Env) (text : string)
    : M World embedding :=
  fun w =>
    (embed_content env (provider_calls w) text,
     add_event (EvEmbedContent text) w).

(** [collection.query(query_embeddings=..., n_results=..., include=...)]. *)
Definition do_collection_query (env : Env) (collection : Collection)
    (query_embeddings : list (option embedding)) (n_results : Z)
    : M World QueryResult :=
  fun w =>
    (collection_query env collection query_embeddings n_results,
     add_event (EvCollectionQuery collection query_embeddings n_results) w).

End Mono.

(** ** [src/src/embeddings.py]: GeminiEmbedder *)

Module Embeddings.
Import Exc Mono.

(** The argument of [embed_text]: a [str], a [dict] (with or without the
    key ['content']), or anything else. *)
Inductive EmbedInput :=
| InStr (text : string)
| InDict (content : option string)
| InOther.

Definition max_retries : Z := 3.

(** [range(n)]. *)
Definition range (n : Z) : list Z := map Z.of_nat (seq 0 (Z.to_nat n)).

(** First successful call: [self.embedding_dimension] is set once. *)
Definition note_dimension (e : embedding) : M World unit :=
  modify (fun w =>
            match embedding_dimension w with
            | None => set_embedding_dimension
                        (Some (Z.of_nat (List.length e))) w
            | Some _ => w
            end).

(** The retry loop [for attempt in range(max_retries)] of [embed_text],
    over the attempts still to run, with the current [retry_delay].
    Falling out of the loop returns [None]. *)
Fixpoint retry_loop (env : Env) (text : string) (attempts : list Z)
    (retry_delay : Z) : M World (option embedding) :=
  match attempts with
  | [] => ret None
  | attempt :: rest =>
      try_catch
        (let! embedding := genai_embed_content env text in
         do! note_dimension embedding in
         ret (Some embedding))
        (fun e =>
           if Py.contains "429" (str e) && (attempt <? max_retries - 1) then
             do! time_sleep (inject_Z retry_delay) in
             retry_loop env text rest (retry_delay * 2)
           else raise e)
  end.

(** [GeminiEmbedder.embed_text]. *)
Definition embed_text (env : Env) (text : EmbedInput)
    : M World (option embedding) :=
  try_catch
    (let! text :=
       match text with
       | InDict None =>
           raise (ValueError "Dictionary input must have a 'content' key")
       | InDict (Some content) => ret content
       | InStr s => ret s
       | InOther =>
           raise (ValueError
             "Input must be either a string or a dictionary with 'content' key")
       end in
     if negb (Py.truthy (Py.strip text)) then
       raise (ValueError "Empty or whitespace-only text cannot be embedded")
     else
       let retry_delay := 2 in
       retry_loop env text (range max_retries) retry_delay)
    (fun e => raise e).

End Embeddings.

(** ** [src/src/vector_store.py]: CreatorVectorStore *)

Module VectorStore.
Import Exc Mono.

(** [CreatorVectorStore.search_creator]. *)
Definition search_creator (env : Env) (creator_id : string)
    (query_embedding : option embedding) (n_results : Z)
    : M World QueryResult :=
  let! w := get in
  match collections w !! creator_id with
  | None => ret {| documents := []; metadatas := []; distances := [] |}
  | Some collection =>
      do_collection_query env collection [query_embedding] n_results
  end.

(** [CreatorVectorStore.get_collection_stats]. *)
Definition get_collection_stats (w : World) : gmap string nat :=
  (fun collection : Collection => List.length collection) <$> collections w.

End VectorStore.

(** ** [src/src/query_analyzer.py]: complexity of a query *)

Module QueryAnalyzer.

Inductive QueryComplexity := SIMPLE | MEDIUM | COMPLEX.

(** The value of the enum member. *)
Definition value (c : QueryComplexity) : string :=
  match c with
  | SIMPLE => "simple"
  | MEDIUM => "medium"
  | COMPLEX => "complex"
  end.

(** Whether position [n] of [s] is the end of [s] or a non-word
    character. *)
Definition boundary_at (n : nat) (s : string) : bool :=
  match String.get n s with
  | Some c => negb (Py.is_word c)
  | None => true
  end.

(** [len(re.findall(r'\band\b|\baur\b', query))].  [prev_word] tells
    whether the character before [query] is a word character.  A match
    cannot start inside another one (its second and third characters
    follow a word character), so counting the positions where one starts
    counts the matches [findall] returns. *)
Fixpoint count_and (query : string) (prev_word : bool) : Z :=
  match query with
  | EmptyString => 0
  | String c r =>
      (if negb prev_word
          && (String.prefix "and" query || String.prefix "aur" query)
          && boundary_at 3 query
       then 1 else 0)
      + count_and r (Py.is_word c)
  end.

(** The four counts [_determine_complexity] takes of a query:
    [len(re.findall(r'\?', query))], the conjunctions,
    [len(re.findall(r'[,;]', query))] and [len(query.split())]. *)
Definition question_count (query : string) : Z :=
  Py.count_chars (Ascii.eqb "?"%char) query.

Definition and_count (query : string) : Z := count_and query false.

Definition concept_count (query : string) : Z :=
  Py.count_chars (fun c => Ascii.eqb c ","%char || Ascii.eqb c ";"%char) query.

Definition word_count (query : string) : Z :=
  Z.of_nat (List.length (Py.split query)).

(** [QueryAnalyzer._determine_complexity]. *)
Definition _determine_complexity (query : string) : QueryComplexity :=
  let question_count := question_count query in
  let and_count := and_count query in
  let concept_count := concept_count query in
  let word_count := word_count query in
  if (1 <? question_count) || (1 <? and_count) || (1 <? concept_count)
     || (20 <? word_count)
  then COMPLEX
  else if (question_count =? 1) || (and_count =? 1) || (concept_count =? 1)
          || (10 <? word_count)
  then MEDIUM
  else SIMPLE.

(** The complexity entry of the dict [QueryAnalyzer.analyze_query]
    returns. *)
Definition analyze_query_complexity (query : string) : string :=
  let query_lower := Py.lower query in
  value (_determine_complexity query_lower).

End QueryAnalyzer.

(** ** [src/src/retrieval.py]: IntelligentRetriever, single-process path *)

Module Retrieval.
Import Exc Mono.

Definition min_query_interval : Q := 2.

(** A chunk of the returned context. *)
Record ContextChunk := {
  content : string;
  creator_id : string;
  similarity : Py.number;
  source : string
}.

(** The dict [retrieve_context] returns; [chunks] and [best_creator] are
    the entries of its ["context"]. *)
Record RetrievalResult := {
  retrieval_strategy : string;
  total_chunks : nat;
  chunks : list ContextChunk;
  best_creator : option string
}.

(** [IntelligentRetriever._analyze_query]. *)
Definition _analyze_query (query : string) : list string :=
  let query := Py.lower query in
  let query_types : list string := [] in
  let query_types :=
    if Py.any (fun word => Py.contains word query)
         ["what"; "how"; "why"; "when"; "where"; "which"]
    then (query_types ++ ["specific"])%list else query_types in
  let query_types :=
    if Py.contains "how" query && Py.contains "to" query
    then (query_types ++ ["how_to"])%list else query_types in
  let query_types :=
    if negb (Py.truthy_list query_types)
    then (query_types ++ ["general"])%list else query_types in
  if 10 <? Z.of_nat (List.length (Py.split query))
  then (query_types ++ ["complex"])%list
  else (query_types ++ ["simple"])%list.

(** [x in l] on a list of strings. *)
Definition mem (x : string) (l : list string) : bool :=
  existsb (String.eqb x) l.

(** The choice of [n_results] and [strategy] in [retrieve_context]. *)
Definition choose_strategy (query_type : list string) : Z * string :=
  if mem "specific" query_type then (2, "focused_search")
  else if mem "how_to" query_type then (3, "focused_search")
  else (3, "balanced_search").

(** [l[i]]. *)
Definition index {A} (l : list A) (i : nat) : M World A :=
  match nth_error l i with
  | Some x => ret x
  | None => raise (IndexError "list index out of range")
  end.

(** The body of the loop that turns the [i]-th result into a chunk. *)
Definition make_chunk (results : QueryResult) (creator : string) (i : nat)
    : M World ContextChunk :=
  let! docs := index (documents results) 0 in
  let! doc := index docs i in
  let! distance :=
    (if Py.truthy_list (distances results) then
       let! ds := index (distances results) 0 in
       let! d := index ds i in ret (Py.Float d)
     else ret (Py.Int 0)) in
  let! src :=
    (if Py.truthy_list (metadatas results) then
       let! ms := index (metadatas results) 0 in
       let! m := index ms i in ret (md_source m)
     else ret "unknown") in
  ret {| content := doc; creator_id := creator;
         similarity := Py.one_minus distance; source := src |}.

(** The message of the exception [retrieve_context] raises for [e]. *)
Definition retrieval_error (e : exn) : exn :=
  if Py.contains "429" (str e) then
    Exception "Rate limit exceeded. Please wait a moment and try again."
  else if Py.contains "embedding" (Py.lower (str e)) then
    Exception "Unable to process your query. Please try rephrasing it."
  else
    Exception "An error occurred while retrieving context. Please try again.".

(** [IntelligentRetriever.retrieve_context]. *)
Definition retrieve_context (env : Env) (query creator : string)
    : M World RetrievalResult :=
  let! current_time := time_time in
  let! w := get in
  let time_since_last_query := (current_time - last_query_time w)%Q in
  do! (if negb (Qle_bool min_query_interval time_since_last_query)
       then time_sleep (min_query_interval - time_since_last_query)%Q
       else ret tt) in
  let! t := time_time in
  do! modify (set_last_query_time t) in
  let query_type := _analyze_query query in
  try_catch
    (let! query_embedding :=
       Embeddings.embed_text env (Embeddings.InDict (Some query)) in
     let '(n_results, strategy) := choose_strategy query_type in
     let! results :=
       VectorStore.search_creator env creator query_embedding n_results in
     let! chunks :=
       (if Py.truthy_list (documents results)
           && Py.truthy_list (hd [] (documents results))
        then mapM (make_chunk results creator)
               (seq 0 (List.length (hd [] (documents results))))
        else ret []) in
     ret {| retrieval_strategy := strategy;
            total_chunks := List.length chunks;
            chunks := chunks;
            best_creator :=
              if Py.truthy_list chunks then Some creator else None |})
    (fun e => raise (retrieval_error e)).

End Retrieval.

(** ** [src/scalable_chatbot]: the microservice path *)

Module Service.
Import Exc.

(** [shared/models.py]. *)
Inductive QueryIntent :=
| GREETING | QUESTION | HOW_TO | PERSONAL_INFO | INAPPROPRIATE.

Inductive QueryComplexity := SIMPLE | COMPLEX.

Record QueryAnalysis := {
  intent : QueryIntent;
  complexity : QueryComplexity;
  is_greeting : bool;
  is_inappropriate : bool;
  is_step_by_step : bool;
  confidence : Q
}.

Record RetrievalRequest := {
  query : string;
  req_creator_id : string;
  max_chunks : Z;
  similarity_threshold : Q
}.

(** [RetrievalRequest(query=..., creator_id=...)] with the defaults of the
    model for the fields left out. *)
Definition new_request (query creator_id : string) (max_chunks : option Z)
    (similarity_threshold : option Q) : RetrievalRequest :=
  {| query := query;
     req_creator_id := creator_id;
     max_chunks := default 5 max_chunks;
     similarity_threshold := default (7 # 10)%Q similarity_threshold |}.

Definition Metadata := list (string * string).

Record ContextChunk := {
  content : string;
  source : string;
  similarity : Q;
  chunk_creator_id : string;
  metadata : Metadata
}.

Record RetrievalResponse := {
  chunks : list ContextChunk;
  total_chunks : nat;
  creator_id : string;
  retrieval_strategy : string
}.

Definition QueryIntent_eqb (a b : QueryIntent) : bool :=
  match a, b with
  | GREETING, GREETING | QUESTION, QUESTION | HOW_TO, HOW_TO
  | PERSONAL_INFO, PERSONAL_INFO | INAPPROPRIATE, INAPPROPRIATE => true
  | _, _ => false
  end.

Definition QueryComplexity_eqb (a b : QueryComplexity) : bool :=
  match a, b with
  | SIMPLE, SIMPLE | COMPLEX, COMPLEX => true
  | _, _ => false
  end.

(** The query built in [_execute_retrieval]. *)
Record WeaviateQuery := {
  class_name : string;
  near_vector : list Q;
  near_certainty : Q;
  where_path : list string;
  where_operator : string;
  where_valueString : string;
  limit : Z;
  additional : list string
}.

(** One object of the answer; a field is [None] when its key is absent. *)
Record WeaviateItem := {
  item_certainty : option Q;
  item_content : option string;
  item_source : option string;
  item_metadata : option Metadata
}.

Inductive Event :=
| EvGenerateContent (query : string)
| EvEmbedContent (text : string)
| EvWeaviateQuery (q : WeaviateQuery).

(** The external collaborators: the generative model with the parsing of
    its JSON answer into a [QueryAnalysis], the embedding provider, and
    the vector database, whose answer is reduced to the list found under
    the keys data, Get, CreatorContent of the result ([None] when one of
    them is absent). *)
Record Env := {
  generate_analysis : string -> result QueryAnalysis;
  embed_content : string -> result (list Q);
  weaviate_do : WeaviateQuery -> result (option (list WeaviateItem))
}.

Definition World := list Event.

Definition emit (e : Event) : M World unit :=
  modify (fun w : World => (w ++ [e])%list).

(** [EmbeddingService._embed_text_sync]. *)
Definition _embed_text_sync (env : Env) (text : string) : M World (list Q) :=
  do! emit (EvEmbedContent text) in
  lift (embed_content env text).

(** [EmbeddingService.embed_text]. *)
Definition embed_text (env : Env) (text : string) : M World (list Q) :=
  try_catch (_embed_text_sync env text) (fun e => raise e).

(** [QueryAnalyzer._fallback_analysis]. *)
Definition _fallback_analysis (query : string) : QueryAnalysis :=
  let query_lower := Py.lower query in
  let greetings := ["hi"; "hello"; "hey"; "namaste"; "hola"] in
  let is_greeting :=
    Py.any (fun greeting => Py.contains greeting query_lower) greetings in
  let is_step_by_step :=
    Py.contains "how to" query_lower || Py.contains "steps" query_lower in
  let inappropriate_keywords := ["sex"; "porn"; "adult"; "nsfw"] in
  let is_inappropriate :=
    Py.any (fun keyword => Py.contains keyword query_lower)
      inappropriate_keywords in
  let intent :=
    if is_greeting then GREETING
    else if is_inappropriate then INAPPROPRIATE
    else if is_step_by_step then HOW_TO
    else QUESTION in
  let complexity :=
    if 10 <? Z.of_nat (List.length (Py.split query)) then COMPLEX
    else SIMPLE in
  {| intent := intent;
     complexity := complexity;
     is_greeting := is_greeting;
     is_inappropriate := is_inappropriate;
     is_step_by_step := is_step_by_step;
     confidence := (7 # 10)%Q |}.

(** [QueryAnalyzer._analyze_query_sync]. *)
Definition _analyze_query_sync (env : Env) (query : string)
    : M World QueryAnalysis :=
  try_catch
    (do! emit (EvGenerateContent query) in
     lift (generate_analysis env query))
    (fun _ => ret (_fallback_analysis query)).

(** [QueryAnalyzer.analyze_query]. *)
Definition analyze_query (env : Env) (query : string)
    : M World QueryAnalysis :=
  try_catch (_analyze_query_sync env query)
    (fun _ =>
       ret {| intent := QUESTION;
              complexity := SIMPLE;
              is_greeting := false;
              is_inappropriate := false;
              is_step_by_step := false;
              confidence := (1 # 2)%Q |}).

(** [IntelligentRetriever._determine_strategy]. *)
Definition _determine_strategy (analysis : QueryAnalysis)
    (request : RetrievalRequest) : string :=
  if QueryComplexity_eqb (complexity analysis) COMPLEX then "comprehensive"
  else if QueryIntent_eqb (intent analysis) HOW_TO then "focused"
  else if is_step_by_step analysis then "structured"
  else "balanced".

(** The loop body of [_execute_retrieval]: the chunk built from [item], if
    its certainty passes the threshold. *)
Definition keep_item (creator_id : string) (similarity_threshold : Q)
    (item : WeaviateItem) : list ContextChunk :=
  let certainty := default 0%Q (item_certainty item) in
  if Qle_bool similarity_threshold certainty then
    [{| content := default "" (item_content item);
        source := default "unknown" (item_source item);
        similarity := certainty;
        chunk_creator_id := creator_id;
        metadata := default [] (item_metadata item) |}]
  else [].

(** [IntelligentRetriever._execute_retrieval]. *)
Definition _execute_retrieval (env : Env) (query_embedding : list Q)
    (creator_id strategy : string) (max_chunks : Z)
    (similarity_threshold : Q) : M World (list ContextChunk) :=
  try_catch
    (let query_builder :=
       {| class_name := "CreatorContent";
          near_vector := query_embedding;
          near_certainty := similarity_threshold;
          where_path := ["creator_id"];
          where_operator := "Equal";
          where_valueString := creator_id;
          limit := max_chunks;
          additional := ["certainty"; "distance"] |} in
     do! emit (EvWeaviateQuery query_builder) in
     let! result := lift (weaviate_do env query_builder) in
     match result with
     | Some (item :: items) =>
         ret (flat_map (keep_item creator_id similarity_threshold)
                (item :: items))
     | _ => ret []
     end)
    (fun _ => ret []).

(** [IntelligentRetriever.retrieve_context]. *)
Definition retrieve_context (env : Env) (request : RetrievalRequest)
    : M World RetrievalResponse :=
  try_catch
    (let! query_analysis := analyze_query env (query request) in
     if is_greeting query_analysis || is_inappropriate query_analysis then
       ret {| chunks := [];
              total_chunks := 0;
              creator_id := req_creator_id request;
              retrieval_strategy := "skip" |}
     else
       let! query_embedding := embed_text env (query request) in
       let strategy := _determine_strategy query_analysis request in
       let! chunks :=
         _execute_retrieval env query_embedding (req_creator_id request)
           strategy (max_chunks request) (similarity_threshold request) in
       ret {| chunks := chunks;
              total_chunks := List.length chunks;
              creator_id := req_creator_id request;
              retrieval_strategy := strategy |})
    (fun _ =>
       ret {| chunks := [];
              total_chunks := 0;
              creator_id := req_creator_id request;
              retrieval_strategy := "error" |}).

End Service.

(** ** Concrete inputs used by the examples below *)

Module Inputs.

(** A chunker with a small budget: passages of at most 20 characters and an
    overlap of 8. *)
Definition small_chunker : Chunking.SmartChunker :=
  Chunking.init (Some 20) (Some 8).

(** Three sentences, each of them shorter than 20 characters. *)
Definition small_text : string :=
  "aaaa bbbb cccc dddd. eeee ffff gggg hhhh. x".

(** [n] copies of [s]. *)
Fixpoint repeat_string (n : nat) (s : string) : string :=
  match n with
  | O => ""
  | S m => s +:+ repeat_string m s
  end.

(** A document of two sentences of 899 characters each, for the default
    chunker (1000 / 200). *)
Definition long_sentence : string := repeat_string 179 "word " +:+ "word".
Definition long_text : string := long_sentence +:+ ". " +:+ long_sentence.

(** The second chunk object [chunk_text] builds from [small_text]. *)
Definition small_passage : Chunking.Chunk :=
  {| Chunking.content := "dddd eeee ffff gggg hhhh";
     Chunking.chunk_id := ("doc", 1%nat);
     Chunking.source := "doc";
     Chunking.chunk_index := 1%nat;
     Chunking.word_count := 5%nat;
     Chunking.character_count := 24 |}.

(** A world in which nothing has happened yet. *)
Definition world0 : Mono.World :=
  {| Mono.clock := 0%Q;
     Mono.log := [];
     Mono.embedding_dimension := None;
     Mono.collections := ∅;
     Mono.last_query_time := 0%Q |}.

(** A vector database that has nothing to say. *)
Definition no_results : Mono.QueryResult :=
  {| Mono.documents := []; Mono.metadatas := []; Mono.distances := [] |}.

(** A provider that signals a rate limit on its first two calls and
    answers the third. *)
Definition flaky_env : Mono.Env :=
  {| Mono.embed_content := fun n _ =>
       if (n <? 2)%nat
       then Exc.Raise (Exc.ExternalError "429 Resource has been exhausted")
       else Exc.Ok [1%Q; 0%Q];
     Mono.collection_query := fun _ _ _ => Exc.Ok no_results |}.

(** A provider that is down. *)
Definition failing_env : Mono.Env :=
  {| Mono.embed_content := fun _ _ =>
       Exc.Raise (Exc.ExternalError "503 Service Unavailable");
     Mono.collection_query := fun _ _ _ => Exc.Ok no_results |}.

End Inputs.

(** ** Auxiliary notions for the chunker *)

Module ChunkingSpec.
Import Chunking.

(** The value [char_count] has after the words [ws] were taken over. *)
Definition words_cost (ws : list string) : Z :=
  fold_right (fun w acc => Py.len w + 1 + acc) 0 ws.

(** A closed passage is within the budget, or it is one sentence behind an
    overlap prefix [o] (possibly empty). *)
Definition passage_ok (self : SmartChunker) (sentences : list string)
    (p : string) : Prop :=
  Py.len p <= chunk_size self
  \/ exists s o, In s sentences
       /\ Py.len o <= Z.max 0 (overlap self)
       /\ p = Py.strip (o +:+ " " +:+ s).

(** The same for the accumulator [current_chunk], before [strip]. *)
Definition current_ok (self : SmartChunker) (sentences : list string)
    (cur : string) : Prop :=
  Py.len cur <= chunk_size self
  \/ cur = ""
  \/ exists s o, In s sentences
       /\ Py.len o <= Z.max 0 (overlap self)
       /\ (cur = s \/ cur = o +:+ " " +:+ s).

End ChunkingSpec.

(** ** Auxiliary notions for the embedding client *)

Module EmbeddingsSpec.
Import Exc Mono.

(** A provider outcome that is a rate-limit signal: an exception whose
    message contains 429. *)
Definition is_rate_limit (r : result embedding) : bool :=
  match r with
  | Raise e => Py.contains "429" (str e)
  | Ok _ => false
  end.

(** What [embed_text] makes of the provider outcome it stops at. *)
Definition outcome (r : result embedding) : result (option embedding) :=
  match r with
  | Ok v => Ok (Some v)
  | Raise e => Raise e
  end.

End EmbeddingsSpec.

(** ** The vector database as the store sees it *)

Module VectorStoreSpec.
Import Exc Mono.

(** Distances in ascending order, by [<=] on binary64. *)
Fixpoint ascending (ds : list float) : Prop :=
  match ds with
  | [] => True
  | d :: r =>
      match r with
      | [] => True
      | d' :: _ => (d <=? d')%float = true
      end /\ ascending r
  end.

(** The distance from the query embedding [q] to a row, for a database
    whose distance function is [dist]. *)
Definition distance_to (dist : embedding -> embedding -> float)
    (q : embedding) (r : Row) : float :=
  dist q (row_embedding r).

(** The dict [collection.query] answers with when it reports the rows
    [hits] for the one query embedding [q]: one inner list per field,
    holding the documents, the metadatas and the distances to [q] of the
    hits, in their order. *)
Definition answer (dist : embedding -> embedding -> float) (q : embedding)
    (hits : list Row) : QueryResult :=
  {| documents := [map row_document hits];
     metadatas := [map row_metadata hits];
     distances := [map (distance_to dist q) hits] |}.

(** What the store expects of the answer [res] of [collection.query] to
    the query embedding [q] with [n_results = n]: it reports rows of the
    collection, each stored row at most once, [n] of them or all if there
    are fewer, closest first, and no row left out is closer than a
    reported one. *)
Definition nearest_neighbour (dist : embedding -> embedding -> float)
    (collection : Collection) (q : embedding) (n : Z)
    (res : result QueryResult) : Prop :=
  exists hits rest,
    res = Ok (answer dist q hits)
    /\ Permutation (hits ++ rest) collection
    /\ List.length hits = Nat.min (Z.to_nat n) (List.length collection)
    /\ ascending (map (distance_to dist q) hits)
    /\ (forall h r, In h hits -> In r rest ->
        (distance_to dist q h <=? distance_to dist q r)%float = true).

(** A reference database: exhaustive search by squared Euclidean
    distance, computed in binary64 from the coordinates. *)
Fixpoint float_of_pos (p : positive) : float :=
  match p with
  | xH => 1
  | xO p => 2 * float_of_pos p
  | xI p => 2 * float_of_pos p + 1
  end%float.

Definition float_of_Z (z : Z) : float :=
  match z with
  | Z0 => 0
  | Zpos p => float_of_pos p
  | Zneg p => - float_of_pos p
  end%float.

Definition float_of_Q (x : Q) : float :=
  (float_of_Z (Qnum x) / float_of_pos (Qden x))%float.

Definition sq_dist (a b : embedding) : float :=
  fold_right PrimFloat.add 0%float
    (map (fun '(x, y) =>
            let d := (float_of_Q x - float_of_Q y)%float in (d * d)%float)
       (combine a b)).

Fixpoint insert_by (d : Row -> float) (x : Row) (l : list Row) : list Row :=
  match l with
  | [] => [x]
  | y :: r => if (d x <=? d y)%float then x :: l else y :: insert_by d x r
  end.

Definition sort_by (d : Row -> float) (l : list Row) : list Row :=
  fold_right (insert_by d) [] l.

Definition exhaustive_query (collection : Collection)
    (query_embeddings : list (option embedding)) (n_results : Z)
    : result QueryResult :=
  match query_embeddings with
  | [Some q] =>
      Ok (answer sq_dist q
            (firstn (Z.to_nat n_results)
               (sort_by (distance_to sq_dist q) collection)))
  | _ => Raise (ExternalError "expected one query embedding")
  end.

Definition exhaustive_env : Env :=
  {| embed_content := fun _ _ => Ok [1%Q; 0%Q];
     collection_query := exhaustive_query |}.

Definition row (id doc : string) (v : embedding) (i : nat) : Row :=
  {| row_id := id; row_embedding := v; row_document := doc;
     row_metadata :=
       {| md_source := "hawa_singh/tips.txt"; md_chunk_index := i;
          md_word_count := 2%nat; md_creator_id := "hawa_singh";
          md_creator_name := "Hawa Singh"; md_creator_specialty := "YouTube" |} |}.

(** A store with one collection of two rows. *)
Definition two_rows : Collection :=
  [row "tips_chunk_0" "far away" [0%Q; 1%Q] 0;
   row "tips_chunk_1" "close by" [1%Q; 0%Q] 1].

Definition world_two_rows : World :=
  {| clock := 0%Q;
     log := [];
     embedding_dimension := None;
     collections := {[ "hawa_singh" := two_rows ]};
     last_query_time := 0%Q |}.

End VectorStoreSpec.

(** ** Auxiliary notions and inputs for the microservice path *)

Module ServiceSpec.
Import Exc Service.

(** The query [_execute_retrieval] sends to the vector database. *)
Definition sent_query (query_embedding : list Q) (creator_id : string)
    (max_chunks : Z) (similarity_threshold : Q) : WeaviateQuery :=
  {| class_name := "CreatorContent";
     near_vector := query_embedding;
     near_certainty := similarity_threshold;
     where_path := ["creator_id"];
     where_operator := "Equal";
     where_valueString := creator_id;
     limit := max_chunks;
     additional := ["certainty"; "distance"] |}.

(** The certainty [_execute_retrieval] reads off an item. *)
Definition certainty_of (item : WeaviateItem) : Q :=
  default 0%Q (item_certainty item).

(** The chunks [_execute_retrieval] makes of the answer of the database:
    none when the database failed or found nothing. *)
Definition retrieved (creator_id : string) (similarity_threshold : Q)
    (answer : result (option (list WeaviateItem))) : list ContextChunk :=
  match answer with
  | Ok (Some items) =>
      flat_map (keep_item creator_id similarity_threshold) items
  | _ => []
  end.

(** The response of a skipped, respectively failed, retrieval. *)
Definition skip_response (request : RetrievalRequest) : RetrievalResponse :=
  {| chunks := []; total_chunks := 0;
     creator_id := req_creator_id request; retrieval_strategy := "skip" |}.

Definition error_response (request : RetrievalRequest) : RetrievalResponse :=
  {| chunks := []; total_chunks := 0;
     creator_id := req_creator_id request; retrieval_strategy := "error" |}.

(** An analysis that asks for steps without being a how-to. *)
Definition steps_analysis : QueryAnalysis :=
  {| intent := QUESTION; complexity := SIMPLE; is_greeting := false;
     is_inappropriate := false; is_step_by_step := true;
     confidence := (8 # 10)%Q |}.

(** One stored passage that is not close enough to the query. *)
Definition distant_item : WeaviateItem :=
  {| item_certainty := Some (1 # 2)%Q;
     item_content := Some "Upload on a fixed schedule.";
     item_source := Some "hawa_singh/tips.txt";
     item_metadata := None |}.

(** The generative model is unreachable (the heuristic classifier takes
    over), the embedding provider works, and the database answers with
    [distant_item]. *)
Definition heuristic_env : Env :=
  {| generate_analysis := fun _ => Raise (ExternalError "model unreachable");
     embed_content := fun _ => Ok [1%Q; 0%Q];
     weaviate_do := fun _ => Ok (Some [distant_item]) |}.

(** The same, with the embedding provider down. *)
Definition embed_down_env : Env :=
  {| generate_analysis := fun _ => Raise (ExternalError "model unreachable");
     embed_content := fun _ => Raise (ExternalError "503 Service Unavailable");
     weaviate_do := fun _ => Ok (Some [distant_item]) |}.

End ServiceSpec.

(** ** Further notions used by the properties of the chunker *)

Module ChunkingMore.
Import Chunking.

(** Every character of [s] satisfies [p]. *)
Fixpoint all_chars (p : ascii -> bool) (s : string) : bool :=
  match s with
  | EmptyString => true
  | String c r => p c && all_chars p r
  end.

(** [s] occurs in [p] as a contiguous piece. *)
Definition occurs_in (s p : string) : Prop :=
  exists a b, p = a +:+ s +:+ b.

(** A character [_clean_text] can leave in its result: allow-listed, and if
    it is whitespace it is the space. *)
Definition clean_char (c : ascii) : bool :=
  kept_char c && (negb (Py.is_space c) || Ascii.eqb c " "%char).

(** A sentence as [_split_into_sentences] returns them: non-empty and
    stripped. *)
Definition sentence_ok (s : string) : Prop :=
  Py.truthy s = true /\ Py.strip s = s.

End ChunkingMore.

(** ** [src/src/embeddings.py]: the batch interface of GeminiEmbedder *)

Module EmbeddingsBatch.
Import Exc Mono Embeddings.

(** The text [embed_text] finds in its argument, if any. *)
Definition input_text (input : EmbedInput) : option string :=
  match input with
  | InStr s => Some s
  | InDict content => content
  | InOther => None
  end.

(** The world after the first successful provider call noted the
    dimension of [v]. *)
Definition noted (v : embedding) (w : World) : World :=
  match embedding_dimension w with
  | None => set_embedding_dimension (Some (Z.of_nat (List.length v))) w
  | Some _ => w
  end.

(** [range(start, stop, step)]: a step of 0 is a [ValueError]. *)
Definition range_step (start stop step : Z) : result (list Z) :=
  if step =? 0 then Raise (ValueError "range() arg 3 must not be zero")
  else
    let n :=
      if 0 <? step then (stop - start + step - 1) / step
      else (start - stop - step - 1) / (- step) in
    Ok (map (fun k => start + Z.of_nat k * step) (seq 0 (Z.to_nat n))).

(** [l[i:j]]: a negative bound counts from the end, and both bounds are
    clamped to the list. *)
Definition slice {A} (l : list A) (i j : Z) : list A :=
  let n := Z.of_nat (List.length l) in
  let norm := fun k => if k <? 0 then Z.max 0 (k + n) else Z.min k n in
  firstn (Z.to_nat (norm j - norm i)) (skipn (Z.to_nat (norm i)) l).

(** The inner loop of [embed_batch], [for text in batch], with the list
    [batch_embeddings] it appends to. *)
Fixpoint batch_loop (env : Env) (batch : list EmbedInput)
    (batch_embeddings : list (option embedding))
    : M World (list (option embedding)) :=
  match batch with
  | [] => ret batch_embeddings
  | text :: rest =>
      let! embedding := embed_text env text in
      let batch_embeddings := (batch_embeddings ++ [embedding])%list in
      do! time_sleep (1 # 10)%Q in
      batch_loop env rest batch_embeddings
  end.

(** The outer loop of [embed_batch] over the batch starts [i], with the
    list [embeddings] it extends. *)
Fixpoint batches_loop (env : Env) (texts : list EmbedInput) (batch_size : Z)
    (starts : list Z) (embeddings : list (option embedding))
    : M World (list (option embedding)) :=
  match starts with
  | [] => ret embeddings
  | i :: rest =>
      let batch := slice texts i (i + batch_size) in
      let! batch_embeddings := batch_loop env batch [] in
      let embeddings := (embeddings ++ batch_embeddings)%list in
      batches_loop env texts batch_size rest embeddings
  end.

(** [GeminiEmbedder.embed_batch]. *)
Definition embed_batch (env : Env) (texts : list EmbedInput) (batch_size : Z)
    : M World (list (option embedding)) :=
  let! starts :=
    lift (range_step 0 (Z.of_nat (List.length texts)) batch_size) in
  batches_loop env texts batch_size starts [].

(** Embedding one text of a batch: the call of [embed_text] followed by
    the pause of a tenth of a second. *)
Definition embed_one (env : Env) (text : EmbedInput)
    : M World (option embedding) :=
  let! embedding := embed_text env text in
  do! time_sleep (1 # 10)%Q in
  ret embedding.

End EmbeddingsBatch.

(** ** Auxiliary notions for the single-process retrieval *)

Module RetrievalSpec.
Import Exc Mono Retrieval.

(** The world when [retrieve_context] has done its rate limiting: it has
    slept for what was missing to [min_query_interval] since the last
    query, if anything, and has noted the time. *)
Definition started (w : World) : World :=
  let time_since_last_query := (clock w - last_query_time w)%Q in
  let w1 :=
    if negb (Qle_bool min_query_interval time_since_last_query) then
      add_event (EvSleep (min_query_interval - time_since_last_query)%Q)
        (set_clock
           (clock w + (min_query_interval - time_since_last_query))%Q w)
    else w in
  set_last_query_time (clock w1) w1.

(** The part of [retrieve_context] inside its [try]. *)
Definition attempt (env : Env) (query creator : string)
    : M World RetrievalResult :=
  let! query_embedding :=
    Embeddings.embed_text env (Embeddings.InDict (Some query)) in
  let '(n_results, strategy) := choose_strategy (_analyze_query query) in
  let! results :=
    VectorStore.search_creator env creator query_embedding n_results in
  let! chunks :=
    (if Py.truthy_list (documents results)
        && Py.truthy_list (hd [] (documents results))
     then mapM (make_chunk results creator)
            (seq 0 (List.length (hd [] (documents results))))
     else ret []) in
  ret {| retrieval_strategy := strategy;
         total_chunks := List.length chunks;
         chunks := chunks;
         best_creator := if Py.truthy_list chunks then Some creator else None |}.

(** Queries of the vector database among the events. *)
Definition is_query_event (e : Event) : bool :=
  match e with
  | EvCollectionQuery _ _ _ => true
  | _ => false
  end.

(** The chunk made of a document, its metadata and its distance. *)
Definition chunk_of (creator : string)
    (hit : string * (Metadata * float)) : ContextChunk :=
  let '(doc, (m, d)) := hit in
  {| content := doc; creator_id := creator;
     similarity := Py.Float (1 - d)%float; source := md_source m |}.

(** The three messages [retrieve_context] raises. *)
Definition generic_errors : list exn :=
  [Exception "Rate limit exceeded. Please wait a moment and try again.";
   Exception "Unable to process your query. Please try rephrasing it.";
   Exception "An error occurred while retrieving context. Please try again."].

(** A vector database that answers with two documents and one
    distance. *)
Definition ragged_env : Env :=
  {| embed_content := fun _ _ => Ok [1%Q; 0%Q];
     collection_query := fun _ _ _ =>
       Ok {| documents := [["close by"; "far away"]];
             metadatas := [];
             distances := [[0%float]] |} |}.

End RetrievalSpec.

(** ** [src/scalable_chatbot/retrieval_service/main.py]: the endpoint *)

Module ServiceApi.
Import Exc Service.

(** What the client of [POST /retrieve] gets: the response with status
    200, or the status and detail of the [HTTPException] the handler
    raised. *)
Inductive HttpAnswer :=
| Http200 (response : RetrievalResponse)
| HttpError (status_code : Z) (detail : string).

(** The handler [retrieve_context] of [main.py].  An [HTTPException]
    raised inside its [try] is re-raised unchanged by the first [except]
    clause, so it is modelled as the answer it becomes; any other
    exception becomes a 500. *)
Definition retrieve_endpoint (env : Env) (request : RetrievalRequest)
    : M World HttpAnswer :=
  try_catch
    (if negb (Py.truthy (Py.strip (query request))) then
       ret (HttpError 400 "Query cannot be empty")
     else if negb (Py.truthy (req_creator_id request)) then
       ret (HttpError 400 "Creator ID is required")
     else
       let! response := retrieve_context env request in
       ret (Http200 response))
    (fun e => ret (HttpError 500 ("Retrieval failed: " +:+ str e))).

(** The labels a response can carry. *)
Definition strategy_labels : list string :=
  ["skip"; "error"; "comprehensive"; "focused"; "structured"; "balanced"].

(** The denylist of the heuristic classifier. *)
Definition inappropriate_keywords : list string :=
  ["sex"; "porn"; "adult"; "nsfw"].

(** The generative model and the database are down; only the embedding
    provider works. *)
Definition store_down_env : Env :=
  {| generate_analysis := fun _ => Raise (ExternalError "model unreachable");
     embed_content := fun _ => Ok [1%Q; 0%Q];
     weaviate_do := fun _ => Raise (ExternalError "connection refused") |}.

(** Everything works, and the generative model classifies every query
    as [steps_analysis]. *)
Definition model_env : Env :=
  {| generate_analysis := fun _ => Ok ServiceSpec.steps_analysis;
     embed_content := embed_content ServiceSpec.heuristic_env;
     weaviate_do := weaviate_do ServiceSpec.heuristic_env |}.

End ServiceApi.

(** ** [src/src/query_analyzer.py]: topic scores *)

Module QueryAnalyzerTopics.

(** [self.topic_keywords]. *)
Definition topic_keywords : list (string * list string) :=
  [("hawa_singh",
    ["youtube"; "channel"; "video"; "content"; "monetization";
     "subscriber"; "view"; "algorithm"; "seo"; "thumbnail";
     "viral"; "analytics"; "audience"; "creator"; "engagement";
     "upload"; "playlist"; "community"; "shorts"; "live"])].

(** [sum(1 for keyword in keywords if keyword in query)]. *)
Definition keyword_hits (keywords : list string) (query : string) : Z :=
  Z.of_nat (List.length (List.filter (fun keyword => Py.contains keyword query)
                           keywords)).

(** [QueryAnalyzer._calculate_topic_scores]: the dict of scores, as the
    list of its items. *)
Definition _calculate_topic_scores (query : string) : list (string * Q) :=
  map (fun '(topic, keywords) =>
         let score := keyword_hits keywords query in
         (topic,
          (inject_Z score / inject_Z (Z.of_nat (List.length keywords)))%Q))
    topic_keywords.

End QueryAnalyzerTopics.

(** * Properties *)

(** ** Text primitives *)

Module PyFacts.

Lemma len_nonneg (s : string) : 0 <= Py.len s.
Proof. unfold Py.len. lia. Qed.

Lemma len_app (a b : string) : Py.len (a +:+ b) = Py.len a + Py.len b.
Proof.
  unfold Py.len. induction a as [|c a IH]; simpl; [reflexivity|].
  rewrite !Nat2Z.inj_succ. lia.
Qed.

Lemma len_String (c : ascii) (s : string) :
  Py.len (String c s) = 1 + Py.len s.
Proof. unfold Py.len. simpl String.length. lia. Qed.

Lemma len_lstrip_le (s : string) : Py.len (Py.lstrip s) <= Py.len s.
Proof.
  induction s as [|c s IH]; simpl; [lia|].
  destruct (Py.is_space c); rewrite ?len_String; [|lia].
  pose proof (len_nonneg s). lia.
Qed.

Lemma len_rstrip_le (s : string) : Py.len (Py.rstrip s) <= Py.len s.
Proof.
  induction s as [|c s IH]; simpl; [lia|].
  destruct (Py.rstrip s) as [|c' r'].
  - destruct (Py.is_space c); rewrite ?len_String;
      pose proof (len_nonneg s); unfold Py.len in *; simpl in *; lia.
  - rewrite !len_String in *. lia.
Qed.

Lemma len_strip_le (s : string) : Py.len (Py.strip s) <= Py.len s.
Proof.
  unfold Py.strip.
  pose proof (len_rstrip_le (Py.lstrip s)). pose proof (len_lstrip_le s). lia.
Qed.

(** A leading space does not survive [strip]. *)
Lemma strip_leading_space (s : string) : Py.strip (" " +:+ s) = Py.strip s.
Proof. reflexivity. Qed.

Lemma lstrip_all_space (s : string) :
  Py.all_space s = true -> Py.lstrip s = "".
Proof.
  induction s as [|c s IH]; simpl; [reflexivity|].
  intros H. apply andb_true_iff in H as [Hc Hs]. rewrite Hc. auto.
Qed.

(** A string of whitespace strips to the empty string. *)
Lemma strip_all_space (s : string) : Py.all_space s = true -> Py.strip s = "".
Proof. intros H. unfold Py.strip. rewrite lstrip_all_space; auto. Qed.

End PyFacts.

(** ** The chunker *)

Module ChunkingFacts.
Import Chunking ChunkingSpec PyFacts.

Lemma join_cons2 (sep w w' : string) (ws : list string) :
  Py.join sep (w :: w' :: ws) = w +:+ sep +:+ Py.join sep (w' :: ws).
Proof. reflexivity. Qed.

Lemma len_join_le (ws : list string) :
  Py.len (Py.join " " ws) <= words_cost ws.
Proof.
  induction ws as [|w ws IH]; [unfold Py.len; simpl; lia|].
  destruct ws as [|w' ws].
  - change (Py.join " " [w]) with w. simpl. lia.
  - rewrite join_cons2, !len_app. change (Py.len " ") with 1.
    change (words_cost (w :: w' :: ws))
      with (Py.len w + 1 + words_cost (w' :: ws)).
    lia.
Qed.

Lemma overlap_loop_cost (rwords : list string) (overlap_size : Z) :
  forall overlap_words char_count,
    char_count = words_cost overlap_words ->
    char_count <= overlap_size ->
    words_cost (overlap_loop rwords overlap_size overlap_words char_count)
    <= overlap_size.
Proof.
  induction rwords as [|word rest IH]; intros ows cc Hcc Hle; simpl.
  - lia.
  - destruct (Z.leb_spec (cc + Py.len word + 1) overlap_size) as [Hfit|Hno].
    + apply IH; [simpl; lia | exact Hfit].
    + lia.
Qed.

(** The overlap text never exceeds the overlap size. *)
Lemma _get_overlap_text_len (text : string) (overlap_size : Z) :
  0 <= overlap_size ->
  Py.len (_get_overlap_text text overlap_size) <= overlap_size.
Proof.
  intros Hpos. unfold _get_overlap_text.
  destruct (Z.leb_spec (Py.len text) overlap_size) as [Hle|Hgt]; [exact Hle|].
  etransitivity; [apply len_join_le|].
  apply overlap_loop_cost; [reflexivity | exact Hpos].
Qed.

(** One step of the loop keeps closed passages and the accumulator in
    shape. *)
Lemma chunk_step_ok (self : SmartChunker) (sentences : list string)
    (chunks : list string) (cur sentence : string) :
  In sentence sentences ->
  Forall (passage_ok self sentences) chunks ->
  current_ok self sentences cur ->
  Forall (passage_ok self sentences)
    (fst (chunk_step self (chunks, cur) sentence))
  /\ current_ok self sentences (snd (chunk_step self (chunks, cur) sentence)).
Proof.
  intros Hin Hchunks Hcur. unfold chunk_step.
  set (potential := if Py.truthy cur then cur +:+ " " +:+ sentence
                    else sentence).
  destruct (Z.leb_spec (Py.len potential) (chunk_size self)) as [Hfit|Hover].
  - split; [exact Hchunks | left; exact Hfit].
  - set (chunks' := if Py.truthy cur then (chunks ++ [Py.strip cur])%list
                    else chunks).
    assert (Hchunks' : Forall (passage_ok self sentences) chunks').
    { subst chunks'. destruct (Py.truthy cur) eqn:Htruthy; [|exact Hchunks].
      apply Forall_app. split; [exact Hchunks|].
      constructor; [|constructor].
      destruct Hcur as [Hle | [Hempty | (s & o & Hs & Ho & [Heq | Heq])]].
      + left. pose proof (len_strip_le cur). lia.
      + subst cur. discriminate Htruthy.
      + right. exists s, "". repeat split; [exact Hs | |].
        * change (Py.len "") with 0. lia.
        * subst cur. symmetry. apply strip_leading_space.
      + right. exists s, o. subst cur. auto. }
    destruct (Py.truthy_list chunks' && (0 <? overlap self)) eqn:Hov.
    + split; [exact Hchunks'|]. simpl.
      apply andb_true_iff in Hov as [_ Hpos]. apply Z.ltb_lt in Hpos.
      right. right.
      exists sentence, (_get_overlap_text cur (overlap self)).
      repeat split; [exact Hin | | right; reflexivity].
      pose proof (_get_overlap_text_len cur (overlap self)). lia.
    + split; [exact Hchunks'|]. simpl.
      right. right. exists sentence, "".
      repeat split; [exact Hin | | left; reflexivity].
      change (Py.len "") with 0. lia.
Qed.

(** The invariant carries over the whole loop. *)
Lemma fold_chunk_step_ok (self : SmartChunker) (sentences : list string) :
  forall (todo : list string) (st : list string * string),
    incl todo sentences ->
    Forall (passage_ok self sentences) (fst st) ->
    current_ok self sentences (snd st) ->
    Forall (passage_ok self sentences)
      (fst (fold_left (chunk_step self) todo st))
    /\ current_ok self sentences (snd (fold_left (chunk_step self) todo st)).
Proof.
  induction todo as [|sentence todo IH]; intros [chunks cur] Hincl Hc Hcur.
  - split; assumption.
  - simpl fold_left.
    destruct (chunk_step_ok self sentences chunks cur sentence)
      as [Hc' Hcur']; auto.
    { apply Hincl. left. reflexivity. }
    apply IH; auto.
    intros x Hx. apply Hincl. right. exact Hx.
Qed.

(** Every passage [_create_semantic_chunks] returns is within the budget or
    is a single sentence behind an overlap prefix. *)
Lemma _create_semantic_chunks_ok (self : SmartChunker)
    (sentences : list string) :
  Forall (passage_ok self sentences) (_create_semantic_chunks self sentences).
Proof.
  unfold _create_semantic_chunks.
  destruct (fold_chunk_step_ok self sentences sentences ([], ""))
    as [Hc Hcur].
  { apply incl_refl. }
  { constructor. }
  { right. left. reflexivity. }
  destruct (fold_left (chunk_step self) sentences ([], "")) as [chunks cur].
  simpl in Hc, Hcur.
  destruct (Py.truthy cur) eqn:Htruthy; [|exact Hc].
  apply Forall_app. split; [exact Hc|].
  constructor; [|constructor].
  destruct Hcur as [Hle | [Hempty | (s & o & Hs & Ho & [Heq | Heq])]].
  - left. pose proof (len_strip_le cur). lia.
  - subst cur. discriminate Htruthy.
  - right. exists s, "". repeat split; [exact Hs | |].
    + change (Py.len "") with 0. lia.
    + subst cur. symmetry. apply strip_leading_space.
  - right. exists s, o. subst cur. auto.
Qed.

Lemma In_enumerate_from {A} (l : list A) :
  forall i j x, In (j, x) (enumerate_from i l) -> In x l.
Proof.
  induction l as [|y l IH]; intros i j x H; simpl in *; [contradiction|].
  destruct H as [H|H]; [inversion H; auto | right; eapply IH; eauto].
Qed.

(** The contents of the chunk objects are the passages. *)
Lemma chunk_text_content (self : SmartChunker) (text source : string)
    (p : Chunk) :
  In p (chunk_text self text source) ->
  In (content p)
    (_create_semantic_chunks self (_split_into_sentences (_clean_text text))).
Proof.
  unfold chunk_text. intros H. apply in_map_iff in H as ([i c] & Hp & Hin).
  subst p. simpl. eapply In_enumerate_from; eauto.
Qed.

(** C3 (as amended): every passage produced by [chunk_text] is at most
    [chunk_size] characters long, or it is one whole sentence of the cleaned
    text behind an overlap prefix of at most [overlap] characters taken
    from the passage before (the prefix may be empty); such a passage is at
    most [overlap + 1 + len(sentence)] characters long and the sentence in
    it is never cut. *)
Theorem chunk_text_length_bound (self : SmartChunker) (text source : string)
    (p : Chunk) :
  In p (chunk_text self text source) ->
  Py.len (content p) <= chunk_size self
  \/ exists s o,
       In s (_split_into_sentences (_clean_text text))
       /\ Py.len o <= Z.max 0 (overlap self)
       /\ content p = Py.strip (o +:+ " " +:+ s)
       /\ Py.len (content p) <= Z.max 0 (overlap self) + 1 + Py.len s.
Proof.
  intros Hin. apply chunk_text_content in Hin.
  pose proof (_create_semantic_chunks_ok self
                (_split_into_sentences (_clean_text text))) as Hall.
  rewrite List.Forall_forall in Hall. specialize (Hall _ Hin).
  destruct Hall as [Hle | (s & o & Hs & Ho & Heq)]; [left; exact Hle|].
  right. exists s, o. repeat split; auto.
  rewrite Heq. pose proof (len_strip_le (o +:+ " " +:+ s)) as Hstrip.
  rewrite !len_app in Hstrip. change (Py.len " ") with 1 in Hstrip. lia.
Qed.

Lemma chunk_text_length_bound_witness :
  In Inputs.small_passage
    (chunk_text Inputs.small_chunker Inputs.small_text "doc")
  /\ (Py.len (content Inputs.small_passage) <= chunk_size Inputs.small_chunker
      \/ exists s o,
           In s (_split_into_sentences (_clean_text Inputs.small_text))
           /\ Py.len o <= Z.max 0 (overlap Inputs.small_chunker)
           /\ content Inputs.small_passage = Py.strip (o +:+ " " +:+ s)
           /\ Py.len (content Inputs.small_passage)
              <= Z.max 0 (overlap Inputs.small_chunker) + 1 + Py.len s).
Proof.
  assert (Hin : In Inputs.small_passage
                  (chunk_text Inputs.small_chunker Inputs.small_text "doc")).
  { vm_compute. right. left. reflexivity. }
  split; [exact Hin|].
  exact (chunk_text_length_bound _ _ _ _ Hin).
Defined.

(** The run of the chunker on [small_text], step by step checkable by
    hand: the second passage is the overlap word followed by the second
    sentence. *)
Example chunk_text_small :
  map content (chunk_text Inputs.small_chunker Inputs.small_text "doc")
  = ["aaaa bbbb cccc dddd"; "dddd eeee ffff gggg hhhh"; "hhhh x"]
  /\ _split_into_sentences (_clean_text Inputs.small_text)
     = ["aaaa bbbb cccc dddd"; "eeee ffff gggg hhhh"; "x"]
  /\ chunk_size Inputs.small_chunker = 20.
Proof. repeat split; vm_compute; reflexivity. Qed.

(** C3 (as stated) fails: with the default configuration (1000 / 200) and a
    document of two sentences of 899 characters, the second passage has
    1099 characters although no sentence exceeds the maximum. *)
Lemma chunk_text_over_budget :
  chunk_size (init None None) = 1000
  /\ overlap (init None None) = 200
  /\ map Py.len (_split_into_sentences (_clean_text Inputs.long_text))
     = [899; 899]
  /\ map (fun p => Py.len (content p))
       (chunk_text (init None None) Inputs.long_text "doc")
     = [899; 1099].
Proof. repeat split; vm_compute; reflexivity. Qed.

End ChunkingFacts.

(** ** The embedding client *)

Module EmbeddingsFacts.
Import Exc Mono Embeddings EmbeddingsSpec PyFacts.

Lemma provider_calls_embed (text : string) (w : World) :
  provider_calls (add_event (EvEmbedContent text) w) = S (provider_calls w).
Proof.
  unfold provider_calls. simpl. rewrite List.filter_app, length_app. simpl. lia.
Qed.

Lemma provider_calls_sleep (d : Q) (w : World) :
  provider_calls (add_event (EvSleep d) w) = provider_calls w.
Proof.
  unfold provider_calls. simpl. rewrite List.filter_app, length_app. simpl. lia.
Qed.

(** An attempt the provider answers ends the loop. *)
Lemma retry_loop_ok (env : Env) (text : string) (attempt : Z)
    (rest : list Z) (delay : Z) (w : World) (v : embedding) :
  embed_content env (provider_calls w) text = Ok v ->
  fst (retry_loop env text (attempt :: rest) delay w) = Ok (Some v)
  /\ log (snd (retry_loop env text (attempt :: rest) delay w))
     = (log w ++ [EvEmbedContent text])%list.
Proof.
  intros H. simpl. unfold try_catch, bind, genai_embed_content.
  rewrite H. simpl. unfold note_dimension, modify. simpl.
  destruct (embedding_dimension w); simpl; auto.
Qed.

(** An attempt that fails without a retry ends the loop with the
    provider's exception. *)
Lemma retry_loop_raise (env : Env) (text : string) (attempt : Z)
    (rest : list Z) (delay : Z) (w : World) (e : exn) :
  embed_content env (provider_calls w) text = Raise e ->
  Py.contains "429" (str e) && (attempt <? max_retries - 1) = false ->
  retry_loop env text (attempt :: rest) delay w
  = (Raise e, add_event (EvEmbedContent text) w).
Proof.
  intros H Hcond. simpl. unfold try_catch, bind, genai_embed_content.
  rewrite H. rewrite Hcond. reflexivity.
Qed.

(** A rate-limited attempt that is not the last one sleeps [delay] and
    goes on with the delay doubled. *)
Lemma retry_loop_retry (env : Env) (text : string) (attempt : Z)
    (rest : list Z) (delay : Z) (w : World) (e : exn) :
  embed_content env (provider_calls w) text = Raise e ->
  Py.contains "429" (str e) && (attempt <? max_retries - 1) = true ->
  retry_loop env text (attempt :: rest) delay w
  = retry_loop env text rest (delay * 2)
      (add_event (EvSleep (inject_Z delay))
         (set_clock (clock w + inject_Z delay)%Q
            (add_event (EvEmbedContent text) w))).
Proof.
  intros H Hcond. simpl. unfold try_catch at 1. unfold bind at 1.
  unfold genai_embed_content at 1. rewrite H. rewrite Hcond.
  reflexivity.
Qed.

(** On a text that is not blank, [embed_text] is its retry loop over the
    attempts 0, 1, 2 with a first delay of 2. *)
Lemma embed_text_nonblank (env : Env) (text : string) (w : World) :
  Py.truthy (Py.strip text) = true ->
  embed_text env (InStr text) w = retry_loop env text [0; 1; 2] 2 w.
Proof.
  intros H. unfold embed_text, try_catch, bind, ret. rewrite H.
  change (range max_retries) with [0; 1; 2].
  cbv beta iota. change (negb true) with false. cbv iota.
  destruct (retry_loop env text [0; 1; 2] 2 w) as [[v|e] w']; reflexivity.
Qed.

Lemma is_rate_limit_Raise (e : exn) :
  is_rate_limit (Raise e) = Py.contains "429" (str e).
Proof. reflexivity. Qed.

(** C7: on a text that is not blank, [embed_text] calls the provider at
    most three times.  It stops at the first outcome that is not a
    rate-limit signal (an embedding, or an exception without 429, which is
    raised at once without sleeping or calling again) and otherwise at
    the third outcome, whatever it is; before the second call it sleeps 2
    and before the third it sleeps 4. *)
Theorem embed_text_retry_policy (env : Env) (text : string) (w : World) :
  Py.truthy (Py.strip text) = true ->
  let r := fun i : nat => embed_content env (provider_calls w + i) text in
  let run := embed_text env (InStr text) w in
  if negb (is_rate_limit (r 0%nat)) then
    fst run = outcome (r 0%nat)
    /\ log (snd run) = (log w ++ [EvEmbedContent text])%list
  else if negb (is_rate_limit (r 1%nat)) then
    fst run = outcome (r 1%nat)
    /\ log (snd run)
       = (log w ++ [EvEmbedContent text; EvSleep 2; EvEmbedContent text])%list
  else
    fst run = outcome (r 2%nat)
    /\ log (snd run)
       = (log w ++ [EvEmbedContent text; EvSleep 2; EvEmbedContent text;
                    EvSleep 4; EvEmbedContent text])%list.
Proof.
  intros Hne r run. subst run. rewrite embed_text_nonblank by exact Hne.
  assert (Hr0 : r 0%nat = embed_content env (provider_calls w) text).
  { subst r. cbv beta. rewrite Nat.add_0_r. reflexivity. }
  destruct (r 0%nat) as [v0|e0] eqn:E0.
  { cbn [is_rate_limit negb outcome]. symmetry in Hr0.
    apply retry_loop_ok. exact Hr0. }
  rewrite is_rate_limit_Raise.
  destruct (Py.contains "429" (str e0)) eqn:L0; simpl negb; cbv iota.
  2:{ rewrite (retry_loop_raise env text 0 [1; 2] 2 w e0);
        [simpl; auto | congruence | rewrite L0; reflexivity]. }
  rewrite (retry_loop_retry env text 0 [1; 2] 2 w e0);
    [| congruence | rewrite L0; reflexivity].
  set (w1 := add_event (EvSleep (inject_Z 2)) _).
  assert (Hc1 : provider_calls w1 = (provider_calls w + 1)%nat).
  { subst w1. rewrite provider_calls_sleep.
    unfold set_clock, provider_calls. simpl.
    rewrite List.filter_app, length_app. simpl. lia. }
  assert (Hl1 : log w1
                = (log w ++ [EvEmbedContent text; EvSleep 2])%list).
  { subst w1. simpl. rewrite <- app_assoc. reflexivity. }
  clearbody w1.
  assert (Hr1 : r 1%nat = embed_content env (provider_calls w1) text).
  { subst r. cbv beta. rewrite Hc1. reflexivity. }
  destruct (r 1%nat) as [v1|e1] eqn:E1.
  { cbn [is_rate_limit negb outcome]. symmetry in Hr1.
    destruct (retry_loop_ok env text 1 [2] (2 * 2) w1 v1 Hr1) as [Hf Hl].
    rewrite Hf, Hl, Hl1. rewrite <- app_assoc. simpl. auto. }
  rewrite is_rate_limit_Raise.
  destruct (Py.contains "429" (str e1)) eqn:L1; simpl negb; cbv iota.
  2:{ rewrite (retry_loop_raise env text 1 [2] (2 * 2) w1 e1);
        [| congruence | rewrite L1; reflexivity].
      simpl fst. simpl snd. split; [reflexivity|].
      simpl log at 1. rewrite Hl1, <- app_assoc. reflexivity. }
  rewrite (retry_loop_retry env text 1 [2] (2 * 2) w1 e1);
    [| congruence | rewrite L1; reflexivity].
  set (w2 := add_event (EvSleep (inject_Z (2 * 2))) _).
  assert (Hc2 : provider_calls w2 = (provider_calls w + 2)%nat).
  { subst w2. rewrite provider_calls_sleep.
    unfold set_clock, provider_calls. simpl.
    rewrite List.filter_app, length_app. simpl.
    unfold provider_calls in Hc1. rewrite Hc1. lia. }
  assert (Hl2 : log w2
                = (log w ++ [EvEmbedContent text; EvSleep 2;
                             EvEmbedContent text; EvSleep 4])%list).
  { subst w2. simpl. rewrite Hl1, <- !app_assoc. reflexivity. }
  clearbody w2.
  assert (Hr2 : r 2%nat = embed_content env (provider_calls w2) text).
  { subst r. cbv beta. rewrite Hc2. reflexivity. }
  destruct (r 2%nat) as [v2|e2] eqn:E2.
  { cbn [outcome]. symmetry in Hr2.
    destruct (retry_loop_ok env text 2 [] (2 * 2 * 2) w2 v2 Hr2) as [Hf Hl].
    rewrite Hf, Hl, Hl2. rewrite <- app_assoc. simpl. auto. }
  rewrite (retry_loop_raise env text 2 [] (2 * 2 * 2) w2 e2);
    [| congruence | apply andb_false_r].
  simpl fst. simpl snd. split; [reflexivity|].
  simpl log at 1. rewrite Hl2, <- app_assoc. reflexivity.
Qed.

Lemma embed_text_retry_policy_witness :
  Py.truthy (Py.strip "hello") = true
  /\ fst (embed_text Inputs.flaky_env (InStr "hello") Inputs.world0)
     = Ok (Some [1%Q; 0%Q])
  /\ log (snd (embed_text Inputs.flaky_env (InStr "hello") Inputs.world0))
     = [EvEmbedContent "hello"; EvSleep 2; EvEmbedContent "hello";
        EvSleep 4; EvEmbedContent "hello"].
Proof.
  split; [reflexivity|].
  exact (embed_text_retry_policy Inputs.flaky_env "hello" Inputs.world0
           eq_refl).
Defined.

(** An error that is not a rate-limit signal is raised after one call,
    without any sleep. *)
Example embed_text_no_retry :
  embed_text Inputs.failing_env (InStr "hello") Inputs.world0
  = (Raise (ExternalError "503 Service Unavailable"),
     add_event (EvEmbedContent "hello") Inputs.world0).
Proof. reflexivity. Qed.

(** C8: on a string that is empty or made of whitespace only, [embed_text]
    raises its [ValueError] and leaves the world as it was: nothing is
    logged, so the provider is not called.  The same holds when the string
    comes as the ['content'] of a dict. *)
Theorem embed_text_blank (env : Env) (text : string) (w : World) :
  Py.all_space text = true ->
  embed_text env (InStr text) w
  = (Raise (ValueError "Empty or whitespace-only text cannot be embedded"), w)
  /\ embed_text env (InDict (Some text)) w
     = (Raise (ValueError "Empty or whitespace-only text cannot be embedded"),
        w).
Proof.
  intros H. apply strip_all_space in H.
  unfold embed_text, try_catch, bind, ret, raise. rewrite H.
  split; reflexivity.
Qed.

Lemma embed_text_blank_witness :
  Py.all_space "   " = true
  /\ embed_text Inputs.flaky_env (InStr "   ") Inputs.world0
     = (Raise (ValueError "Empty or whitespace-only text cannot be embedded"),
        Inputs.world0).
Proof.
  split; [reflexivity|].
  exact (proj1 (embed_text_blank Inputs.flaky_env "   " Inputs.world0
                  eq_refl)).
Defined.

End EmbeddingsFacts.

(** ** The passage store *)

Module VectorStoreFacts.
Import Exc Mono VectorStore VectorStoreSpec.

Lemma search_creator_unfold (env : Env) (w : World) (creator_id : string)
    (q : option embedding) (n_results : Z) :
  search_creator env creator_id q n_results w
  = match collections w !! creator_id with
    | None =>
        (Ok {| documents := []; metadatas := []; distances := [] |}, w)
    | Some collection =>
        (collection_query env collection [q] n_results,
         add_event (EvCollectionQuery collection [q] n_results) w)
    end.
Proof.
  unfold search_creator, bind, get, ret, do_collection_query.
  destruct (collections w !! creator_id); reflexivity.
Qed.

(** An answer that honours the contract reports every row, once, when the
    collection holds fewer rows than were asked for. *)
Lemma nearest_neighbour_all (dist : embedding -> embedding -> float)
    (collection : Collection) (q : embedding) (n : Z)
    (res : result QueryResult) :
  Z.of_nat (List.length collection) < n ->
  nearest_neighbour dist collection q n res ->
  exists hits,
    res = Ok (answer dist q hits)
    /\ Permutation hits collection
    /\ ascending (map (distance_to dist q) hits).
Proof.
  intros Hfew (hits & rest & Hres & Hperm & Hlen & Hasc & _).
  pose proof (Permutation_length Hperm) as Hl.
  rewrite List.length_app in Hl.
  destruct rest as [|r rest]; [|simpl in Hl; lia].
  rewrite List.app_nil_r in Hperm. exists hits. auto.
Qed.

(** C9: for an owner without a collection, [search_creator] returns the
    empty result for every query vector and every [n_results]; it does not
    raise and does not touch the database (the world is unchanged).  For an
    owner with a collection it sends one query, to that collection, with
    the given vector and [n_results], and returns the database's answer as
    it is.  Hence, when the collection holds fewer than [n_results] rows and
    the database's answer honours the nearest-neighbour contract,
    [search_creator] returns every row of the collection once, each with
    its document, its metadata and its distance to the query vector: fewer
    than [n_results] results, by ascending distance. *)
Theorem search_creator_spec (env : Env) (w : World) (creator_id : string)
    (n_results : Z) :
  (collections w !! creator_id = None ->
   forall q, search_creator env creator_id q n_results w
             = (Ok {| documents := []; metadatas := []; distances := [] |}, w))
  /\ (forall collection q,
        collections w !! creator_id = Some collection ->
        search_creator env creator_id q n_results w
        = (collection_query env collection [q] n_results,
           add_event (EvCollectionQuery collection [q] n_results) w))
  /\ (forall dist collection q,
        collections w !! creator_id = Some collection ->
        Z.of_nat (List.length collection) < n_results ->
        nearest_neighbour dist collection q n_results
          (collection_query env collection [Some q] n_results) ->
        exists hits,
          fst (search_creator env creator_id (Some q) n_results w)
          = Ok (answer dist q hits)
          /\ Permutation hits collection
          /\ Z.of_nat (List.length hits) < n_results
          /\ ascending (map (distance_to dist q) hits)).
Proof.
  split; [|split].
  - intros Hnone q. rewrite search_creator_unfold, Hnone. reflexivity.
  - intros collection q Hsome. rewrite search_creator_unfold, Hsome.
    reflexivity.
  - intros dist collection q Hsome Hfew Hnn.
    destruct (nearest_neighbour_all dist collection q n_results _ Hfew Hnn)
      as (hits & Hres & Hperm & Hasc).
    exists hits. rewrite search_creator_unfold, Hsome. cbn [fst].
    split; [exact Hres|]. split; [exact Hperm|]. split; [|exact Hasc].
    rewrite (Permutation_length Hperm). exact Hfew.
Qed.

Lemma search_creator_spec_witness :
  collections world_two_rows !! "nobody" = None
  /\ search_creator exhaustive_env "nobody" (Some [1%Q; 0%Q]) 5 world_two_rows
     = (Ok {| documents := []; metadatas := []; distances := [] |},
        world_two_rows)
  /\ collections world_two_rows !! "hawa_singh" = Some two_rows
  /\ Z.of_nat (List.length two_rows) < 5
  /\ nearest_neighbour sq_dist two_rows [1%Q; 0%Q] 5
       (collection_query exhaustive_env two_rows [Some [1%Q; 0%Q]] 5)
  /\ exists hits,
       fst (search_creator exhaustive_env "hawa_singh" (Some [1%Q; 0%Q]) 5
              world_two_rows)
       = Ok (answer sq_dist [1%Q; 0%Q] hits)
       /\ Permutation hits two_rows
       /\ Z.of_nat (List.length hits) < 5
       /\ ascending (map (distance_to sq_dist [1%Q; 0%Q]) hits).
Proof.
  assert (Hnone : collections world_two_rows !! "nobody" = None)
    by (vm_compute; reflexivity).
  assert (Hsome : collections world_two_rows !! "hawa_singh" = Some two_rows)
    by (vm_compute; reflexivity).
  assert (Hfew : Z.of_nat (List.length two_rows) < 5) by (simpl; lia).
  assert (Hnn : nearest_neighbour sq_dist two_rows [1%Q; 0%Q] 5
                  (collection_query exhaustive_env two_rows
                     [Some [1%Q; 0%Q]] 5)).
  { exists (rev two_rows), [].
    split; [reflexivity|].
    split; [apply perm_swap|].
    split; [reflexivity|].
    split; [simpl; auto|].
    intros h r _ []. }
  split; [exact Hnone|].
  split.
  { exact (proj1 (search_creator_spec exhaustive_env world_two_rows
                    "nobody" 5) Hnone (Some [1%Q; 0%Q])). }
  split; [exact Hsome|].
  split; [exact Hfew|].
  split; [exact Hnn|].
  exact (proj2 (proj2 (search_creator_spec exhaustive_env world_two_rows
                         "hawa_singh" 5))
           sq_dist two_rows [1%Q; 0%Q] Hsome Hfew Hnn).
Defined.

(** The search on the two-row collection, evaluated: the closer row comes
    first. *)
Example search_creator_two_rows :
  fst (search_creator exhaustive_env "hawa_singh" (Some [1%Q; 0%Q]) 5
         world_two_rows)
  = Ok {| documents := [["close by"; "far away"]];
          metadatas := [[row_metadata (row "" "" [] 1);
                         row_metadata (row "" "" [] 0)]];
          distances := [[0%float; 2%float]] |}.
Proof. vm_compute. reflexivity. Qed.

End VectorStoreFacts.

(** ** The microservice path *)

Module ServiceFacts.
Import Exc Service ServiceSpec.

(** The classifier never raises: it answers with what the model said, or
    with the heuristic analysis when the model call or its parsing fails,
    after exactly one model call. *)
Lemma analyze_query_run (env : Env) (query : string) (w : World) :
  analyze_query env query w
  = (Ok match generate_analysis env query with
        | Ok analysis => analysis
        | Raise _ => _fallback_analysis query
        end,
     (w ++ [EvGenerateContent query])%list).
Proof.
  unfold analyze_query, _analyze_query_sync, try_catch, bind, emit, modify,
    lift, ret.
  destruct (generate_analysis env query); reflexivity.
Qed.

(** C2: when the classifier flags the query as a greeting or as
    inappropriate, [retrieve_context] returns the response with strategy
    skip and no chunks, and the only thing that happened in the world is
    the classifier's model call: no embedding call and no database query
    is made. *)
Theorem retrieve_context_skip (env : Env) (request : RetrievalRequest)
    (w : World) (analysis : QueryAnalysis) :
  fst (analyze_query env (query request) w) = Ok analysis ->
  is_greeting analysis || is_inappropriate analysis = true ->
  retrieve_context env request w
  = (Ok {| chunks := []; total_chunks := 0;
           creator_id := req_creator_id request;
           retrieval_strategy := "skip" |},
     (w ++ [EvGenerateContent (query request)])%list).
Proof.
  intros Ha Hskip. unfold retrieve_context, try_catch, bind.
  rewrite analyze_query_run in *. simpl in Ha. inversion Ha as [Ha'].
  rewrite Ha'. rewrite Hskip. reflexivity.
Qed.

Lemma retrieve_context_skip_witness :
  fst (analyze_query heuristic_env "hi" [])
  = Ok (_fallback_analysis "hi")
  /\ is_greeting (_fallback_analysis "hi")
     || is_inappropriate (_fallback_analysis "hi") = true
  /\ retrieve_context heuristic_env (new_request "hi" "hawa_singh" None None)
       []
     = (Ok {| chunks := []; total_chunks := 0; creator_id := "hawa_singh";
              retrieval_strategy := "skip" |},
        [EvGenerateContent "hi"]).
Proof.
  split; [reflexivity|]. split; [reflexivity|].
  exact (retrieve_context_skip heuristic_env
           (new_request "hi" "hawa_singh" None None) []
           (_fallback_analysis "hi") eq_refl eq_refl).
Defined.

(** [_execute_retrieval] never raises; it sends exactly one query. *)
Lemma _execute_retrieval_run (env : Env) (v : list Q)
    (creator strategy : string) (max_chunks : Z) (threshold : Q) (w : World) :
  _execute_retrieval env v creator strategy max_chunks threshold w
  = (Ok (retrieved creator threshold
           (weaviate_do env (sent_query v creator max_chunks threshold))),
     (w ++ [EvWeaviateQuery (sent_query v creator max_chunks threshold)])%list).
Proof.
  unfold _execute_retrieval, try_catch, bind, emit, modify, lift, ret.
  fold (sent_query v creator max_chunks threshold).
  destruct (weaviate_do env (sent_query v creator max_chunks threshold))
    as [[[|item items]|]|e]; reflexivity.
Qed.

(** The chunks kept are the items whose certainty reaches the threshold,
    in the order of the answer. *)
Lemma keep_item_similarities (creator : string) (threshold : Q)
    (items : list WeaviateItem) :
  map similarity (flat_map (keep_item creator threshold) items)
  = List.filter (Qle_bool threshold) (map certainty_of items).
Proof.
  induction items as [|item items IH]; [reflexivity|].
  cbn [flat_map map List.filter]. rewrite map_app, IH.
  unfold keep_item. fold (certainty_of item).
  destruct (Qle_bool threshold (certainty_of item)); reflexivity.
Qed.

(** A retrieval that is not skipped and whose embedding call succeeds. *)
Lemma retrieve_context_run (env : Env) (request : RetrievalRequest)
    (w : World) (analysis : QueryAnalysis) (v : list Q) :
  fst (analyze_query env (query request) w) = Ok analysis ->
  is_greeting analysis || is_inappropriate analysis = false ->
  embed_content env (query request) = Ok v ->
  retrieve_context env request w
  = (let found :=
       retrieved (req_creator_id request) (similarity_threshold request)
         (weaviate_do env
            (sent_query v (req_creator_id request) (max_chunks request)
               (similarity_threshold request))) in
     Ok {| chunks := found;
           total_chunks := List.length found;
           creator_id := req_creator_id request;
           retrieval_strategy := _determine_strategy analysis request |},
     (w ++ [EvGenerateContent (query request);
            EvEmbedContent (query request);
            EvWeaviateQuery
              (sent_query v (req_creator_id request) (max_chunks request)
                 (similarity_threshold request))])%list).
Proof.
  intros Ha Hskip Hv. unfold retrieve_context, try_catch at 1, bind at 1.
  rewrite analyze_query_run in *. simpl in Ha. inversion Ha as [Ha'].
  rewrite Ha', Hskip.
  unfold bind at 1, embed_text, try_catch, _embed_text_sync, bind at 1,
    emit, modify, lift.
  rewrite Hv. unfold bind. rewrite _execute_retrieval_run.
  cbv zeta. unfold ret. rewrite <- !app_assoc. reflexivity.
Qed.

(** C10: [_execute_retrieval] passes the threshold to the database as the
    certainty of the nearest-neighbour query and filters again each item of
    the answer: the similarities of the chunks it returns are the
    certainties of the answer that reach the threshold, in order (a missing
    certainty counts as 0); items below the threshold are dropped and
    nothing is raised.  So [retrieve_context] can return no chunk, with
    strategy balanced and not error, although the database answered with a
    stored passage of the owner; the threshold of a request that does not
    set it is 7/10. *)
Theorem threshold_filtering :
  (forall (env : Env) (v : list Q) (creator strategy : string)
          (max_chunks : Z) (threshold : Q) (w : World),
      exists found,
        _execute_retrieval env v creator strategy max_chunks threshold w
        = (Ok found,
           (w ++ [EvWeaviateQuery
                    (sent_query v creator max_chunks threshold)])%list)
        /\ near_certainty (sent_query v creator max_chunks threshold)
           = threshold
        /\ Forall (fun chunk => Qle_bool threshold (similarity chunk) = true)
             found
        /\ map similarity found
           = match weaviate_do env
                     (sent_query v creator max_chunks threshold) with
             | Ok (Some items) =>
                 List.filter (Qle_bool threshold) (map certainty_of items)
             | _ => []
             end)
  /\ similarity_threshold (new_request "what is seo" "hawa_singh" None None)
     = (7 # 10)%Q
  /\ weaviate_do heuristic_env
       (sent_query [1%Q; 0%Q] "hawa_singh" 5 (7 # 10)%Q)
     = Ok (Some [distant_item])
  /\ fst (retrieve_context heuristic_env
            (new_request "what is seo" "hawa_singh" None None) [])
     = Ok {| chunks := []; total_chunks := 0; creator_id := "hawa_singh";
             retrieval_strategy := "balanced" |}.
Proof.
  split; [|repeat split; reflexivity].
  intros env v creator strategy max_chunks threshold w.
  eexists. split; [apply _execute_retrieval_run|].
  split; [reflexivity|].
  assert (Hsim : map similarity
                   (retrieved creator threshold
                      (weaviate_do env
                         (sent_query v creator max_chunks threshold)))
                 = match weaviate_do env
                           (sent_query v creator max_chunks threshold) with
                   | Ok (Some items) =>
                       List.filter (Qle_bool threshold)
                         (map certainty_of items)
                   | _ => []
                   end).
  { unfold retrieved.
    destruct (weaviate_do env (sent_query v creator max_chunks threshold))
      as [[items|]|e]; try reflexivity.
    apply keep_item_similarities. }
  split; [|exact Hsim].
  apply List.Forall_forall. intros chunk Hin.
  apply (in_map similarity) in Hin. rewrite Hsim in Hin.
  destruct (weaviate_do env (sent_query v creator max_chunks threshold))
    as [[items|]|e]; try contradiction.
  apply List.filter_In in Hin. tauto.
Qed.

(** C4 (as stated) fails: an analysis that is neither complex nor a how-to
    but asks for steps is not skipped and gets the strategy structured. *)
Lemma _determine_strategy_structured :
  is_greeting steps_analysis || is_inappropriate steps_analysis = false
  /\ complexity steps_analysis = SIMPLE
  /\ intent steps_analysis = QUESTION
  /\ _determine_strategy steps_analysis
       (new_request "list the steps" "hawa_singh" None None)
     = "structured".
Proof. repeat split; reflexivity. Qed.

End ServiceFacts.

(** ** Strategy selection in both paths *)

Module StrategyFacts.
Import Exc.

Lemma existsb_false_In {A} (p : A -> bool) (l : list A) (x : A) :
  existsb p l = false -> In x l -> p x = false.
Proof.
  intros H Hin. destruct (p x) eqn:Hp; [|reflexivity].
  assert (existsb p l = true) by (apply existsb_exists; eauto). congruence.
Qed.

(** The single-process path: only two labels, decided by the question
    words. *)
Lemma choose_strategy_labels (query : string) :
  snd (Retrieval.choose_strategy (Retrieval._analyze_query query))
  = if Py.any (fun word => Py.contains word (Py.lower query))
         ["what"; "how"; "why"; "when"; "where"; "which"]
    then "focused_search" else "balanced_search".
Proof.
  unfold Retrieval._analyze_query.
  destruct (Py.any _ _) eqn:Hany.
  - destruct (Py.contains "how" (Py.lower query)
              && Py.contains "to" (Py.lower query));
      destruct (10 <? _); reflexivity.
  - assert (Hhow : Py.contains "how" (Py.lower query) = false).
    { apply (existsb_false_In _ _ "how" Hany). simpl. auto. }
    rewrite Hhow. destruct (10 <? _); reflexivity.
Qed.

(** C4 (as amended): in the microservice path the strategy of a query that
    is not skipped is comprehensive for a complex analysis, else focused
    for a how-to intent, else structured when the analysis asks for steps,
    else balanced, and the response of a successful retrieval carries that
    label.  The single-process path knows two labels only: focused_search
    when the lowercased query contains one of the question words, and
    balanced_search otherwise. *)
Theorem strategy_selection :
  (forall analysis request,
      Service._determine_strategy analysis request
      = match Service.complexity analysis, Service.intent analysis,
              Service.is_step_by_step analysis with
        | Service.COMPLEX, _, _ => "comprehensive"
        | Service.SIMPLE, Service.HOW_TO, _ => "focused"
        | Service.SIMPLE, _, true => "structured"
        | Service.SIMPLE, _, false => "balanced"
        end)
  /\ (forall env request w analysis v,
        fst (Service.analyze_query env (Service.query request) w)
        = Ok analysis ->
        Service.is_greeting analysis || Service.is_inappropriate analysis
        = false ->
        Service.embed_content env (Service.query request) = Ok v ->
        exists response,
          fst (Service.retrieve_context env request w) = Ok response
          /\ Service.retrieval_strategy response
             = Service._determine_strategy analysis request)
  /\ (forall query,
        snd (Retrieval.choose_strategy (Retrieval._analyze_query query))
        = if Py.any (fun word => Py.contains word (Py.lower query))
               ["what"; "how"; "why"; "when"; "where"; "which"]
          then "focused_search" else "balanced_search").
Proof.
  split; [|split].
  - intros analysis request. unfold Service._determine_strategy.
    destruct (Service.complexity analysis), (Service.intent analysis),
      (Service.is_step_by_step analysis); reflexivity.
  - intros env request w analysis v Ha Hskip Hv.
    rewrite (ServiceFacts.retrieve_context_run env request w analysis v)
      by assumption.
    eexists. split; reflexivity.
  - exact choose_strategy_labels.
Qed.

Lemma strategy_selection_witness :
  fst (Service.analyze_query ServiceSpec.heuristic_env "what is seo" [])
  = Ok (Service._fallback_analysis "what is seo")
  /\ Service.is_greeting (Service._fallback_analysis "what is seo")
     || Service.is_inappropriate (Service._fallback_analysis "what is seo")
     = false
  /\ exists response,
       fst (Service.retrieve_context ServiceSpec.heuristic_env
              (Service.new_request "what is seo" "hawa_singh" None None) [])
       = Ok response
       /\ Service.retrieval_strategy response
          = Service._determine_strategy
              (Service._fallback_analysis "what is seo")
              (Service.new_request "what is seo" "hawa_singh" None None).
Proof.
  split; [reflexivity|]. split; [reflexivity|].
  exact (proj1 (proj2 strategy_selection) ServiceSpec.heuristic_env
           (Service.new_request "what is seo" "hawa_singh" None None) []
           (Service._fallback_analysis "what is seo") [1%Q; 0%Q]
           eq_refl eq_refl eq_refl).
Defined.

(** The single-process retrieval on the two-row store, evaluated: a
    question gets focused_search with two results, closest first. *)
Example retrieve_context_two_rows :
  fst (Retrieval.retrieve_context VectorStoreSpec.exhaustive_env
         "what is seo" "hawa_singh" VectorStoreSpec.world_two_rows)
  = Ok {| Retrieval.retrieval_strategy := "focused_search";
          Retrieval.total_chunks := 2;
          Retrieval.chunks :=
            [{| Retrieval.content := "close by";
                Retrieval.creator_id := "hawa_singh";
                Retrieval.similarity := Py.Float 1;
                Retrieval.source := "hawa_singh/tips.txt" |};
             {| Retrieval.content := "far away";
                Retrieval.creator_id := "hawa_singh";
                Retrieval.similarity := Py.Float (-1);
                Retrieval.source := "hawa_singh/tips.txt" |}];
          Retrieval.best_creator := Some "hawa_singh" |}.
Proof. vm_compute. reflexivity. Qed.

End StrategyFacts.

(** ** Query classification *)

Module ClassifierFacts.
Import QueryAnalyzer.

Lemma count_chars_nonneg (p : ascii -> bool) (s : string) :
  0 <= Py.count_chars p s.
Proof. induction s as [|c r IH]; simpl; [lia|]. destruct (p c); lia. Qed.

Lemma count_and_nonneg (s : string) : forall prev, 0 <= count_and s prev.
Proof.
  induction s as [|c r IH]; intros prev; [simpl; lia|].
  cbn [count_and]. specialize (IH (Py.is_word c)).
  destruct (negb prev && _ && _); lia.
Qed.

(** C5 (as stated) fails in both classifiers: a three-word query with one
    question mark is labelled MEDIUM by the single-process classifier, and
    an eleven-word query without any punctuation or conjunction is labelled
    COMPLEX by the heuristic classifier of the microservice. *)
Lemma complexity_other_labels :
  question_count "what is seo?" = 1
  /\ and_count "what is seo?" = 0
  /\ concept_count "what is seo?" = 0
  /\ word_count "what is seo?" = 3
  /\ _determine_complexity "what is seo?" = MEDIUM
  /\ analyze_query_complexity "What is SEO?" = "medium"
  /\ word_count "my channel has few views so please tell me something useful"
     = 11
  /\ Service.complexity
       (Service._fallback_analysis
          "my channel has few views so please tell me something useful")
     = Service.COMPLEX.
Proof. repeat split; vm_compute; reflexivity. Qed.

(** C5 (as amended): the single-process classifier labels a query COMPLEX
    exactly when it has more than one question mark, or more than one
    conjunction (and / aur as whole words), or more than one comma or
    semicolon, or more than 20 words; else MEDIUM exactly when it has one
    question mark, or one conjunction, or one comma or semicolon, or more
    than 10 words; else SIMPLE, that is when it has none of the three and
    at most 10 words.  The heuristic classifier of the microservice labels
    a query COMPLEX exactly when it has more than 10 words and SIMPLE
    otherwise. *)
Theorem complexity_labels :
  (forall query,
      (_determine_complexity query = COMPLEX
       <-> 1 < question_count query \/ 1 < and_count query
           \/ 1 < concept_count query \/ 20 < word_count query)
      /\ (_determine_complexity query = MEDIUM
          <-> question_count query <= 1 /\ and_count query <= 1
              /\ concept_count query <= 1 /\ word_count query <= 20
              /\ (question_count query = 1 \/ and_count query = 1
                  \/ concept_count query = 1 \/ 10 < word_count query))
      /\ (_determine_complexity query = SIMPLE
          <-> question_count query = 0 /\ and_count query = 0
              /\ concept_count query = 0 /\ word_count query <= 10))
  /\ (forall query,
        (Service.complexity (Service._fallback_analysis query)
         = Service.COMPLEX
         <-> 10 < word_count query)
        /\ (Service.complexity (Service._fallback_analysis query)
            = Service.SIMPLE
            <-> word_count query <= 10)).
Proof.
  split.
  - intros query.
    pose proof (count_chars_nonneg (Ascii.eqb "?"%char) query) as Hq.
    pose proof (count_and_nonneg query false) as Ha.
    pose proof (count_chars_nonneg
                  (fun c => Ascii.eqb c ","%char || Ascii.eqb c ";"%char)
                  query) as Hc.
    fold (question_count query) in Hq. fold (and_count query) in Ha.
    fold (concept_count query) in Hc.
    unfold _determine_complexity.
    destruct (Z.ltb_spec 1 (question_count query));
      destruct (Z.ltb_spec 1 (and_count query));
      destruct (Z.ltb_spec 1 (concept_count query));
      destruct (Z.ltb_spec 20 (word_count query));
      cbn [orb];
      try (repeat split; intros; try discriminate; try lia; reflexivity).
    destruct (Z.eqb_spec (question_count query) 1);
      destruct (Z.eqb_spec (and_count query) 1);
      destruct (Z.eqb_spec (concept_count query) 1);
      destruct (Z.ltb_spec 10 (word_count query));
      cbn [orb];
      repeat split; intros; try discriminate; try lia; try reflexivity.
  - intros query. unfold Service._fallback_analysis. cbn [Service.complexity].
    fold (word_count query).
    destruct (Z.ltb_spec 10 (word_count query));
      repeat split; intros; try discriminate; try lia; reflexivity.
Qed.

(** C6: the heuristic classifier of the microservice flags a query as a
    greeting as soon as a greeting token occurs anywhere in it.  The
    question below holds hi only inside the word which; it is still
    classified as a greeting and retrieval is skipped for it. *)
Lemma fallback_greeting_substring :
  Service.is_greeting
    (Service._fallback_analysis "Which is better: long videos or shorts?")
  = true
  /\ Service.intent
       (Service._fallback_analysis "Which is better: long videos or shorts?")
     = Service.GREETING
  /\ Py.contains "hi" "which" = true
  /\ fst (Service.retrieve_context ServiceSpec.heuristic_env
            (Service.new_request "Which is better: long videos or shorts?"
               "hawa_singh" None None) [])
     = Exc.Ok {| Service.chunks := []; Service.total_chunks := 0;
                 Service.creator_id := "hawa_singh";
                 Service.retrieval_strategy := "skip" |}.
Proof. repeat split; vm_compute; reflexivity. Qed.

End ClassifierFacts.

(** ** Failure of the embedding call during retrieval *)

Module RetrievalFacts.
Import Exc Mono.

(** What the retry loop returns depends on the world only through the
    number of provider calls made so far. *)
Lemma retry_loop_fst_calls (env : Env) (text : string) :
  forall (attempts : list Z) (delay : Z) (w w' : World),
    provider_calls w = provider_calls w' ->
    fst (Embeddings.retry_loop env text attempts delay w)
    = fst (Embeddings.retry_loop env text attempts delay w').
Proof.
  induction attempts as [|attempt rest IH]; intros delay w w' Hcalls;
    [reflexivity|].
  destruct (embed_content env (provider_calls w) text) as [v|e] eqn:Hcall.
  - pose proof (EmbeddingsFacts.retry_loop_ok env text attempt rest delay
                  w v Hcall) as [Hw _].
    rewrite Hcalls in Hcall.
    pose proof (EmbeddingsFacts.retry_loop_ok env text attempt rest delay
                  w' v Hcall) as [Hw' _].
    congruence.
  - destruct (Py.contains "429" (str e)
              && (attempt <? Embeddings.max_retries - 1)) eqn:Hcond.
    + rewrite (EmbeddingsFacts.retry_loop_retry env text attempt rest delay
                 w e Hcall Hcond).
      rewrite Hcalls in Hcall.
      rewrite (EmbeddingsFacts.retry_loop_retry env text attempt rest delay
                 w' e Hcall Hcond).
      apply IH.
      rewrite !EmbeddingsFacts.provider_calls_sleep.
      unfold provider_calls, set_clock, add_event. simpl.
      rewrite !List.filter_app, !length_app.
      unfold provider_calls in Hcalls. rewrite Hcalls. reflexivity.
    + rewrite (EmbeddingsFacts.retry_loop_raise env text attempt rest delay
                 w e Hcall Hcond).
      rewrite Hcalls in Hcall.
      rewrite (EmbeddingsFacts.retry_loop_raise env text attempt rest delay
                 w' e Hcall Hcond).
      reflexivity.
Qed.

Lemma embed_text_fst_calls (env : Env) (input : Embeddings.EmbedInput)
    (w w' : World) :
  provider_calls w = provider_calls w' ->
  fst (Embeddings.embed_text env input w)
  = fst (Embeddings.embed_text env input w').
Proof.
  intros Hcalls. unfold Embeddings.embed_text.
  assert (Hbody :
    forall text,
      fst (try_catch
             (if negb (Py.truthy (Py.strip text))
              then raise (ValueError
                     "Empty or whitespace-only text cannot be embedded")
              else Embeddings.retry_loop env text
                     (Embeddings.range Embeddings.max_retries) 2)
             (fun e => raise e) w)
      = fst (try_catch
               (if negb (Py.truthy (Py.strip text))
                then raise (ValueError
                       "Empty or whitespace-only text cannot be embedded")
                else Embeddings.retry_loop env text
                       (Embeddings.range Embeddings.max_retries) 2)
               (fun e => raise e) w')).
  { intros text. unfold try_catch.
    destruct (negb (Py.truthy (Py.strip text))); [reflexivity|].
    pose proof (retry_loop_fst_calls env text
                  (Embeddings.range Embeddings.max_retries) 2 w w' Hcalls)
      as H.
    destruct (Embeddings.retry_loop env text _ 2 w) as [[a|e] s];
      destruct (Embeddings.retry_loop env text _ 2 w') as [[a'|e'] s'];
      simpl in H |- *; congruence. }
  destruct input as [text | [text|] | ]; try reflexivity.
  - specialize (Hbody text). unfold try_catch, bind, ret in *. exact Hbody.
  - specialize (Hbody text). unfold try_catch, bind, ret in *. exact Hbody.
Qed.

(** In the single-process path a failed embedding makes [retrieve_context]
    raise. *)
Lemma retrieve_context_embed_failure (env : Env) (query creator : string)
    (w : World) (e : exn) :
  fst (Embeddings.embed_text env (Embeddings.InDict (Some query)) w)
  = Raise e ->
  fst (Retrieval.retrieve_context env query creator w)
  = Raise (Retrieval.retrieval_error e).
Proof.
  intros Hfail. unfold Retrieval.retrieve_context.
  unfold bind at 1, time_time at 1. unfold bind at 1, get.
  unfold bind at 1.
  set (w1 := (if negb (Qle_bool _ _) then _ else ret tt) w).
  assert (H1 : fst w1 = Ok tt /\ provider_calls (snd w1) = provider_calls w).
  { subst w1. destruct (negb (Qle_bool _ _)); [|split; reflexivity].
    unfold time_sleep, modify. simpl fst. simpl snd.
    rewrite EmbeddingsFacts.provider_calls_sleep. split; reflexivity. }
  destruct w1 as [r1 s1]. simpl in H1. destruct H1 as [-> Hcalls].
  unfold bind at 1, time_time. unfold bind at 1, modify.
  unfold try_catch, bind at 1.
  rewrite (embed_text_fst_calls env _ w (set_last_query_time (clock s1) s1))
    in Hfail by (symmetry; exact Hcalls).
  destruct (Embeddings.embed_text env _ (set_last_query_time (clock s1) s1))
    as [[v|e'] s2].
  - discriminate Hfail.
  - simpl in Hfail. inversion Hfail. reflexivity.
Qed.

(** In the microservice path a failed embedding is caught: the call
    returns the error response, after the classifier's model call and the
    embedding call and without any database query. *)
Lemma retrieve_context_embed_caught (env : Service.Env)
    (request : Service.RetrievalRequest) (w : Service.World)
    (analysis : Service.QueryAnalysis) (e : exn) :
  fst (Service.analyze_query env (Service.query request) w) = Ok analysis ->
  Service.is_greeting analysis || Service.is_inappropriate analysis = false ->
  Service.embed_content env (Service.query request) = Raise e ->
  Service.retrieve_context env request w
  = (Ok {| Service.chunks := []; Service.total_chunks := 0;
           Service.creator_id := Service.req_creator_id request;
           Service.retrieval_strategy := "error" |},
     (w ++ [Service.EvGenerateContent (Service.query request);
            Service.EvEmbedContent (Service.query request)])%list).
Proof.
  intros Ha Hskip He. unfold Service.retrieve_context, try_catch at 1, bind at 1.
  rewrite ServiceFacts.analyze_query_run in *. simpl in Ha.
  inversion Ha as [Ha']. rewrite Ha', Hskip.
  unfold bind at 1, Service.embed_text, try_catch, Service._embed_text_sync,
    bind at 1, Service.emit, modify, lift.
  rewrite He. unfold raise, ret. rewrite <- app_assoc. reflexivity.
Qed.

(** C1 (as stated) fails in the microservice path: with the embedding
    provider down, [retrieve_context] does not raise; it returns a response
    with an empty chunk list. *)
Lemma retrieve_context_returns_on_embed_failure :
  Service.embed_content ServiceSpec.embed_down_env "what is seo"
  = Raise (ExternalError "503 Service Unavailable")
  /\ Service.retrieve_context ServiceSpec.embed_down_env
       (Service.new_request "what is seo" "hawa_singh" None None) []
     = (Ok {| Service.chunks := []; Service.total_chunks := 0;
              Service.creator_id := "hawa_singh";
              Service.retrieval_strategy := "error" |},
        [Service.EvGenerateContent "what is seo";
         Service.EvEmbedContent "what is seo"]).
Proof. split; reflexivity. Qed.

(** C1 (as amended): in the single-process path, when the embedding of the
    query fails, [retrieve_context] raises (an [Exception] whose message is
    chosen from that of the failure) and returns nothing.  In the
    microservice path, when the embedding call of a query that is not
    skipped fails, [retrieve_context] catches the failure and returns the
    response with no chunks, count 0 and strategy error, without querying
    the database. *)
Theorem embedding_failure_handling :
  (forall (env : Env) (query creator : string) (w : World) (e : exn),
      fst (Embeddings.embed_text env (Embeddings.InDict (Some query)) w)
      = Raise e ->
      fst (Retrieval.retrieve_context env query creator w)
      = Raise (Retrieval.retrieval_error e))
  /\ (forall (env : Service.Env) (request : Service.RetrievalRequest)
             (w : Service.World) (analysis : Service.QueryAnalysis) (e : exn),
        fst (Service.analyze_query env (Service.query request) w)
        = Ok analysis ->
        Service.is_greeting analysis || Service.is_inappropriate analysis
        = false ->
        Service.embed_content env (Service.query request) = Raise e ->
        Service.retrieve_context env request w
        = (Ok {| Service.chunks := []; Service.total_chunks := 0;
                 Service.creator_id := Service.req_creator_id request;
                 Service.retrieval_strategy := "error" |},
           (w ++ [Service.EvGenerateContent (Service.query request);
                  Service.EvEmbedContent (Service.query request)])%list)).
Proof.
  split.
  - exact retrieve_context_embed_failure.
  - exact retrieve_context_embed_caught.
Qed.

Lemma embedding_failure_handling_witness :
  fst (Embeddings.embed_text Inputs.failing_env
         (Embeddings.InDict (Some "what is seo")) Inputs.world0)
  = Raise (ExternalError "503 Service Unavailable")
  /\ fst (Retrieval.retrieve_context Inputs.failing_env "what is seo"
            "hawa_singh" Inputs.world0)
     = Raise (Exception
         "An error occurred while retrieving context. Please try again.").
Proof.
  split; [reflexivity|].
  exact (proj1 embedding_failure_handling Inputs.failing_env "what is seo"
           "hawa_singh" Inputs.world0
           (ExternalError "503 Service Unavailable") eq_refl).
Defined.

End RetrievalFacts.

(** * Further properties *)

(** ** More on the text primitives *)

Module PyMore.
Import PyFacts.

Lemma app_empty_r (s : string) : s +:+ "" = s.
Proof.
  induction s as [|c s IH]; [reflexivity|].
  change (String c (s +:+ "") = String c s). f_equal. exact IH.
Qed.

Lemma app_assoc_s (a b c : string) : (a +:+ b) +:+ c = a +:+ (b +:+ c).
Proof.
  induction a as [|x a IH]; [reflexivity|].
  change (String x ((a +:+ b) +:+ c) = String x (a +:+ (b +:+ c))).
  f_equal. exact IH.
Qed.

Lemma all_space_app (a b : string) :
  Py.all_space (a +:+ b) = Py.all_space a && Py.all_space b.
Proof.
  induction a as [|c a IH]; simpl; [reflexivity|].
  rewrite IH. apply andb_assoc.
Qed.

(** What [lstrip] returns does not start with whitespace. *)
Lemma lstrip_head (s : string) (c : ascii) (t : string) :
  Py.lstrip s = String c t -> Py.is_space c = false.
Proof.
  induction s as [|x s IH]; simpl; [discriminate|].
  destruct (Py.is_space x) eqn:Hx; [exact IH|].
  intros H. inversion H. subst. exact Hx.
Qed.

Lemma lstrip_nonspace (c : ascii) (t : string) :
  Py.is_space c = false -> Py.lstrip (String c t) = String c t.
Proof. intros H. simpl. rewrite H. reflexivity. Qed.

(** [rstrip] keeps a first character that is not whitespace. *)
Lemma rstrip_head (c : ascii) (t : string) :
  Py.is_space c = false -> exists t', Py.rstrip (String c t) = String c t'.
Proof.
  intros H. simpl. destruct (Py.rstrip t); [rewrite H|]; eauto.
Qed.

Lemma rstrip_empty_all_space (s : string) :
  Py.rstrip s = "" <-> Py.all_space s = true.
Proof.
  induction s as [|c s IH]; simpl; [tauto|].
  destruct (Py.rstrip s) eqn:Hr.
  - destruct (Py.is_space c); simpl.
    + split; [intros _; apply IH; reflexivity | reflexivity].
    + split; discriminate.
  - split; [discriminate|]. intros H. apply andb_true_iff in H as [_ H].
    apply IH in H. discriminate.
Qed.

Lemma rstrip_idem (s : string) : Py.rstrip (Py.rstrip s) = Py.rstrip s.
Proof.
  induction s as [|c s IH]; simpl; [reflexivity|].
  destruct (Py.rstrip s) as [|c' r'] eqn:Hr.
  - destruct (Py.is_space c) eqn:Hc; simpl; [reflexivity|].
    rewrite Hc. reflexivity.
  - change (Py.rstrip (String c (String c' r')) = String c (String c' r')).
    simpl. simpl in IH. rewrite IH. reflexivity.
Qed.

(** [strip] is idempotent. *)
Lemma strip_idem (s : string) : Py.strip (Py.strip s) = Py.strip s.
Proof.
  unfold Py.strip. destruct (Py.lstrip s) as [|c t] eqn:Hl; [reflexivity|].
  pose proof (lstrip_head _ _ _ Hl) as Hc.
  destruct (rstrip_head c t Hc) as [t' Ht']. rewrite Ht'.
  rewrite lstrip_nonspace by exact Hc. rewrite <- Ht'. apply rstrip_idem.
Qed.

(** A stripped, non-empty string starts with a character that is not
    whitespace and is not changed by [rstrip]. *)
Lemma strip_fixed_head (s : string) (c : ascii) (t : string) :
  Py.strip s = String c t -> Py.is_space c = false.
Proof.
  unfold Py.strip. destruct (Py.lstrip s) as [|x u] eqn:Hl; [discriminate|].
  pose proof (lstrip_head _ _ _ Hl) as Hx.
  destruct (rstrip_head x u Hx) as [u' Hu']. rewrite Hu'.
  intros H. inversion H. subst. exact Hx.
Qed.

Lemma strip_rstrip_fixed (s : string) : Py.rstrip (Py.strip s) = Py.strip s.
Proof. unfold Py.strip. apply rstrip_idem. Qed.

Lemma lstrip_empty_all_space (s : string) :
  Py.lstrip s = "" <-> Py.all_space s = true.
Proof.
  induction s as [|c s IH]; simpl; [tauto|].
  destruct (Py.is_space c); simpl; [exact IH|].
  split; discriminate.
Qed.

(** [strip] gives the empty string exactly on blank strings. *)
Lemma strip_empty_all_space (s : string) :
  Py.strip s = "" <-> Py.all_space s = true.
Proof.
  split; [|apply strip_all_space].
  unfold Py.strip. intros H. apply rstrip_empty_all_space in H.
  destruct (Py.lstrip s) as [|c t] eqn:Hl.
  - apply lstrip_empty_all_space. exact Hl.
  - apply lstrip_head in Hl. simpl in H. rewrite Hl in H. discriminate.
Qed.

Lemma truthy_false (s : string) : Py.truthy s = false <-> s = "".
Proof. destruct s; simpl; split; congruence. Qed.

Lemma truthy_strip (s : string) :
  Py.truthy (Py.strip s) = negb (Py.all_space s).
Proof.
  destruct (Py.all_space s) eqn:H.
  - apply strip_all_space in H. rewrite H. reflexivity.
  - destruct (Py.strip s) eqn:Hs; [|reflexivity].
    apply strip_empty_all_space in Hs. congruence.
Qed.

(** [lstrip] in front of a character that is not whitespace only removes
    something before it. *)
Lemma lstrip_app_keep (a : string) (c : ascii) (u : string) :
  Py.is_space c = false ->
  exists a', Py.lstrip (a +:+ String c u) = a' +:+ String c u.
Proof.
  intros Hc. induction a as [|x a IH].
  - exists "". simpl. rewrite Hc. reflexivity.
  - change (String x a +:+ String c u) with (String x (a +:+ String c u)).
    simpl. destruct (Py.is_space x); [exact IH|].
    exists (String x a). reflexivity.
Qed.

Lemma rstrip_app_r (u v : string) :
  Py.rstrip v <> "" -> Py.rstrip (u +:+ v) = u +:+ Py.rstrip v.
Proof.
  intros Hv. induction u as [|x u IH]; [reflexivity|].
  change (String x u +:+ v) with (String x (u +:+ v)).
  change (String x u +:+ Py.rstrip v) with (String x (u +:+ Py.rstrip v)).
  simpl. rewrite IH.
  destruct (u +:+ Py.rstrip v) eqn:E; [|reflexivity].
  destruct u as [|y u'].
  - change (Py.rstrip v = "") in E. congruence.
  - change (String y (u' +:+ Py.rstrip v) = "") in E. discriminate E.
Qed.

Lemma rstrip_app_blank (s b : string) :
  Py.rstrip b = "" -> Py.rstrip (s +:+ b) = Py.rstrip s.
Proof.
  intros Hb. induction s as [|x s IH]; [exact Hb|].
  change (String x s +:+ b) with (String x (s +:+ b)).
  simpl. rewrite IH. reflexivity.
Qed.

(** [rstrip] behind a non-empty piece it leaves alone only removes
    something after it. *)
Lemma rstrip_app_keep (a s b : string) :
  Py.rstrip s = s -> s <> "" ->
  exists b', Py.rstrip (a +:+ s +:+ b) = a +:+ s +:+ b'.
Proof.
  intros Hs Hne. destruct (Py.rstrip b) as [|y r] eqn:Hb.
  - exists "". rewrite rstrip_app_r.
    + rewrite rstrip_app_blank by exact Hb. rewrite Hs, app_empty_r.
      reflexivity.
    + rewrite rstrip_app_blank by exact Hb. congruence.
  - exists (Py.rstrip b).
    assert (Hsb : Py.rstrip (s +:+ b) = s +:+ Py.rstrip b).
    { apply rstrip_app_r. congruence. }
    rewrite rstrip_app_r; rewrite Hsb; [reflexivity|].
    destruct s; [congruence | discriminate].
Qed.

Lemma is_space_lower_char (c : ascii) :
  Py.is_space (Py.lower_char c) = Py.is_space c.
Proof. destruct c as [[] [] [] [] [] [] [] []]; reflexivity. Qed.

(** The number of words only depends on where the whitespace is. *)
Lemma split_ws_aux_length (s s' : string) :
  forall cur cur',
    map Py.is_space (list_ascii_of_string s)
    = map Py.is_space (list_ascii_of_string s') ->
    (cur = [] <-> cur' = []) ->
    List.length (Py.split_ws_aux s cur)
    = List.length (Py.split_ws_aux s' cur').
Proof.
  revert s'. induction s as [|c s IH]; intros [|c' s'] cur cur' Hmap Hcur;
    try discriminate Hmap.
  - simpl. destruct cur, cur'; try reflexivity.
    + destruct Hcur as [Hcur _]. specialize (Hcur eq_refl). discriminate.
    + destruct Hcur as [_ Hcur]. specialize (Hcur eq_refl). discriminate.
  - simpl in Hmap. inversion Hmap as [[Hc Hs]]. simpl. rewrite Hc.
    destruct (Py.is_space c').
    + destruct cur, cur'.
      * apply IH; [exact Hs | tauto].
      * destruct Hcur as [Hcur _]. specialize (Hcur eq_refl). discriminate.
      * destruct Hcur as [_ Hcur]. specialize (Hcur eq_refl). discriminate.
      * simpl. f_equal. apply IH; [exact Hs | tauto].
    + apply IH; [exact Hs|]. split; discriminate.
Qed.

Lemma lower_spaces (s : string) :
  map Py.is_space (list_ascii_of_string (Py.lower s))
  = map Py.is_space (list_ascii_of_string s).
Proof.
  induction s as [|c s IH]; [reflexivity|].
  simpl. rewrite is_space_lower_char, IH. reflexivity.
Qed.

(** Two strings that differ by letter case only have the same number of
    words. *)
Lemma split_length_lower (s s' : string) :
  Py.lower s = Py.lower s' ->
  List.length (Py.split s) = List.length (Py.split s').
Proof.
  intros H. unfold Py.split. apply split_ws_aux_length; [|tauto].
  rewrite <- (lower_spaces s), <- (lower_spaces s'), H. reflexivity.
Qed.

Lemma prefix_app (sub b : string) : String.prefix sub (sub +:+ b) = true.
Proof.
  induction sub as [|c sub IH]; [destruct b; reflexivity|].
  change (String c sub +:+ b) with (String c (sub +:+ b)).
  simpl. destruct (ascii_dec c c) as [_|Hne]; [exact IH | congruence].
Qed.

Lemma contains_prefix (sub s : string) :
  String.prefix sub s = true -> Py.contains sub s = true.
Proof.
  intros H. destruct s; cbn [Py.contains]; rewrite H; reflexivity.
Qed.

(** A string contains the pieces it is made of. *)
Lemma contains_app (a sub b : string) :
  Py.contains sub (a +:+ sub +:+ b) = true.
Proof.
  induction a as [|c a IH].
  - apply contains_prefix. exact (prefix_app sub b).
  - change (String c a +:+ sub +:+ b) with (String c (a +:+ sub +:+ b)).
    cbn [Py.contains]. rewrite IH. apply orb_true_r.
Qed.

End PyMore.

(** ** More on the chunker *)

Module ChunkingMoreFacts.
Import Chunking ChunkingSpec ChunkingMore PyFacts PyMore.

Lemma collapse_ws_all_space (text : string) :
  forall in_ws, Py.all_space text = true ->
                Py.all_space (collapse_ws text in_ws) = true.
Proof.
  induction text as [|c r IH]; intros in_ws H; [reflexivity|].
  simpl in H. apply andb_true_iff in H as [Hc Hr].
  simpl. rewrite Hc. destruct in_ws; simpl; auto.
Qed.

Lemma filter_chars_all_space (p : ascii -> bool) (s : string) :
  Py.all_space s = true -> Py.all_space (filter_chars p s) = true.
Proof.
  induction s as [|c r IH]; intros H; [reflexivity|].
  simpl in H. apply andb_true_iff in H as [Hc Hr].
  simpl. destruct (p c); simpl; [rewrite Hc|]; auto.
Qed.

(** X1: a document that is empty or made of whitespace only gives no
    passage. *)
Theorem chunk_text_blank (self : SmartChunker) (text source : string) :
  Py.all_space text = true -> chunk_text self text source = [].
Proof.
  intros H. unfold chunk_text.
  assert (Hclean : _clean_text text = "").
  { unfold _clean_text. apply strip_all_space, filter_chars_all_space,
      collapse_ws_all_space, H. }
  rewrite Hclean. reflexivity.
Qed.

Lemma chunk_text_blank_witness :
  Py.all_space "  " = true
  /\ chunk_text Inputs.small_chunker "  " "doc" = [].
Proof.
  split; [reflexivity|].
  exact (chunk_text_blank Inputs.small_chunker "  " "doc" eq_refl).
Defined.

Lemma all_chars_and (p q : ascii -> bool) (s : string) :
  all_chars p s = true -> all_chars q s = true ->
  all_chars (fun c => p c && q c) s = true.
Proof.
  induction s as [|c r IH]; simpl; [reflexivity|]. intros Hp Hq.
  apply andb_true_iff in Hp as [Hp1 Hp2].
  apply andb_true_iff in Hq as [Hq1 Hq2].
  rewrite Hp1, Hq1. simpl. auto.
Qed.

Lemma collapse_ws_spaces (text : string) :
  forall in_ws,
    all_chars (fun c => negb (Py.is_space c) || Ascii.eqb c " "%char)
      (collapse_ws text in_ws) = true.
Proof.
  induction text as [|c r IH]; intros in_ws; [reflexivity|].
  simpl. destruct (Py.is_space c) eqn:Hc.
  - destruct in_ws; [apply IH|]. simpl. apply IH.
  - simpl. rewrite Hc. simpl. apply IH.
Qed.

Lemma filter_chars_keeps (p q : ascii -> bool) (s : string) :
  all_chars p s = true -> all_chars p (filter_chars q s) = true.
Proof.
  induction s as [|c r IH]; simpl; [reflexivity|]. intros H.
  apply andb_true_iff in H as [Hc Hr].
  destruct (q c); simpl; [rewrite Hc|]; auto.
Qed.

Lemma filter_chars_holds (q : ascii -> bool) (s : string) :
  all_chars q (filter_chars q s) = true.
Proof.
  induction s as [|c r IH]; simpl; [reflexivity|].
  destruct (q c) eqn:Hc; simpl; [rewrite Hc|]; auto.
Qed.

Lemma lstrip_all_chars (p : ascii -> bool) (s : string) :
  all_chars p s = true -> all_chars p (Py.lstrip s) = true.
Proof.
  induction s as [|c r IH]; simpl; [reflexivity|]. intros H.
  destruct (Py.is_space c); [|exact H].
  apply andb_true_iff in H as [_ Hr]. auto.
Qed.

Lemma rstrip_all_chars (p : ascii -> bool) (s : string) :
  all_chars p s = true -> all_chars p (Py.rstrip s) = true.
Proof.
  induction s as [|c r IH]; simpl; [reflexivity|]. intros H.
  apply andb_true_iff in H as [Hc Hr]. specialize (IH Hr).
  destruct (Py.rstrip r).
  - destruct (Py.is_space c); simpl; [reflexivity | rewrite Hc; reflexivity].
  - change (p c && all_chars p (String a s) = true). rewrite Hc. exact IH.
Qed.

(** X2: the cleaned text holds allow-listed characters only, its only
    whitespace character is the space (so it has no line break), and it
    neither starts nor ends with whitespace. *)
Theorem _clean_text_shape (text : string) :
  all_chars clean_char (_clean_text text) = true
  /\ Py.strip (_clean_text text) = _clean_text text.
Proof.
  split; [|apply strip_idem].
  unfold _clean_text, Py.strip.
  apply rstrip_all_chars, lstrip_all_chars.
  unfold clean_char. apply all_chars_and.
  - apply filter_chars_holds.
  - apply filter_chars_keeps, collapse_ws_spaces.
Qed.

Lemma sentences_ok (text : string) :
  Forall sentence_ok (_split_into_sentences text).
Proof.
  apply List.Forall_forall. intros s H. unfold _split_into_sentences in H.
  apply in_flat_map in H as (sentence & _ & H).
  apply in_flat_map in H as (sub & _ & H).
  destruct (Py.truthy (Py.strip sub)) eqn:Ht; [|contradiction].
  destruct H as [<-|[]]. split; [exact Ht | apply strip_idem].
Qed.

(** X3: every sentence [_split_into_sentences] returns is non-empty and
    neither starts nor ends with whitespace. *)
Theorem _split_into_sentences_shape (text s : string) :
  In s (_split_into_sentences text) ->
  Py.truthy s = true /\ Py.strip s = s.
Proof.
  intros H. pose proof (sentences_ok text) as Hall.
  rewrite List.Forall_forall in Hall. exact (Hall s H).
Qed.

Lemma _split_into_sentences_shape_witness :
  In "eeee ffff gggg hhhh"
    (_split_into_sentences (_clean_text Inputs.small_text))
  /\ Py.truthy "eeee ffff gggg hhhh" = true
  /\ Py.strip "eeee ffff gggg hhhh" = "eeee ffff gggg hhhh".
Proof.
  assert (Hin : In "eeee ffff gggg hhhh"
                  (_split_into_sentences (_clean_text Inputs.small_text))).
  { vm_compute. right. left. reflexivity. }
  split; [exact Hin|].
  exact (_split_into_sentences_shape _ _ Hin).
Defined.

(** An invariant of a left fold that may speak of the elements folded so
    far. *)
Lemma fold_left_prefix_inv {A B} (f : A -> B -> A) (Q : B -> Prop)
    (P : list B -> A -> Prop) (l : list B) (a0 : A) :
  Forall Q l ->
  P [] a0 ->
  (forall pre b a, Q b -> P pre a -> P (pre ++ [b])%list (f a b)) ->
  P l (fold_left f l a0).
Proof.
  intros HQ H0 Hstep.
  assert (Hgen : forall todo pre a,
             Forall Q todo -> P pre a ->
             P (pre ++ todo)%list (fold_left f todo a)).
  { induction todo as [|b todo IH]; intros pre a Htodo Hp.
    - rewrite app_nil_r. exact Hp.
    - inversion Htodo as [|? ? Hb Hrest]; subst. simpl.
      replace (pre ++ b :: todo)%list with ((pre ++ [b]) ++ todo)%list
        by (rewrite <- app_assoc; reflexivity).
      apply IH; [exact Hrest|]. apply Hstep; assumption. }
  apply (Hgen l [] a0); assumption.
Qed.

Lemma sentence_ok_not_blank (s : string) :
  sentence_ok s -> Py.all_space s = false.
Proof.
  intros [Ht Hs]. destruct (Py.all_space s) eqn:H; [|reflexivity].
  apply strip_all_space in H. rewrite H in Hs. subst s. discriminate Ht.
Qed.

Lemma map_content_enumerate (source : string) (l : list string) :
  forall i,
    map content
      (map (fun '(i, chunk) =>
              {| content := chunk; chunk_id := (source, i); source := source;
                 chunk_index := i;
                 word_count := List.length (Py.split chunk);
                 character_count := Py.len chunk |})
         (enumerate_from i l))
    = l.
Proof.
  induction l as [|x l IH]; intros i; [reflexivity|].
  simpl. f_equal. apply IH.
Qed.

(** The contents of the chunk objects, in order, are the passages. *)
Lemma chunk_text_contents (self : SmartChunker) (text source : string) :
  map content (chunk_text self text source)
  = _create_semantic_chunks self (_split_into_sentences (_clean_text text)).
Proof. unfold chunk_text. apply map_content_enumerate. Qed.

(** Closing the accumulator of a state. *)
Lemma _create_semantic_chunks_fold (self : SmartChunker)
    (sentences : list string) :
  _create_semantic_chunks self sentences
  = (let st := fold_left (chunk_step self) sentences ([], "") in
     if Py.truthy (snd st) then (fst st ++ [Py.strip (snd st)])%list
     else fst st).
Proof.
  unfold _create_semantic_chunks.
  destruct (fold_left (chunk_step self) sentences ([], "")); reflexivity.
Qed.

Lemma chunk_step_cases (self : SmartChunker) (chunks : list string)
    (cur b : string) :
  let potential := if Py.truthy cur then cur +:+ " " +:+ b else b in
  let closed := if Py.truthy cur then (chunks ++ [Py.strip cur])%list
                else chunks in
  chunk_step self (chunks, cur) b = (chunks, potential)
  \/ chunk_step self (chunks, cur) b
     = (closed, _get_overlap_text cur (overlap self) +:+ " " +:+ b)
  \/ chunk_step self (chunks, cur) b = (closed, b).
Proof.
  intros potential closed. unfold chunk_step. fold potential. fold closed.
  destruct (Py.len potential <=? chunk_size self); [left; reflexivity|].
  destruct (Py.truthy_list closed && (0 <? overlap self)); auto.
Qed.

Lemma not_blank_cases (cur : string) :
  cur = "" \/ Py.all_space cur = false ->
  Py.truthy cur = true -> Py.all_space cur = false.
Proof. intros [->|H] Ht; [discriminate Ht | exact H]. Qed.

Lemma passages_not_blank (self : SmartChunker) (sentences : list string) :
  Forall sentence_ok sentences ->
  Forall sentence_ok (_create_semantic_chunks self sentences).
Proof.
  intros Hs. rewrite _create_semantic_chunks_fold.
  pose (P := fun (_ : list string) (st : list string * string) =>
               Forall sentence_ok (fst st)
               /\ (snd st = "" \/ Py.all_space (snd st) = false)).
  assert (Hclose : forall chunks cur,
             Forall sentence_ok chunks ->
             cur = "" \/ Py.all_space cur = false ->
             Forall sentence_ok
               (if Py.truthy cur then (chunks ++ [Py.strip cur])%list
                else chunks)).
  { intros chunks cur Hc Hcur. destruct (Py.truthy cur) eqn:Ht; [|exact Hc].
    apply Forall_app. split; [exact Hc|]. constructor; [|constructor].
    split; [|apply strip_idem].
    rewrite truthy_strip, (not_blank_cases cur Hcur Ht). reflexivity. }
  assert (HP : P sentences (fold_left (chunk_step self) sentences ([], ""))).
  { apply (fold_left_prefix_inv _ sentence_ok P); [exact Hs | |].
    - split; [constructor | left; reflexivity].
    - intros pre b [chunks cur] Hb [Hc Hcur]. simpl in Hc, Hcur.
      pose proof (sentence_ok_not_blank b Hb) as Hnb.
      assert (Hsp : forall o, Py.all_space (o +:+ " " +:+ b) = false).
      { intros o. rewrite !all_space_app, Hnb. apply andb_false_r. }
      destruct (chunk_step_cases self chunks cur b) as [E|[E|E]];
        rewrite E; unfold P; simpl.
      + split; [exact Hc|]. right.
        destruct (Py.truthy cur); [apply Hsp | exact Hnb].
      + split; [apply Hclose; assumption | right; apply Hsp].
      + split; [apply Hclose; assumption | right; exact Hnb]. }
  destruct HP as [Hc Hcur]. cbv zeta. apply Hclose; assumption.
Qed.

(** X4: every passage [chunk_text] returns is non-empty and neither
    starts nor ends with whitespace. *)
Theorem chunk_text_not_blank (self : SmartChunker) (text source : string)
    (p : Chunk) :
  In p (chunk_text self text source) ->
  Py.truthy (content p) = true /\ Py.strip (content p) = content p.
Proof.
  intros Hin. apply (in_map content) in Hin.
  rewrite chunk_text_contents in Hin.
  pose proof (passages_not_blank self _ (sentences_ok (_clean_text text)))
    as Hall.
  rewrite List.Forall_forall in Hall. exact (Hall _ Hin).
Qed.

Lemma chunk_text_not_blank_witness :
  In Inputs.small_passage
    (chunk_text Inputs.small_chunker Inputs.small_text "doc")
  /\ Py.truthy (content Inputs.small_passage) = true
  /\ Py.strip (content Inputs.small_passage) = content Inputs.small_passage.
Proof.
  assert (Hin : In Inputs.small_passage
                  (chunk_text Inputs.small_chunker Inputs.small_text "doc")).
  { vm_compute. right. left. reflexivity. }
  split; [exact Hin|].
  exact (chunk_text_not_blank _ _ _ _ Hin).
Defined.

(** X5: there are never more passages than sentences. *)
Theorem chunk_text_count (self : SmartChunker) (text source : string) :
  (List.length (chunk_text self text source)
   <= List.length (_split_into_sentences (_clean_text text)))%nat.
Proof.
  rewrite <- (length_map content), chunk_text_contents.
  rewrite _create_semantic_chunks_fold.
  set (sentences := _split_into_sentences (_clean_text text)).
  pose (P := fun (pre : list string) (st : list string * string) =>
               (List.length (fst st)
                + (if Py.truthy (snd st) then 1 else 0)
                <= List.length pre)%nat).
  assert (HP : P sentences (fold_left (chunk_step self) sentences ([], ""))).
  { apply (fold_left_prefix_inv _ (fun _ => True) P).
    - apply List.Forall_forall. auto.
    - unfold P. simpl. lia.
    - intros pre b [chunks cur] _ Hp.
      destruct (chunk_step_cases self chunks cur b) as [E|[E|E]];
        rewrite E; unfold P in *; cbn [fst snd] in *;
        rewrite length_app; cbn [List.length];
        destruct (Py.truthy cur);
        rewrite ?length_app; cbn [List.length];
        match goal with
        | |- context [Py.truthy ?x] => destruct (Py.truthy x)
        end; lia. }
  unfold P in HP. cbv zeta.
  destruct (Py.truthy (snd _)); rewrite ?length_app; cbn [List.length]; lia.
Qed.

Lemma occurs_in_refl (s : string) : occurs_in s s.
Proof. exists "", "". rewrite app_empty_r. reflexivity. Qed.

Lemma occurs_in_app_r (s p x : string) :
  occurs_in s p -> occurs_in s (p +:+ x).
Proof.
  intros (a & b & ->). exists a, (b +:+ x).
  rewrite !app_assoc_s. reflexivity.
Qed.

Lemma occurs_in_app_l (s p x : string) :
  occurs_in s p -> occurs_in s (x +:+ p).
Proof.
  intros (a & b & ->). exists (x +:+ a), b.
  rewrite !app_assoc_s. reflexivity.
Qed.

Lemma occurs_in_empty (s : string) : occurs_in s "" -> s = "".
Proof.
  intros (a & b & H). destruct a; [|discriminate H].
  destruct s; [reflexivity | discriminate H].
Qed.

(** A stripped, non-empty piece of a text is still in the stripped text. *)
Lemma occurs_in_strip (s p : string) :
  sentence_ok s -> occurs_in s p -> occurs_in s (Py.strip p).
Proof.
  intros [Ht Hs] (a & b & ->). destruct s as [|c t]; [discriminate Ht|].
  pose proof (strip_fixed_head _ _ _ Hs) as Hc.
  assert (Hr : Py.rstrip (String c t) = String c t).
  { rewrite <- Hs at 1. rewrite strip_rstrip_fixed. exact Hs. }
  unfold Py.strip.
  destruct (lstrip_app_keep a c (t +:+ b) Hc) as [a' Ha'].
  change (String c t +:+ b) with (String c (t +:+ b)).
  rewrite Ha'. change (String c (t +:+ b)) with (String c t +:+ b).
  destruct (rstrip_app_keep a' (String c t) b Hr) as [b' Hb'];
    [discriminate|].
  rewrite Hb'. exists a', b'. reflexivity.
Qed.

(** X6: no sentence is lost: every sentence of the cleaned text occurs
    whole in the content of some passage. *)
Theorem chunk_text_covers (self : SmartChunker) (text source s : string) :
  In s (_split_into_sentences (_clean_text text)) ->
  exists p, In p (chunk_text self text source) /\ occurs_in s (content p).
Proof.
  intros Hs.
  set (sentences := _split_into_sentences (_clean_text text)) in *.
  assert (Hgoal : exists c, In c (_create_semantic_chunks self sentences)
                            /\ occurs_in s c).
  { rewrite _create_semantic_chunks_fold.
    pose (P := fun (pre : list string) (st : list string * string) =>
                 forall x, In x pre ->
                   sentence_ok x
                   /\ ((exists c, In c (fst st) /\ occurs_in x c)
                       \/ occurs_in x (snd st))).
    assert (Hclose : forall chunks cur x,
               sentence_ok x -> occurs_in x cur ->
               Py.truthy cur = true
               /\ exists c, In c (chunks ++ [Py.strip cur])%list
                            /\ occurs_in x c).
    { intros chunks cur x Hx Hocc. split.
      - destruct cur; [|reflexivity]. apply occurs_in_empty in Hocc.
        destruct Hx as [Hx _]. subst x. discriminate Hx.
      - exists (Py.strip cur). split; [apply in_or_app; right; left; auto|].
        apply occurs_in_strip; assumption. }
    assert (HP : P sentences
                   (fold_left (chunk_step self) sentences ([], ""))).
    { apply (fold_left_prefix_inv _ sentence_ok P).
      - apply sentences_ok.
      - intros x [].
      - intros pre b [chunks cur] Hb Hp x Hx.
        assert (Hxok : sentence_ok x).
        { apply in_app_or in Hx as [Hx|[<-|[]]]; [apply Hp, Hx | exact Hb]. }
        split; [exact Hxok|].
        assert (Hold : In x pre ->
                       (exists c, In c chunks /\ occurs_in x c)
                       \/ (Py.truthy cur = true /\ occurs_in x cur)).
        { intros Hpre. destruct (Hp x Hpre) as [_ [Hc|Hocc]]; [left; exact Hc|].
          right. split; [|exact Hocc].
          apply (Hclose chunks cur x Hxok Hocc). }
        destruct (chunk_step_cases self chunks cur b) as [E|[E|E]];
          rewrite E; simpl fst; simpl snd;
          apply in_app_or in Hx as [Hx|[<-|[]]].
        + destruct (Hold Hx) as [Hc|[Ht Hocc]]; [left; exact Hc|].
          right. rewrite Ht. apply occurs_in_app_r. exact Hocc.
        + right. destruct (Py.truthy cur);
            [apply occurs_in_app_l, occurs_in_app_l|]; apply occurs_in_refl.
        + left. destruct (Hold Hx) as [(c & Hc & Hocc)|[Ht Hocc]].
          * exists c. split; [|exact Hocc].
            destruct (Py.truthy cur); [apply in_or_app; left|]; exact Hc.
          * rewrite Ht. apply (Hclose chunks cur x Hxok Hocc).
        + right. apply occurs_in_app_l, occurs_in_app_l, occurs_in_refl.
        + left. destruct (Hold Hx) as [(c & Hc & Hocc)|[Ht Hocc]].
          * exists c. split; [|exact Hocc].
            destruct (Py.truthy cur); [apply in_or_app; left|]; exact Hc.
          * rewrite Ht. apply (Hclose chunks cur x Hxok Hocc).
        + right. apply occurs_in_refl. }
    destruct (HP s Hs) as [Hok [(c & Hc & Hocc)|Hocc]]; cbv zeta.
    - exists c. split; [|exact Hocc].
      destruct (Py.truthy (snd _)); [apply in_or_app; left|]; exact Hc.
    - destruct (Hclose (fst (fold_left (chunk_step self) sentences ([], "")))
                  _ s Hok Hocc) as [Ht Hex].
      rewrite Ht. exact Hex. }
  destruct Hgoal as (c & Hc & Hocc). subst sentences.
  rewrite <- (chunk_text_contents self text source) in Hc.
  apply in_map_iff in Hc as (p & <- & Hp). exists p. auto.
Qed.

Lemma chunk_text_covers_witness :
  In "eeee ffff gggg hhhh"
    (_split_into_sentences (_clean_text Inputs.small_text))
  /\ exists p, In p (chunk_text Inputs.small_chunker Inputs.small_text "doc")
               /\ occurs_in "eeee ffff gggg hhhh" (content p).
Proof.
  assert (Hin : In "eeee ffff gggg hhhh"
                  (_split_into_sentences (_clean_text Inputs.small_text))).
  { vm_compute. right. left. reflexivity. }
  split; [exact Hin|].
  exact (chunk_text_covers Inputs.small_chunker Inputs.small_text "doc" _ Hin).
Defined.

Lemma overlap_loop_greedy (overlap_size : Z) (rwords : list string) :
  forall acc char_count,
    char_count = words_cost acc ->
    exists taken rest,
      rwords = (taken ++ rest)%list
      /\ overlap_loop rwords overlap_size acc char_count
         = (rev taken ++ acc)%list
      /\ (forall w rest', rest = w :: rest' ->
            overlap_size < words_cost (w :: rev taken ++ acc)).
Proof.
  induction rwords as [|word rwords IH]; intros acc cc Hcc.
  - exists [], []. repeat split. intros w rest' H. discriminate H.
  - cbn [overlap_loop].
    destruct (Z.leb_spec (cc + Py.len word + 1) overlap_size) as [Hfit|Hno].
    + destruct (IH (word :: acc) (cc + Py.len word + 1))
        as (taken & rest & Hsplit & Hres & Hmax).
      { simpl. lia. }
      exists (word :: taken), rest. split; [simpl; congruence|]. split.
      * rewrite Hres. cbn [rev]. rewrite <- List.app_assoc. reflexivity.
      * intros w rest' Hr. specialize (Hmax w rest' Hr).
        cbn [rev]. rewrite <- List.app_assoc. exact Hmax.
    + exists [], (word :: rwords). repeat split.
      intros w rest' H. inversion H; subst. simpl. lia.
Qed.

(** X7: the overlap text is the whole text when that fits, and otherwise
    the longest run of trailing words of the text whose cost (length plus
    one each) stays within the overlap size, joined by single spaces. *)
Theorem _get_overlap_text_words (text : string) (overlap_size : Z) :
  (Py.len text <= overlap_size -> _get_overlap_text text overlap_size = text)
  /\ (overlap_size < Py.len text ->
      exists pre ws,
        Py.split text = (pre ++ ws)%list
        /\ _get_overlap_text text overlap_size = Py.join " " ws
        /\ (0 <= overlap_size -> words_cost ws <= overlap_size)
        /\ (forall pre' w, pre = (pre' ++ [w])%list ->
              overlap_size < words_cost (w :: ws))).
Proof.
  unfold _get_overlap_text. split.
  - intros H. apply Z.leb_le in H. rewrite H. reflexivity.
  - intros H. apply Z.leb_gt in H. rewrite H.
    destruct (overlap_loop_greedy overlap_size (rev (Py.split text)) [] 0
                eq_refl) as (taken & rest & Hsplit & Hres & Hmax).
    rewrite app_nil_r in Hres.
    exists (rev rest), (rev taken). split; [|split; [|split]].
    + rewrite <- rev_app_distr, <- Hsplit, rev_involutive. reflexivity.
    + rewrite Hres. reflexivity.
    + intros Hpos. rewrite <- Hres.
      apply ChunkingFacts.overlap_loop_cost; [reflexivity | exact Hpos].
    + intros pre' w Hpre.
      assert (Hrest : rest = w :: rev pre').
      { rewrite <- (rev_involutive rest), Hpre, rev_app_distr. reflexivity. }
      specialize (Hmax w (rev pre') Hrest).
      rewrite app_nil_r in Hmax. exact Hmax.
Qed.

Lemma _get_overlap_text_words_witness :
  8 < Py.len "aaaa bbbb cccc dddd"
  /\ exists pre ws,
       Py.split "aaaa bbbb cccc dddd" = (pre ++ ws)%list
       /\ _get_overlap_text "aaaa bbbb cccc dddd" 8 = Py.join " " ws
       /\ (0 <= 8 -> words_cost ws <= 8)
       /\ (forall pre' w, pre = (pre' ++ [w])%list ->
             8 < words_cost (w :: ws)).
Proof.
  assert (H : 8 < Py.len "aaaa bbbb cccc dddd") by (vm_compute; reflexivity).
  split; [exact H|].
  exact (proj2 (_get_overlap_text_words "aaaa bbbb cccc dddd" 8) H).
Defined.

Lemma enumerate_metadata (source : string) (l : list string) :
  forall i,
    let objs :=
      map (fun '(i, chunk) =>
             {| content := chunk; chunk_id := (source, i); source := source;
                chunk_index := i;
                word_count := List.length (Py.split chunk);
                character_count := Py.len chunk |})
        (enumerate_from i l) in
    map chunk_index objs = seq i (List.length objs)
    /\ Forall (fun p =>
                 Chunking.source p = source
                 /\ chunk_id p = (source, chunk_index p)
                 /\ character_count p = Py.len (content p)
                 /\ word_count p = List.length (Py.split (content p)))
         objs.
Proof.
  induction l as [|x l IH]; intros i; cbv zeta.
  - split; [reflexivity | constructor].
  - destruct (IH (S i)) as [Hidx Hall]. cbv zeta in Hidx, Hall.
    cbn [enumerate_from map List.length seq chunk_index]. split.
    + f_equal. exact Hidx.
    + constructor; [repeat split | exact Hall].
Qed.

(** X8: the chunk objects are numbered 0, 1, 2, ... in the order of the
    passages; each carries the source it was given, the identifier made of
    that source and its index, the length of its content and the number of
    words in it. *)
Theorem chunk_text_metadata (self : SmartChunker) (text source : string) :
  map chunk_index (chunk_text self text source)
  = seq 0 (List.length (chunk_text self text source))
  /\ Forall (fun p =>
               Chunking.source p = source
               /\ chunk_id p = (source, chunk_index p)
               /\ character_count p = Py.len (content p)
               /\ word_count p = List.length (Py.split (content p)))
       (chunk_text self text source).
Proof. unfold chunk_text. apply enumerate_metadata. Qed.

(** X9: a chunker cannot be created with a chunk size or an overlap of 0:
    [__init__] replaces a 0 (as it does [None]) by the configured default,
    so asking for no overlap gives an overlap of 200. *)
Theorem init_never_zero (chunk_size overlap : option Z) :
  Chunking.chunk_size (init chunk_size overlap) <> 0
  /\ Chunking.overlap (init chunk_size overlap) <> 0
  /\ Chunking.overlap (init chunk_size (Some 0)) = 200
  /\ Chunking.chunk_size (init (Some 0) overlap) = 1000.
Proof.
  unfold init, int_or. cbn [Chunking.chunk_size Chunking.overlap].
  repeat split.
  - destruct chunk_size as [v|]; [|discriminate].
    destruct (Z.eqb_spec v 0); [discriminate | assumption].
  - destruct overlap as [v|]; [|discriminate].
    destruct (Z.eqb_spec v 0); [discriminate | assumption].
Qed.

End ChunkingMoreFacts.

(** ** More on the embedding client *)

Module EmbeddingsMoreFacts.
Import Exc Mono Embeddings EmbeddingsBatch EmbeddingsSpec PyFacts PyMore.

(** One turn of the retry loop. *)
Lemma retry_loop_cons (env : Env) (text : string) (attempt : Z)
    (rest : list Z) (delay : Z) (w : World) :
  retry_loop env text (attempt :: rest) delay w
  = match embed_content env (provider_calls w) text with
    | Ok v => (Ok (Some v), noted v (add_event (EvEmbedContent text) w))
    | Raise e =>
        if Py.contains "429" (str e) && (attempt <? max_retries - 1) then
          retry_loop env text rest (delay * 2)
            (add_event (EvSleep (inject_Z delay))
               (set_clock (clock w + inject_Z delay)%Q
                  (add_event (EvEmbedContent text) w)))
        else (Raise e, add_event (EvEmbedContent text) w)
    end.
Proof.
  cbn [retry_loop]. unfold try_catch at 1, bind at 1, genai_embed_content.
  destruct (embed_content env (provider_calls w) text) as [v|e].
  - unfold bind, note_dimension, modify, ret, noted. reflexivity.
  - destruct (Py.contains "429" (str e) && (attempt <? max_retries - 1));
      reflexivity.
Qed.

(** [embed_text] on an argument that carries a text. *)
Lemma embed_text_text (env : Env) (input : EmbedInput) (text : string)
    (w : World) :
  input_text input = Some text ->
  embed_text env input w
  = if Py.all_space text
    then (Raise (ValueError
                   "Empty or whitespace-only text cannot be embedded"), w)
    else retry_loop env text [0; 1; 2] 2 w.
Proof.
  intros Hin.
  assert (Hbody :
    try_catch
      (if negb (Py.truthy (Py.strip text))
       then raise (ValueError
                     "Empty or whitespace-only text cannot be embedded")
       else retry_loop env text (range max_retries) 2)
      (fun e => raise e) w
    = if Py.all_space text
      then (Raise (ValueError
                     "Empty or whitespace-only text cannot be embedded"), w)
      else retry_loop env text [0; 1; 2] 2 w).
  { rewrite truthy_strip, negb_involutive. unfold try_catch.
    destruct (Py.all_space text); [reflexivity|].
    change (range max_retries) with [0; 1; 2].
    destruct (retry_loop env text [0; 1; 2] 2 w) as [[v|e] w'];
      reflexivity. }
  destruct input as [s | [s|] | ]; simpl in Hin; inversion Hin; subst;
    exact Hbody.
Qed.

(** [embed_text] on an argument without text. *)
Lemma embed_text_no_text (env : Env) (input : EmbedInput) (w : World) :
  input_text input = None ->
  exists msg, embed_text env input w = (Raise (ValueError msg), w).
Proof.
  destruct input as [s | [s|] | ]; simpl; intros H; try discriminate H;
    eexists; reflexivity.
Qed.

(** The log only grows in the retry loop, and a loop with an attempt to
    run starts by calling the provider. *)
Lemma retry_loop_log (env : Env) (text : string) :
  forall attempts delay w,
    exists evs,
      log (snd (retry_loop env text attempts delay w))
      = (log w ++ evs)%list
      /\ (attempts <> [] -> exists evs', evs = EvEmbedContent text :: evs').
Proof.
  induction attempts as [|attempt rest IH]; intros delay w.
  - exists []. rewrite app_nil_r. split; [reflexivity | congruence].
  - rewrite retry_loop_cons.
    destruct (embed_content env (provider_calls w) text) as [v|e].
    + exists [EvEmbedContent text]. split; [|eauto].
      unfold noted. cbn [snd]. destruct (embedding_dimension _); reflexivity.
    + destruct (Py.contains "429" (str e) && (attempt <? max_retries - 1)).
      * destruct (IH (delay * 2)
                    (add_event (EvSleep (inject_Z delay))
                       (set_clock (clock w + inject_Z delay)%Q
                          (add_event (EvEmbedContent text) w))))
          as (evs & Hlog & _).
        exists (EvEmbedContent text :: EvSleep (inject_Z delay) :: evs).
        split; [|eauto]. rewrite Hlog. cbn [log add_event set_clock].
        rewrite <- !List.app_assoc. reflexivity.
      * exists [EvEmbedContent text]. split; [reflexivity | eauto].
Qed.

(** X10: [embed_text] goes to the provider exactly when its argument
    carries a text that is not blank; the first thing it then does is a
    provider call with that text.  In every other case (a dict without
    content, an argument that is neither a string nor a dict, a blank
    text) it raises a [ValueError] and leaves the world untouched. *)
Theorem embed_text_validation (env : Env) (input : EmbedInput) (w : World) :
  match input_text input with
  | Some text =>
      if Py.all_space text then
        exists msg, embed_text env input w = (Raise (ValueError msg), w)
      else
        exists rest,
          log (snd (embed_text env input w))
          = (log w ++ EvEmbedContent text :: rest)%list
  | None => exists msg, embed_text env input w = (Raise (ValueError msg), w)
  end.
Proof.
  destruct (input_text input) as [text|] eqn:Hin;
    [|apply embed_text_no_text; exact Hin].
  rewrite (embed_text_text env input text w Hin).
  destruct (Py.all_space text); [eexists; reflexivity|].
  destruct (retry_loop_log env text [0; 1; 2] 2 w) as (evs & Hlog & Hfirst).
  destruct Hfirst as [evs' ->]; [discriminate|]. eauto.
Qed.

(** What the retry loop can return: [None] only by running out of
    attempts that all allowed a retry, and otherwise an answer of the
    provider to one of its calls. *)
Lemma retry_loop_result (env : Env) (text : string) :
  forall attempts delay w r,
    fst (retry_loop env text attempts delay w) = Ok r ->
    (r = None /\ forallb (fun a => a <? max_retries - 1) attempts = true)
    \/ exists v i, (i < List.length attempts)%nat
                   /\ r = Some v
                   /\ embed_content env (provider_calls w + i) text = Ok v.
Proof.
  induction attempts as [|attempt rest IH]; intros delay w r.
  - simpl. intros H. inversion H. left. auto.
  - rewrite retry_loop_cons.
    destruct (embed_content env (provider_calls w) text) as [v|e] eqn:Hcall.
    + simpl. intros H. inversion H. right. exists v, 0%nat.
      rewrite Nat.add_0_r. repeat split; [simpl; lia | exact Hcall].
    + destruct (Py.contains "429" (str e)) eqn:H429;
        [|simpl; discriminate].
      destruct (attempt <? max_retries - 1) eqn:Hlast;
        [|simpl; discriminate].
      cbn [andb]. intros H. apply IH in H.
      destruct H as [[-> Hall]|(v & i & Hi & -> & Hv)].
      * left. split; [reflexivity|]. simpl. rewrite Hlast. exact Hall.
      * right. exists v, (S i). repeat split; [simpl; lia|].
        rewrite EmbeddingsFacts.provider_calls_sleep in Hv.
        replace (provider_calls w + S i)%nat
          with (provider_calls
                  (set_clock (clock w + inject_Z delay)%Q
                     (add_event (EvEmbedContent text) w)) + i)%nat;
          [exact Hv|].
        change (provider_calls (set_clock _ ?x)) with (provider_calls x).
        rewrite EmbeddingsFacts.provider_calls_embed. lia.
Qed.

(** X11: [embed_text] never returns [None]: what it returns is the answer
    of the provider to one of the next three calls for the text of its
    argument. *)
Theorem embed_text_result (env : Env) (input : EmbedInput) (w : World)
    (r : option embedding) :
  fst (embed_text env input w) = Ok r ->
  exists text v i,
    input_text input = Some text
    /\ r = Some v
    /\ (i < 3)%nat
    /\ embed_content env (provider_calls w + i) text = Ok v.
Proof.
  destruct (input_text input) as [text|] eqn:Hin.
  - rewrite (embed_text_text env input text w Hin).
    destruct (Py.all_space text); [simpl; discriminate|].
    intros H. apply retry_loop_result in H.
    destruct H as [[_ Hall]|(v & i & Hi & -> & Hv)]; [discriminate Hall|].
    exists text, v, i. auto.
  - destruct (embed_text_no_text env input w Hin) as [msg ->].
    simpl. discriminate.
Qed.

Lemma embed_text_result_witness :
  fst (embed_text Inputs.flaky_env (InStr "hello") Inputs.world0)
  = Ok (Some [1%Q; 0%Q])
  /\ exists text v i,
       input_text (InStr "hello") = Some text
       /\ Some [1%Q; 0%Q] = Some v
       /\ (i < 3)%nat
       /\ Mono.embed_content Inputs.flaky_env
            (provider_calls Inputs.world0 + i) text = Ok v.
Proof.
  split; [reflexivity|].
  exact (embed_text_result Inputs.flaky_env (InStr "hello") Inputs.world0
           (Some [1%Q; 0%Q]) eq_refl).
Defined.

Lemma retry_loop_dimension (env : Env) (text : string) :
  forall attempts delay w,
    embedding_dimension (snd (retry_loop env text attempts delay w))
    = match embedding_dimension w with
      | Some d => Some d
      | None =>
          match fst (retry_loop env text attempts delay w) with
          | Ok (Some v) => Some (Z.of_nat (List.length v))
          | _ => None
          end
      end.
Proof.
  induction attempts as [|attempt rest IH]; intros delay w.
  - simpl. destruct (embedding_dimension w); reflexivity.
  - rewrite retry_loop_cons.
    destruct (embed_content env (provider_calls w) text) as [v|e].
    + unfold noted. cbn [fst snd add_event embedding_dimension].
      destruct (embedding_dimension w) eqn:Hd; [exact Hd | reflexivity].
    + destruct (Py.contains "429" (str e) && (attempt <? max_retries - 1)).
      * rewrite IH. reflexivity.
      * simpl. destruct (embedding_dimension w); reflexivity.
Qed.

(** X12: the embedding dimension is observed once: a call of [embed_text]
    never changes a dimension that is set, and sets an unset one exactly
    when it returns a vector, to the length of that vector. *)
Theorem embedding_dimension_once (env : Env) (input : EmbedInput)
    (w : World) :
  embedding_dimension (snd (embed_text env input w))
  = match embedding_dimension w with
    | Some d => Some d
    | None =>
        match fst (embed_text env input w) with
        | Ok (Some v) => Some (Z.of_nat (List.length v))
        | _ => None
        end
    end.
Proof.
  destruct (input_text input) as [text|] eqn:Hin.
  - rewrite (embed_text_text env input text w Hin).
    destruct (Py.all_space text);
      [simpl; destruct (embedding_dimension w); reflexivity|].
    apply retry_loop_dimension.
  - destruct (embed_text_no_text env input w Hin) as [msg ->].
    simpl. destruct (embedding_dimension w); reflexivity.
Qed.

Lemma batch_loop_cons (env : Env) (text : EmbedInput)
    (rest : list EmbedInput) (acc : list (option embedding)) (w : World) :
  batch_loop env (text :: rest) acc w
  = match embed_one env text w with
    | (Ok e, w') => batch_loop env rest (acc ++ [e])%list w'
    | (Raise e, w') => (Raise e, w')
    end.
Proof.
  cbn [batch_loop]. unfold embed_one, bind, time_sleep, modify, ret.
  destruct (embed_text env text w) as [[e|e] w']; reflexivity.
Qed.

Lemma mapM_cons {A B} (f : A -> M World B) (t : A) (l : list A)
    (w : World) :
  mapM f (t :: l) w
  = match f t w with
    | (Ok v, w1) =>
        match mapM f l w1 with
        | (Ok x, w2) => (Ok (v :: x), w2)
        | (Raise e, w2) => (Raise e, w2)
        end
    | (Raise e, w1) => (Raise e, w1)
    end.
Proof.
  cbn [mapM]. unfold bind at 1. destruct (f t w) as [[v|e] w1]; [|reflexivity].
  unfold bind, ret. destruct (mapM f l w1) as [[x|e] w2]; reflexivity.
Qed.

(** The inner loop is [mapM] with an accumulator. *)
Lemma batch_loop_mapM (env : Env) (batch : list EmbedInput) :
  forall acc w,
    batch_loop env batch acc w
    = match mapM (embed_one env) batch w with
      | (Ok x, w') => (Ok (acc ++ x)%list, w')
      | (Raise e, w') => (Raise e, w')
      end.
Proof.
  induction batch as [|text rest IH]; intros acc w.
  - simpl. unfold ret. rewrite app_nil_r. reflexivity.
  - rewrite batch_loop_cons, mapM_cons.
    destruct (embed_one env text w) as [[e|e] w']; [|reflexivity].
    rewrite IH.
    destruct (mapM (embed_one env) rest w') as [[x|e'] w'']; [|reflexivity].
    rewrite <- List.app_assoc. reflexivity.
Qed.

Lemma mapM_app {A B} (f : A -> M World B) (a b : list A) (w : World) :
  mapM f (a ++ b) w
  = match mapM f a w with
    | (Ok x, w') =>
        match mapM f b w' with
        | (Ok y, w'') => (Ok (x ++ y)%list, w'')
        | (Raise e, w'') => (Raise e, w'')
        end
    | (Raise e, w') => (Raise e, w')
    end.
Proof.
  revert w. induction a as [|t a IH]; intros w.
  - simpl. unfold ret. destruct (mapM f b w) as [[y|e] w']; reflexivity.
  - change ((t :: a) ++ b)%list with (t :: (a ++ b))%list.
    rewrite !mapM_cons.
    destruct (f t w) as [[v|e] w1]; [|reflexivity].
    rewrite IH.
    destruct (mapM f a w1) as [[x|e] w2]; [|reflexivity].
    destruct (mapM f b w2) as [[y|e] w3]; reflexivity.
Qed.

Lemma mapM_length {A B} (f : A -> M World B) (l : list A) :
  forall w r, fst (mapM f l w) = Ok r -> List.length r = List.length l.
Proof.
  induction l as [|t l IH]; intros w r.
  - simpl. intros H. inversion H. reflexivity.
  - rewrite mapM_cons.
    destruct (f t w) as [[v|e] w1]; [|simpl; discriminate].
    specialize (IH w1).
    destruct (mapM f l w1) as [[x|e] w2]; [|simpl; discriminate].
    simpl. intros H. inversion H. simpl. f_equal. apply IH. reflexivity.
Qed.

(** A slice from a position that is not negative. *)
Lemma slice_from (l : list EmbedInput) (i k : nat) :
  slice l (Z.of_nat i) (Z.of_nat i + Z.of_nat k) = firstn k (skipn i l).
Proof.
  unfold slice.
  destruct (Z.ltb_spec (Z.of_nat i) 0) as [Hneg|_]; [lia|].
  destruct (Z.ltb_spec (Z.of_nat i + Z.of_nat k) 0) as [Hneg|_]; [lia|].
  destruct (Nat.le_gt_cases (List.length l) i) as [Hout|Hin].
  - rewrite (skipn_all2 l Hout).
    replace (Z.to_nat (Z.min (Z.of_nat i) (Z.of_nat (List.length l))))
      with (List.length l) by lia.
    rewrite skipn_all. rewrite !firstn_nil. reflexivity.
  - replace (Z.to_nat (Z.min (Z.of_nat i) (Z.of_nat (List.length l))))
      with i by lia.
    destruct (Nat.le_gt_cases (i + k) (List.length l)) as [Hfit|Hover].
    + f_equal. lia.
    + replace (Z.to_nat
                 (Z.min (Z.of_nat i + Z.of_nat k)
                    (Z.of_nat (List.length l))
                  - Z.min (Z.of_nat i) (Z.of_nat (List.length l))))
        with (List.length l - i)%nat by lia.
      rewrite !firstn_all2; [reflexivity | |]; rewrite length_skipn; lia.
Qed.

(** The outer loop from the [j]-th batch on covers the rest of the
    texts. *)
Lemma batches_loop_mapM (env : Env) (texts : list EmbedInput) (b : nat) :
  (0 < b)%nat ->
  forall m j acc w,
    (List.length texts <= (j + m) * b)%nat ->
    batches_loop env texts (Z.of_nat b)
      (map (fun k => 0 + Z.of_nat k * Z.of_nat b) (seq j m)) acc w
    = match mapM (embed_one env) (skipn (j * b) texts) w with
      | (Ok x, w') => (Ok (acc ++ x)%list, w')
      | (Raise e, w') => (Raise e, w')
      end.
Proof.
  intros Hb. induction m as [|m IH]; intros j acc w Hcover.
  - rewrite skipn_all2 by lia. simpl. unfold ret.
    rewrite app_nil_r. reflexivity.
  - cbn [seq map batches_loop]. unfold bind at 1.
    replace (0 + Z.of_nat j * Z.of_nat b) with (Z.of_nat (j * b)) by lia.
    rewrite slice_from, batch_loop_mapM.
    rewrite <- (firstn_skipn b (skipn (j * b) texts)) at 2.
    rewrite mapM_app.
    destruct (mapM (embed_one env) (firstn b (skipn (j * b) texts)) w)
      as [[x|e] w1]; [|reflexivity].
    rewrite IH by lia. rewrite skipn_skipn.
    replace (b + j * b)%nat with (S j * b)%nat by lia.
    destruct (mapM (embed_one env) (skipn (S j * b) texts) w1)
      as [[y|e] w2]; [|reflexivity].
    cbn [List.app]. rewrite <- List.app_assoc. reflexivity.
Qed.

(** X13: with a positive batch size, [embed_batch] embeds the texts one
    after the other in their order, pausing after each, and stops at the
    first failure, which it raises; whatever the batch size, it does what
    one pass over all the texts does.  When it returns, it returns one
    result per text. *)
Theorem embed_batch_sequential (env : Env) (texts : list EmbedInput)
    (batch_size : Z) (w : World) :
  0 < batch_size ->
  embed_batch env texts batch_size w = mapM (embed_one env) texts w
  /\ (forall r, fst (embed_batch env texts batch_size w) = Ok r ->
                List.length r = List.length texts).
Proof.
  intros Hpos.
  assert (Heq : embed_batch env texts batch_size w
                = mapM (embed_one env) texts w).
  { unfold embed_batch, bind, lift, range_step.
    destruct (Z.eqb_spec batch_size 0) as [H0|_]; [lia|].
    destruct (Z.ltb_spec 0 batch_size) as [_|Hneg]; [|lia].
    set (n := Z.of_nat (List.length texts)).
    set (m := Z.to_nat ((n - 0 + batch_size - 1) / batch_size)).
    replace batch_size with (Z.of_nat (Z.to_nat batch_size)) by lia.
    rewrite (batches_loop_mapM env texts (Z.to_nat batch_size)
               ltac:(lia) m 0 [] w).
    - rewrite Nat.mul_0_l. change (skipn 0 texts) with texts.
      destruct (mapM (embed_one env) texts w) as [[x|e] w']; reflexivity.
    - subst m n.
      pose proof (Z.mul_succ_div_gt
                    (Z.of_nat (List.length texts) - 0 + batch_size - 1)
                    batch_size Hpos) as Hdiv.
      assert (Hq : 0 <= (Z.of_nat (List.length texts) - 0 + batch_size - 1)
                        / batch_size).
      { apply Z.div_pos; lia. }
      nia. }
  split; [exact Heq|]. rewrite Heq. apply mapM_length.
Qed.

Lemma embed_batch_sequential_witness :
  0 < 2
  /\ embed_batch Inputs.flaky_env [InStr "a"; InStr "b"; InStr "c"] 2
       Inputs.world0
     = mapM (embed_one Inputs.flaky_env) [InStr "a"; InStr "b"; InStr "c"]
         Inputs.world0.
Proof.
  split; [lia|].
  exact (proj1 (embed_batch_sequential Inputs.flaky_env
                  [InStr "a"; InStr "b"; InStr "c"] 2 Inputs.world0
                  ltac:(lia))).
Defined.

(** X14: a batch size of 0 makes [embed_batch] raise the [ValueError] of
    [range] before anything is embedded, and a negative batch size makes it
    return the empty list without embedding any text. *)
Theorem embed_batch_no_batches (env : Env) (texts : list EmbedInput)
    (batch_size : Z) (w : World) :
  batch_size <= 0 ->
  embed_batch env texts batch_size w
  = (if batch_size =? 0
     then Raise (ValueError "range() arg 3 must not be zero")
     else Ok [], w).
Proof.
  intros Hle. unfold embed_batch, bind, lift, range_step.
  destruct (Z.eqb_spec batch_size 0) as [H0|Hne]; [reflexivity|].
  destruct (Z.ltb_spec 0 batch_size) as [Hpos|_]; [lia|].
  assert (Hq : (0 - Z.of_nat (List.length texts) - batch_size - 1)
               / - batch_size < 1).
  { apply Z.div_lt_upper_bound; lia. }
  replace (Z.to_nat ((0 - Z.of_nat (List.length texts) - batch_size - 1)
                     / - batch_size)) with 0%nat by lia.
  reflexivity.
Qed.

Lemma embed_batch_no_batches_witness :
  -1 <= 0
  /\ embed_batch Inputs.flaky_env [InStr "a"; InStr "b"] (-1) Inputs.world0
     = (Ok [], Inputs.world0).
Proof.
  split; [lia|].
  exact (embed_batch_no_batches Inputs.flaky_env [InStr "a"; InStr "b"] (-1)
           Inputs.world0 ltac:(lia)).
Defined.

End EmbeddingsMoreFacts.

(** ** More on the single-process retrieval *)

Module RetrievalMoreFacts.
Import Exc Mono Retrieval RetrievalSpec EmbeddingsBatch.

(** [retrieve_context] is its rate limiting, then the attempt, whose
    exception is replaced. *)
Lemma retrieve_context_eq (env : Env) (query creator : string) (w : World) :
  retrieve_context env query creator w
  = match attempt env query creator (started w) with
    | (Ok a, w') => (Ok a, w')
    | (Raise e, w') => (Raise (retrieval_error e), w')
    end.
Proof.
  unfold retrieve_context, started.
  unfold bind at 1, time_time at 1. unfold bind at 1, get.
  unfold bind at 1.
  destruct (negb (Qle_bool min_query_interval
                    (clock w - last_query_time w))).
  - unfold time_sleep, modify. unfold bind at 1, time_time.
    unfold bind at 1, modify. unfold try_catch, raise. reflexivity.
  - unfold ret at 1. unfold bind at 1, time_time.
    unfold bind at 1, modify. unfold try_catch, raise. reflexivity.
Qed.

(** The retry loop leaves the store and the time of the last query alone
    and does not query the vector database. *)
Lemma retry_loop_frame (env : Env) (text : string) :
  forall attempts delay w,
    collections (snd (Embeddings.retry_loop env text attempts delay w))
    = collections w
    /\ last_query_time (snd (Embeddings.retry_loop env text attempts delay w))
       = last_query_time w
    /\ List.filter is_query_event
         (log (snd (Embeddings.retry_loop env text attempts delay w)))
       = List.filter is_query_event (log w).
Proof.
  induction attempts as [|attempt rest IH]; intros delay w.
  - simpl. auto.
  - rewrite EmbeddingsMoreFacts.retry_loop_cons.
    destruct (embed_content env (provider_calls w) text) as [v|e].
    + unfold noted. cbn [snd].
      destruct (embedding_dimension (add_event (EvEmbedContent text) w));
        cbn [collections last_query_time log add_event
             set_embedding_dimension];
        rewrite List.filter_app; cbn [List.filter is_query_event];
        rewrite app_nil_r; auto.
    + destruct (Py.contains "429" (str e)
                && (attempt <? Embeddings.max_retries - 1)).
      * destruct (IH (delay * 2)
                    (add_event (EvSleep (inject_Z delay))
                       (set_clock (clock w + inject_Z delay)%Q
                          (add_event (EvEmbedContent text) w))))
          as (Hc & Ht & Hl).
        rewrite Hc, Ht, Hl. cbn [collections last_query_time log add_event
                                 set_clock].
        rewrite !List.filter_app. cbn [List.filter is_query_event].
        rewrite !app_nil_r. auto.
      * cbn [snd collections last_query_time log add_event].
        rewrite List.filter_app. cbn [List.filter is_query_event].
        rewrite app_nil_r. auto.
Qed.

Lemma embed_text_frame (env : Env) (input : Embeddings.EmbedInput)
    (w : World) :
  collections (snd (Embeddings.embed_text env input w)) = collections w
  /\ last_query_time (snd (Embeddings.embed_text env input w))
     = last_query_time w
  /\ List.filter is_query_event
       (log (snd (Embeddings.embed_text env input w)))
     = List.filter is_query_event (log w).
Proof.
  destruct (input_text input) as [text|] eqn:Hin.
  - rewrite (EmbeddingsMoreFacts.embed_text_text env input text w Hin).
    destruct (Py.all_space text); [simpl; auto|]. apply retry_loop_frame.
  - destruct (EmbeddingsMoreFacts.embed_text_no_text env input w Hin)
      as [msg ->]. simpl. auto.
Qed.

Lemma index_pure {A} (l : list A) (i : nat) (w : World) :
  index l i w
  = (match nth_error l i with
     | Some x => Ok x
     | None => Raise (IndexError "list index out of range")
     end, w).
Proof. unfold index. destruct (nth_error l i); reflexivity. Qed.

(** Building a chunk does not touch the world, and fails only with an
    [IndexError]. *)
Lemma make_chunk_pure (results : QueryResult) (creator : string) (i : nat)
    (w : World) :
  snd (make_chunk results creator i w) = w
  /\ (forall e, fst (make_chunk results creator i w) = Raise e ->
                e = IndexError "list index out of range").
Proof.
  unfold make_chunk, bind, index, ret, raise.
  repeat match goal with
         | |- context [nth_error ?l ?k] => destruct (nth_error l k)
         | |- context [Py.truthy_list ?l] => destruct (Py.truthy_list l)
         end;
    (split; [reflexivity | intros e H; inversion H; reflexivity]).
Qed.

Lemma mapM_make_chunk_pure (results : QueryResult) (creator : string)
    (l : list nat) (w : World) :
  snd (mapM (make_chunk results creator) l w) = w
  /\ (forall e, fst (mapM (make_chunk results creator) l w) = Raise e ->
                e = IndexError "list index out of range").
Proof.
  induction l as [|i l IH].
  - simpl. split; [reflexivity | intros e H; inversion H].
  - rewrite EmbeddingsMoreFacts.mapM_cons.
    destruct (make_chunk_pure results creator i w) as [Hw He].
    destruct (make_chunk results creator i w) as [[c|e] w1];
      simpl in Hw; subst w1.
    + destruct IH as [IHw IHe].
      destruct (mapM (make_chunk results creator) l w) as [[x|e] w2];
        simpl in IHw |- *; subst w2.
      * split; [reflexivity | intros e H; inversion H].
      * split; [reflexivity|]. intros e' H. inversion H; subst.
        apply IHe. reflexivity.
    + split; [reflexivity|]. intros e' H. simpl in H. inversion H; subst.
      apply He. reflexivity.
Qed.

(** The chunks [retrieve_context] makes of the results. *)
Lemma attempt_eq (env : Env) (query creator : string) (w : World) :
  attempt env query creator w
  = match Embeddings.embed_text env (Embeddings.InDict (Some query)) w with
    | (Raise e, w1) => (Raise e, w1)
    | (Ok query_embedding, w1) =>
        match VectorStore.search_creator env creator query_embedding
                (fst (choose_strategy (_analyze_query query))) w1 with
        | (Raise e, w2) => (Raise e, w2)
        | (Ok results, w2) =>
            match (if Py.truthy_list (documents results)
                      && Py.truthy_list (hd [] (documents results))
                   then mapM (make_chunk results creator)
                          (seq 0 (List.length (hd [] (documents results))))
                   else ret []) w2 with
            | (Raise e, w3) => (Raise e, w3)
            | (Ok chunks, w3) =>
                (Ok {| retrieval_strategy :=
                         snd (choose_strategy (_analyze_query query));
                       total_chunks := List.length chunks;
                       chunks := chunks;
                       best_creator :=
                         if Py.truthy_list chunks then Some creator
                         else None |}, w3)
            end
        end
    end.
Proof.
  unfold attempt. unfold bind at 1.
  destruct (Embeddings.embed_text env _ w) as [[qe|e] w1]; [|reflexivity].
  destruct (choose_strategy (_analyze_query query)) as [n strategy].
  unfold bind at 1. cbn [fst snd].
  destruct (VectorStore.search_creator env creator qe n w1)
    as [[results|e] w2]; [|reflexivity].
  unfold bind at 1.
  destruct ((if Py.truthy_list (documents results)
                && Py.truthy_list (hd [] (documents results))
             then mapM (make_chunk results creator)
                    (seq 0 (List.length (hd [] (documents results))))
             else ret []) w2) as [[chunks|e] w3]; reflexivity.
Qed.

Lemma chunks_pure (results : QueryResult) (creator : string) (w : World) :
  snd ((if Py.truthy_list (documents results)
           && Py.truthy_list (hd [] (documents results))
        then mapM (make_chunk results creator)
               (seq 0 (List.length (hd [] (documents results))))
        else ret []) w) = w.
Proof.
  destruct (Py.truthy_list (documents results)
            && Py.truthy_list (hd [] (documents results)));
    [apply mapM_make_chunk_pure | reflexivity].
Qed.

(** The attempt leaves the store and the time of the last query alone. *)
Lemma attempt_frame (env : Env) (query creator : string) (w : World) :
  collections (snd (attempt env query creator w)) = collections w
  /\ last_query_time (snd (attempt env query creator w))
     = last_query_time w.
Proof.
  rewrite attempt_eq.
  pose proof (embed_text_frame env (Embeddings.InDict (Some query)) w)
    as (Hc & Ht & _).
  destruct (Embeddings.embed_text env _ w) as [[qe|e] w1];
    cbn [snd] in Hc, Ht; [|auto].
  rewrite VectorStoreFacts.search_creator_unfold.
  destruct (collections w1 !! creator) as [coll|].
  - destruct (collection_query env coll [qe] _) as [results|e];
      [|cbn [snd collections last_query_time add_event]; auto].
    set (w2 := add_event _ w1).
    assert (Hw2 : collections w2 = collections w1
                  /\ last_query_time w2 = last_query_time w1)
      by (split; reflexivity).
    clearbody w2.
    pose proof (chunks_pure results creator w2) as Hp.
    destruct ((if Py.truthy_list (documents results)
                  && Py.truthy_list (hd [] (documents results))
               then mapM (make_chunk results creator)
                      (seq 0 (List.length (hd [] (documents results))))
               else ret []) w2) as [[chunks|e] w3];
      cbn [snd] in Hp |- *; subst w3; destruct Hw2; split; congruence.
  - cbn [documents Py.truthy_list andb]. unfold ret. cbn [snd]. auto.
Qed.

(** X15: queries are spaced out: when [retrieve_context] is done, the time
    noted for it lies at least [min_query_interval] (2) after the time
    noted for the query before, and not before the time of the call,
    whether the retrieval succeeds or raises. *)
Theorem retrieve_context_spacing (env : Env) (query creator : string)
    (w : World) :
  (last_query_time w + min_query_interval
   <= last_query_time (snd (retrieve_context env query creator w)))%Q
  /\ (clock w
      <= last_query_time (snd (retrieve_context env query creator w)))%Q.
Proof.
  rewrite retrieve_context_eq.
  assert (Hsnd : forall (r : result RetrievalResult * World),
             snd match r with
                 | (Ok a, w') => (Ok a, w')
                 | (Raise e, w') => (Raise (retrieval_error e), w')
                 end = snd r).
  { intros [[a|e] w']; reflexivity. }
  rewrite Hsnd.
  destruct (attempt_frame env query creator (started w)) as [_ ->].
  unfold started, min_query_interval.
  destruct (Qle_bool 2 (clock w - last_query_time w)) eqn:Hle;
    cbn [negb last_query_time set_last_query_time clock add_event set_clock].
  - apply Qle_bool_iff in Hle. split; lra.
  - assert (Hlt : ~ (2 <= clock w - last_query_time w)%Q).
    { intros H. apply Qle_bool_iff in H. congruence. }
    split; lra.
Qed.

Lemma retrieval_error_generic (e : exn) :
  In (retrieval_error e) generic_errors.
Proof.
  unfold retrieval_error, generic_errors.
  destruct (Py.contains "429" (str e)); [left; reflexivity|].
  destruct (Py.contains "embedding" (Py.lower (str e)));
    [right; left | right; right; left]; reflexivity.
Qed.

(** X16: whatever goes wrong during a retrieval (the embedding, the vector
    database, a malformed answer), the exception [retrieve_context] raises
    is one of its three own generic ones; the original exception never
    reaches the caller. *)
Theorem retrieve_context_raises (env : Env) (query creator : string)
    (w : World) (e : exn) :
  fst (retrieve_context env query creator w) = Raise e ->
  In e generic_errors.
Proof.
  rewrite retrieve_context_eq.
  destruct (attempt env query creator (started w)) as [[a|e0] w'];
    simpl; intros H; inversion H.
  apply retrieval_error_generic.
Qed.

Lemma retrieve_context_raises_witness :
  fst (retrieve_context Inputs.failing_env "what is seo" "hawa_singh"
         Inputs.world0)
  = Raise (Exception
      "An error occurred while retrieving context. Please try again.")
  /\ In (Exception
          "An error occurred while retrieving context. Please try again.")
       generic_errors.
Proof.
  split; [reflexivity|].
  exact (retrieve_context_raises Inputs.failing_env "what is seo"
           "hawa_singh" Inputs.world0 _ eq_refl).
Defined.

Lemma started_frame (w : World) :
  provider_calls (started w) = provider_calls w
  /\ collections (started w) = collections w
  /\ List.filter is_query_event (log (started w))
     = List.filter is_query_event (log w).
Proof.
  unfold started.
  destruct (negb (Qle_bool min_query_interval
                    (clock w - last_query_time w))).
  - unfold provider_calls.
    cbn [log collections set_last_query_time add_event set_clock].
    rewrite !List.filter_app. cbn [List.filter is_embed_event is_query_event].
    rewrite !app_nil_r. auto.
  - auto.
Qed.

(** The embedding of the query as [retrieve_context] obtains it. *)
Lemma embed_at_start (env : Env) (query : string) (w : World)
    (r : result (option embedding)) :
  fst (Embeddings.embed_text env (Embeddings.InDict (Some query)) w) = r ->
  exists w1,
    Embeddings.embed_text env (Embeddings.InDict (Some query)) (started w)
    = (r, w1)
    /\ collections w1 = collections w
    /\ List.filter is_query_event (log w1)
       = List.filter is_query_event (log w).
Proof.
  intros Hr. destruct (started_frame w) as (Hcalls & Hcoll & Hlog).
  rewrite (RetrievalFacts.embed_text_fst_calls env _ w (started w)) in Hr
    by (symmetry; exact Hcalls).
  pose proof (embed_text_frame env (Embeddings.InDict (Some query))
                (started w)) as (Hc & _ & Hl).
  destruct (Embeddings.embed_text env _ (started w)) as [r' w1].
  cbn [fst snd] in *. subst r'. exists w1.
  repeat split; congruence.
Qed.

(** X17: for an owner without a collection, a retrieval whose embedding
    succeeds returns an empty context: the strategy label, no chunk, a
    count of 0 and no best creator; it does not raise and does not query
    the vector database. *)
Theorem retrieve_context_unknown_owner (env : Env) (query creator : string)
    (w : World) (query_embedding : option embedding) :
  collections w !! creator = None ->
  fst (Embeddings.embed_text env (Embeddings.InDict (Some query)) w)
  = Ok query_embedding ->
  fst (retrieve_context env query creator w)
  = Ok {| retrieval_strategy :=
            snd (choose_strategy (_analyze_query query));
          total_chunks := 0;
          chunks := [];
          best_creator := None |}
  /\ List.filter is_query_event
       (log (snd (retrieve_context env query creator w)))
     = List.filter is_query_event (log w).
Proof.
  intros Hnone Hembed.
  destruct (embed_at_start env query w _ Hembed) as (w1 & He & Hc & Hl).
  rewrite retrieve_context_eq, attempt_eq, He.
  rewrite VectorStoreFacts.search_creator_unfold, Hc, Hnone.
  cbn. split; [reflexivity | exact Hl].
Qed.

Lemma retrieve_context_unknown_owner_witness :
  collections VectorStoreSpec.world_two_rows !! "nobody" = None
  /\ fst (Embeddings.embed_text VectorStoreSpec.exhaustive_env
            (Embeddings.InDict (Some "what is seo"))
            VectorStoreSpec.world_two_rows)
     = Ok (Some [1%Q; 0%Q])
  /\ fst (retrieve_context VectorStoreSpec.exhaustive_env "what is seo"
            "nobody" VectorStoreSpec.world_two_rows)
     = Ok {| retrieval_strategy := "focused_search"; total_chunks := 0;
             chunks := []; best_creator := None |}.
Proof.
  assert (Hnone : collections VectorStoreSpec.world_two_rows !! "nobody"
                  = None) by (vm_compute; reflexivity).
  split; [exact Hnone|]. split; [reflexivity|].
  exact (proj1 (retrieve_context_unknown_owner VectorStoreSpec.exhaustive_env
                  "what is seo" "nobody" VectorStoreSpec.world_two_rows
                  (Some [1%Q; 0%Q]) Hnone eq_refl)).
Defined.

(** The loop over the indices of well-formed results zips them. *)
Lemma mapM_make_chunk_zip (creator : string) (w : World) :
  forall docs metas ds pre_d pre_m pre_s,
    List.length pre_m = List.length pre_d ->
    List.length pre_s = List.length pre_d ->
    List.length metas = List.length docs ->
    List.length ds = List.length docs ->
    mapM (make_chunk {| documents := [(pre_d ++ docs)%list];
                        metadatas := [(pre_m ++ metas)%list];
                        distances := [(pre_s ++ ds)%list] |} creator)
      (seq (List.length pre_d) (List.length docs)) w
    = (Ok (map (chunk_of creator) (combine docs (combine metas ds))), w).
Proof.
  induction docs as [|doc docs IH];
    intros metas ds pre_d pre_m pre_s Hpm Hps Hm Hd.
  - reflexivity.
  - destruct metas as [|m metas]; [discriminate Hm|].
    destruct ds as [|d ds]; [discriminate Hd|].
    cbn [List.length seq]. rewrite EmbeddingsMoreFacts.mapM_cons.
    assert (Hk : make_chunk
                   {| documents := [(pre_d ++ doc :: docs)%list];
                      metadatas := [(pre_m ++ m :: metas)%list];
                      distances := [(pre_s ++ d :: ds)%list] |}
                   creator (List.length pre_d) w
                 = (Ok (chunk_of creator (doc, (m, d))), w)).
    { assert (H1 : nth_error (pre_d ++ doc :: docs) (List.length pre_d)
                   = Some doc).
      { rewrite nth_error_app2, Nat.sub_diag by lia. reflexivity. }
      assert (H2 : nth_error (pre_m ++ m :: metas) (List.length pre_d)
                   = Some m).
      { rewrite <- Hpm, nth_error_app2, Nat.sub_diag by lia. reflexivity. }
      assert (H3 : nth_error (pre_s ++ d :: ds) (List.length pre_d)
                   = Some d).
      { rewrite <- Hps, nth_error_app2, Nat.sub_diag by lia. reflexivity. }
      unfold make_chunk, bind, index, ret.
      cbn [documents metadatas distances Py.truthy_list nth_error].
      rewrite H1, H2, H3. reflexivity. }
    rewrite Hk.
    specialize (IH metas ds (pre_d ++ [doc])%list (pre_m ++ [m])%list
                  (pre_s ++ [d])%list).
    rewrite <- !List.app_assoc in IH. cbn [List.app] in IH.
    rewrite !length_app in IH. cbn [List.length] in IH.
    replace (List.length pre_d + 1)%nat with (S (List.length pre_d)) in IH
      by lia.
    rewrite IH; [reflexivity | lia | lia | |]; simpl in Hm, Hd; lia.
Qed.

(** The subtraction rounds to binary64: a distance of 2^-60 gives the
    similarity 1.0, as the distance 0 does.  Without distances the
    similarity is the [int] 1. *)
Example one_minus_rounds :
  Py.one_minus (Py.Float 0x1p-60) = Py.Float 1
  /\ Py.one_minus (Py.Float 0.25) = Py.Float 0.75
  /\ Py.one_minus (Py.Int 0) = Py.Int 1.
Proof. repeat split; reflexivity. Qed.

(** X18: when the vector database answers with as many metadata and
    distances as documents, [retrieve_context] returns one chunk per
    document, in the order of the answer, with the content of the document,
    the source of its metadata and, as similarity, the float 1 - distance
    as binary64 computes it; the count is the number of documents and the
    best creator is the owner unless there is no document. *)
Theorem retrieve_context_chunks (env : Env) (query creator : string)
    (w : World) (query_embedding : option embedding)
    (collection : list Row) (docs : list string) (metas : list Metadata)
    (ds : list float) :
  fst (Embeddings.embed_text env (Embeddings.InDict (Some query)) w)
  = Ok query_embedding ->
  collections w !! creator = Some collection ->
  collection_query env collection [query_embedding]
    (fst (choose_strategy (_analyze_query query)))
  = Ok {| documents := [docs]; metadatas := [metas]; distances := [ds] |} ->
  List.length metas = List.length docs ->
  List.length ds = List.length docs ->
  fst (retrieve_context env query creator w)
  = Ok {| retrieval_strategy :=
            snd (choose_strategy (_analyze_query query));
          total_chunks := List.length docs;
          chunks := map (chunk_of creator) (combine docs (combine metas ds));
          best_creator :=
            if Py.truthy_list docs then Some creator else None |}.
Proof.
  intros Hembed Hsome Hquery Hm Hd.
  destruct (embed_at_start env query w _ Hembed) as (w1 & He & Hc & _).
  rewrite retrieve_context_eq, attempt_eq, He.
  rewrite VectorStoreFacts.search_creator_unfold, Hc, Hsome, Hquery.
  cbn [documents hd Py.truthy_list andb].
  destruct docs as [|doc docs].
  - destruct metas; [|discriminate Hm]. destruct ds; [|discriminate Hd].
    reflexivity.
  - cbn [Py.truthy_list].
    rewrite (mapM_make_chunk_zip creator _ (doc :: docs) metas ds [] [] [])
      by (simpl in *; lia).
    cbn [fst]. do 2 f_equal.
    + rewrite length_map, !length_combine. rewrite Hm, Hd.
      rewrite !Nat.min_id. reflexivity.
    + destruct metas as [|m metas]; [discriminate Hm|].
      destruct ds as [|d ds]; [discriminate Hd|]. reflexivity.
Qed.

Lemma retrieve_context_chunks_witness :
  fst (retrieve_context VectorStoreSpec.exhaustive_env "what is seo"
         "hawa_singh" VectorStoreSpec.world_two_rows)
  = Ok {| retrieval_strategy := "focused_search";
          total_chunks := 2;
          chunks :=
            map (chunk_of "hawa_singh")
              (combine ["close by"; "far away"]
                 (combine
                    [row_metadata (VectorStoreSpec.row "" "" [] 1);
                     row_metadata (VectorStoreSpec.row "" "" [] 0)]
                    [0%float; 2%float]));
          best_creator := Some "hawa_singh" |}.
Proof.
  assert (Hsome : collections VectorStoreSpec.world_two_rows !! "hawa_singh"
                  = Some VectorStoreSpec.two_rows)
    by (vm_compute; reflexivity).
  assert (Hquery :
    collection_query VectorStoreSpec.exhaustive_env VectorStoreSpec.two_rows
      [Some [1%Q; 0%Q]] (fst (choose_strategy (_analyze_query "what is seo")))
    = Ok {| documents := [["close by"; "far away"]];
            metadatas := [[row_metadata (VectorStoreSpec.row "" "" [] 1);
                           row_metadata (VectorStoreSpec.row "" "" [] 0)]];
            distances := [[0%float; 2%float]] |})
    by (vm_compute; reflexivity).
  exact (retrieve_context_chunks VectorStoreSpec.exhaustive_env "what is seo"
           "hawa_singh" VectorStoreSpec.world_two_rows (Some [1%Q; 0%Q])
           VectorStoreSpec.two_rows _ _ _ eq_refl Hsome Hquery
           eq_refl eq_refl).
Defined.

(** A loop that returns made a chunk of every index. *)
Lemma mapM_make_chunk_ok (results : QueryResult) (creator : string)
    (w : World) :
  forall l r,
    fst (mapM (make_chunk results creator) l w) = Ok r ->
    forall i, In i l ->
              exists c, fst (make_chunk results creator i w) = Ok c.
Proof.
  induction l as [|k l IH]; intros r Hr i Hi; [contradiction|].
  rewrite EmbeddingsMoreFacts.mapM_cons in Hr.
  destruct (make_chunk_pure results creator k w) as [Hw _].
  destruct (make_chunk results creator k w) as [[c|e] w1] eqn:Hk;
    cbn [snd] in Hw; subst w1; [|discriminate Hr].
  destruct Hi as [<-|Hi]; [rewrite Hk; eauto|].
  destruct (mapM (make_chunk results creator) l w) as [[x|e] w2] eqn:Hl;
    [|discriminate Hr].
  apply (IH x); [reflexivity | exact Hi].
Qed.

(** X19: when the vector database answers with fewer distances than
    documents, [retrieve_context] does not return the documents it could
    pair: the index lookup fails and the caller gets the generic
    exception. *)
Theorem retrieve_context_ragged (env : Env) (query creator : string)
    (w : World) (query_embedding : option embedding)
    (collection : list Row) (docs : list string)
    (metas : list (list Metadata)) (ds : list float) :
  fst (Embeddings.embed_text env (Embeddings.InDict (Some query)) w)
  = Ok query_embedding ->
  collections w !! creator = Some collection ->
  collection_query env collection [query_embedding]
    (fst (choose_strategy (_analyze_query query)))
  = Ok {| documents := [docs]; metadatas := metas; distances := [ds] |} ->
  (List.length ds < List.length docs)%nat ->
  fst (retrieve_context env query creator w)
  = Raise (Exception
      "An error occurred while retrieving context. Please try again.").
Proof.
  intros Hembed Hsome Hquery Hshort.
  destruct (embed_at_start env query w _ Hembed) as (w1 & He & Hc & _).
  rewrite retrieve_context_eq, attempt_eq, He.
  rewrite VectorStoreFacts.search_creator_unfold, Hc, Hsome, Hquery.
  cbn [documents hd Py.truthy_list andb].
  destruct docs as [|doc docs]; [simpl in Hshort; lia|].
  cbn [Py.truthy_list].
  set (results := {| documents := [doc :: docs]; metadatas := metas;
                     distances := [ds] |}).
  set (w2 := add_event _ w1).
  destruct (mapM_make_chunk_pure results creator
              (seq 0 (List.length (doc :: docs))) w2) as [_ Herr].
  pose proof (mapM_make_chunk_ok results creator w2
                (seq 0 (List.length (doc :: docs)))) as Hok.
  destruct (mapM (make_chunk results creator)
              (seq 0 (List.length (doc :: docs))) w2) as [[x|e] w3].
  - exfalso.
    destruct (Hok x eq_refl (List.length ds)) as [c Hcx].
    { apply in_seq. lia. }
    revert Hcx. unfold make_chunk, bind, index, ret, results.
    cbn [documents metadatas distances Py.truthy_list nth_error].
    destruct (nth_error (doc :: docs) (List.length ds));
      [|simpl; discriminate].
    rewrite (proj2 (nth_error_None ds (List.length ds))) by lia.
    simpl. discriminate.
  - rewrite (Herr e eq_refl). reflexivity.
Qed.

Lemma retrieve_context_ragged_witness :
  fst (retrieve_context ragged_env "what is seo" "hawa_singh"
         VectorStoreSpec.world_two_rows)
  = Raise (Exception
      "An error occurred while retrieving context. Please try again.").
Proof.
  assert (Hsome : collections VectorStoreSpec.world_two_rows !! "hawa_singh"
                  = Some VectorStoreSpec.two_rows)
    by (vm_compute; reflexivity).
  exact (retrieve_context_ragged ragged_env "what is seo" "hawa_singh"
           VectorStoreSpec.world_two_rows (Some [1%Q; 0%Q])
           VectorStoreSpec.two_rows ["close by"; "far away"] [] [0%float]
           eq_refl Hsome eq_refl ltac:(simpl; lia)).
Defined.

Lemma choose_strategy_n_results (query : string) :
  fst (choose_strategy (_analyze_query query))
  = if Py.any (fun word => Py.contains word (Py.lower query))
         ["what"; "how"; "why"; "when"; "where"; "which"]
    then 2 else 3.
Proof.
  unfold _analyze_query.
  destruct (Py.any _ _) eqn:Hany.
  - destruct (Py.contains "how" (Py.lower query)
              && Py.contains "to" (Py.lower query));
      destruct (10 <? _); reflexivity.
  - assert (Hhow : Py.contains "how" (Py.lower query) = false).
    { apply (StrategyFacts.existsb_false_In _ _ "how" Hany). simpl. auto. }
    rewrite Hhow. destruct (10 <? _); reflexivity.
Qed.

(** X29: a retrieval for an owner with a collection, whose embedding
    succeeded, queries the vector database exactly once: the collection of
    that owner, with the embedding of the query, for 2 results when the
    lowercased query contains one of the question words and for 3
    otherwise, whether the query then succeeds or not. *)
Theorem retrieve_context_one_query (env : Env) (query creator : string)
    (w : World) (query_embedding : option embedding)
    (collection : list Row) :
  fst (Embeddings.embed_text env (Embeddings.InDict (Some query)) w)
  = Ok query_embedding ->
  collections w !! creator = Some collection ->
  List.filter is_query_event
    (log (snd (retrieve_context env query creator w)))
  = (List.filter is_query_event (log w)
     ++ [EvCollectionQuery collection [query_embedding]
           (if Py.any (fun word => Py.contains word (Py.lower query))
                 ["what"; "how"; "why"; "when"; "where"; "which"]
            then 2 else 3)])%list.
Proof.
  intros Hembed Hsome.
  destruct (embed_at_start env query w _ Hembed) as (w1 & He & Hc & Hl).
  rewrite retrieve_context_eq, attempt_eq, He.
  rewrite VectorStoreFacts.search_creator_unfold, Hc, Hsome.
  rewrite choose_strategy_n_results.
  set (n := if Py.any _ _ then 2 else 3).
  set (w2 := add_event (EvCollectionQuery collection [query_embedding] n) w1).
  assert (Hw2 : List.filter is_query_event (log w2)
                = (List.filter is_query_event (log w)
                   ++ [EvCollectionQuery collection [query_embedding] n])%list).
  { subst w2. cbn [log add_event]. rewrite List.filter_app, Hl. reflexivity. }
  clearbody w2.
  destruct (collection_query env collection [query_embedding] n)
    as [results|e]; [|exact Hw2].
  pose proof (chunks_pure results creator w2) as Hp.
  destruct ((if Py.truthy_list (documents results)
                && Py.truthy_list (hd [] (documents results))
             then mapM (make_chunk results creator)
                    (seq 0 (List.length (hd [] (documents results))))
             else ret []) w2) as [[chunks|e] w3];
    cbn [snd] in Hp |- *; subst w3; exact Hw2.
Qed.

Lemma retrieve_context_one_query_witness :
  List.filter is_query_event
    (log (snd (retrieve_context VectorStoreSpec.exhaustive_env "what is seo"
                 "hawa_singh" VectorStoreSpec.world_two_rows)))
  = [EvCollectionQuery VectorStoreSpec.two_rows [Some [1%Q; 0%Q]] 2].
Proof.
  assert (Hsome : collections VectorStoreSpec.world_two_rows !! "hawa_singh"
                  = Some VectorStoreSpec.two_rows)
    by (vm_compute; reflexivity).
  exact (retrieve_context_one_query VectorStoreSpec.exhaustive_env
           "what is seo" "hawa_singh" VectorStoreSpec.world_two_rows
           (Some [1%Q; 0%Q]) VectorStoreSpec.two_rows eq_refl Hsome).
Defined.

End RetrievalMoreFacts.

(** ** More on the microservice path *)

Module ServiceMoreFacts.
Import Exc Service ServiceSpec ServiceApi.

(** The three ways a retrieval of the microservice can go. *)
Lemma retrieve_context_cases (env : Env) (request : RetrievalRequest)
    (w : World) :
  let analysis :=
    match generate_analysis env (query request) with
    | Ok a => a
    | Raise _ => _fallback_analysis (query request)
    end in
  retrieve_context env request w
  = if is_greeting analysis || is_inappropriate analysis then
      (Ok (skip_response request),
       (w ++ [EvGenerateContent (query request)])%list)
    else
      match embed_content env (query request) with
      | Raise _ =>
          (Ok (error_response request),
           (w ++ [EvGenerateContent (query request);
                  EvEmbedContent (query request)])%list)
      | Ok v =>
          let q := sent_query v (req_creator_id request) (max_chunks request)
                     (similarity_threshold request) in
          let found :=
            retrieved (req_creator_id request) (similarity_threshold request)
              (weaviate_do env q) in
          (Ok {| chunks := found;
                 total_chunks := List.length found;
                 creator_id := req_creator_id request;
                 retrieval_strategy := _determine_strategy analysis request |},
           (w ++ [EvGenerateContent (query request);
                  EvEmbedContent (query request);
                  EvWeaviateQuery q])%list)
      end.
Proof.
  intros analysis.
  assert (Ha : fst (analyze_query env (query request) w) = Ok analysis).
  { rewrite ServiceFacts.analyze_query_run. reflexivity. }
  destruct (is_greeting analysis || is_inappropriate analysis) eqn:Hskip.
  - unfold retrieve_context, try_catch, bind.
    rewrite ServiceFacts.analyze_query_run. fold analysis.
    rewrite Hskip. reflexivity.
  - destruct (embed_content env (query request)) as [v|e] eqn:He.
    + apply ServiceFacts.retrieve_context_run; assumption.
    + apply (RetrievalFacts.retrieve_context_embed_caught env request w
               analysis e); assumption.
Qed.

Lemma retrieved_kept (creator : string) (threshold : Q)
    (answer : result (option (list WeaviateItem))) :
  Forall (fun c => chunk_creator_id c = creator
                   /\ Qle_bool threshold (similarity c) = true)
    (retrieved creator threshold answer).
Proof.
  unfold retrieved. destruct answer as [[items|]|e]; try constructor.
  induction items as [|item items IH]; [constructor|].
  cbn [flat_map]. apply Forall_app. split; [|exact IH].
  unfold keep_item.
  destruct (Qle_bool threshold (default 0%Q (item_certainty item))) eqn:H;
    constructor; [|constructor]. split; [reflexivity | exact H].
Qed.

(** X20: [retrieve_context] of the microservice never raises.  It always
    returns a response; the response names the requested owner, its count
    is the number of its chunks, its label is one of skip, error,
    comprehensive, focused, structured and balanced, every chunk carries
    the requested owner and a similarity at or above the threshold, and at
    most three things happened in the world: the model call, the embedding
    call and the database query, in that order. *)
Theorem retrieve_context_total (env : Env) (request : RetrievalRequest)
    (w : World) :
  exists response events,
    retrieve_context env request w = (Ok response, (w ++ events)%list)
    /\ creator_id response = req_creator_id request
    /\ total_chunks response = List.length (chunks response)
    /\ In (retrieval_strategy response) strategy_labels
    /\ Forall (fun c => chunk_creator_id c = req_creator_id request
                        /\ Qle_bool (similarity_threshold request)
                             (similarity c) = true)
         (chunks response)
    /\ (exists v q,
          events = firstn (List.length events)
                     [EvGenerateContent (query request);
                      EvEmbedContent (query request);
                      EvWeaviateQuery (sent_query v q (max_chunks request)
                                         (similarity_threshold request))])
    /\ (1 <= List.length events <= 3)%nat.
Proof.
  rewrite retrieve_context_cases.
  set (analysis := match generate_analysis env (query request) with
                   | Ok a => a
                   | Raise _ => _fallback_analysis (query request)
                   end).
  cbv zeta. unfold strategy_labels.
  destruct (is_greeting analysis || is_inappropriate analysis).
  - do 2 eexists. split; [reflexivity|]. cbn.
    split; [reflexivity|]. split; [reflexivity|]. split; [auto|].
    split; [constructor|]. split; [exists [], ""; reflexivity | lia].
  - destruct (embed_content env (query request)) as [v|e].
    + do 2 eexists. split; [reflexivity|].
      cbn [creator_id total_chunks chunks retrieval_strategy List.length].
      split; [reflexivity|]. split; [reflexivity|]. split.
      { unfold _determine_strategy.
        destruct (QueryComplexity_eqb _ _); [simpl; auto|].
        destruct (QueryIntent_eqb _ _); [simpl; auto|].
        destruct (is_step_by_step analysis); simpl; auto 7. }
      split; [apply retrieved_kept|].
      split; [exists v, (req_creator_id request); reflexivity | lia].
    + do 2 eexists. split; [reflexivity|]. cbn.
      split; [reflexivity|]. split; [reflexivity|]. split; [auto|].
      split; [constructor|]. split; [exists [], ""; reflexivity | lia].
Qed.

Lemma _determine_strategy_not_error (analysis : QueryAnalysis)
    (request : RetrievalRequest) :
  _determine_strategy analysis request <> "error".
Proof.
  unfold _determine_strategy.
  destruct (QueryComplexity_eqb _ _); [discriminate|].
  destruct (QueryIntent_eqb _ _); [discriminate|].
  destruct (is_step_by_step analysis); discriminate.
Qed.

(** X21: a failure of the vector database cannot be told from an empty
    answer: when the database query raises, a retrieval that is not
    skipped and whose embedding succeeded returns no chunk, a count of 0
    and the strategy label selected for the query, which is not error. *)
Theorem retrieve_context_store_failure (env : Env)
    (request : RetrievalRequest) (w : World) (analysis : QueryAnalysis)
    (v : list Q) (e : exn) :
  fst (analyze_query env (query request) w) = Ok analysis ->
  is_greeting analysis || is_inappropriate analysis = false ->
  embed_content env (query request) = Ok v ->
  weaviate_do env
    (sent_query v (req_creator_id request) (max_chunks request)
       (similarity_threshold request))
  = Raise e ->
  fst (retrieve_context env request w)
  = Ok {| chunks := [];
          total_chunks := 0;
          creator_id := req_creator_id request;
          retrieval_strategy := _determine_strategy analysis request |}
  /\ _determine_strategy analysis request <> "error".
Proof.
  intros Ha Hskip Hv Hdb.
  split; [|apply _determine_strategy_not_error].
  rewrite (ServiceFacts.retrieve_context_run env request w analysis v)
    by assumption.
  cbv zeta. rewrite Hdb. reflexivity.
Qed.

Lemma retrieve_context_store_failure_witness :
  fst (retrieve_context store_down_env
         (new_request "what is seo" "hawa_singh" None None) [])
  = Ok {| chunks := []; total_chunks := 0; creator_id := "hawa_singh";
          retrieval_strategy := "balanced" |}.
Proof.
  exact (proj1 (retrieve_context_store_failure store_down_env
                  (new_request "what is seo" "hawa_singh" None None) []
                  (_fallback_analysis "what is seo") [1%Q; 0%Q]
                  (ExternalError "connection refused")
                  eq_refl eq_refl eq_refl eq_refl)).
Defined.

(** X22: with the heuristic classifier, the label structured is never
    selected: for a query that is not skipped, the strategy is
    comprehensive when the query has more than 10 words, else focused when
    it asks how to or for steps, else balanced. *)
Theorem fallback_strategy (query : string) (request : RetrievalRequest) :
  is_greeting (_fallback_analysis query)
  || is_inappropriate (_fallback_analysis query) = false ->
  _determine_strategy (_fallback_analysis query) request
  = if 10 <? Z.of_nat (List.length (Py.split query)) then "comprehensive"
    else if Py.contains "how to" (Py.lower query)
            || Py.contains "steps" (Py.lower query)
    then "focused" else "balanced".
Proof.
  unfold _fallback_analysis, _determine_strategy.
  cbn [is_greeting is_inappropriate complexity intent is_step_by_step].
  intros Hskip. apply orb_false_iff in Hskip as [Hg Hi]. rewrite Hg, Hi.
  destruct (10 <? Z.of_nat (List.length (Py.split query)));
    [reflexivity|].
  destruct (Py.contains "how to" (Py.lower query)
            || Py.contains "steps" (Py.lower query)); reflexivity.
Qed.

Lemma fallback_strategy_witness :
  is_greeting (_fallback_analysis "list the steps for seo")
  || is_inappropriate (_fallback_analysis "list the steps for seo") = false
  /\ _determine_strategy (_fallback_analysis "list the steps for seo")
       (new_request "list the steps for seo" "hawa_singh" None None)
     = "focused".
Proof.
  split; [reflexivity|].
  exact (fallback_strategy "list the steps for seo"
           (new_request "list the steps for seo" "hawa_singh" None None)
           eq_refl).
Defined.

(** X23: the heuristic classifier does not look at letter case: two
    queries with the same lowercase form get the same analysis. *)
Theorem fallback_case_insensitive (query query' : string) :
  Py.lower query = Py.lower query' ->
  _fallback_analysis query = _fallback_analysis query'.
Proof.
  intros H. unfold _fallback_analysis.
  rewrite H, (PyMore.split_length_lower query query' H). reflexivity.
Qed.

Lemma fallback_case_insensitive_witness :
  Py.lower "How To Grow?" = Py.lower "how to grow?"
  /\ _fallback_analysis "How To Grow?" = _fallback_analysis "how to grow?".
Proof.
  split; [reflexivity|].
  exact (fallback_case_insensitive "How To Grow?" "how to grow?" eq_refl).
Defined.

(** X24: when the generative model is unreachable, a query whose
    lowercase form contains a keyword of the denylist anywhere, even
    inside a word, is skipped: the response has the label skip and no
    chunk, and neither the embedding provider nor the database is
    called, whatever the owner holds. *)
Theorem denylisted_query_skipped (env : Env) (request : RetrievalRequest)
    (w : World) (keyword before after : string) (e : exn) :
  generate_analysis env (query request) = Raise e ->
  In keyword inappropriate_keywords ->
  Py.lower (query request) = before +:+ keyword +:+ after ->
  retrieve_context env request w
  = (Ok {| chunks := []; total_chunks := 0;
           creator_id := req_creator_id request;
           retrieval_strategy := "skip" |},
     (w ++ [EvGenerateContent (query request)])%list).
Proof.
  intros Hmodel Hkw Hq. rewrite retrieve_context_cases. cbv zeta.
  rewrite Hmodel.
  assert (Hflag : is_inappropriate (_fallback_analysis (query request))
                  = true).
  { unfold _fallback_analysis. cbn [is_inappropriate]. unfold Py.any.
    apply existsb_exists. exists keyword. split; [exact Hkw|].
    rewrite Hq. apply PyMore.contains_app. }
  rewrite Hflag, orb_true_r. reflexivity.
Qed.

Lemma denylisted_query_skipped_witness :
  fst (retrieve_context heuristic_env
         (new_request "Essex county channels" "hawa_singh" None None) [])
  = Ok {| chunks := []; total_chunks := 0; creator_id := "hawa_singh";
          retrieval_strategy := "skip" |}.
Proof.
  exact (f_equal fst
           (denylisted_query_skipped heuristic_env
              (new_request "Essex county channels" "hawa_singh" None None) []
              "sex" "es" " county channels"
              (ExternalError "model unreachable") eq_refl
              ltac:(left; reflexivity) eq_refl)).
Defined.

(** X25: what is retrieved does not depend on the classification: two
    runs of the same request that are not skipped, against the same
    embedding provider and database, return the same chunks and count,
    whatever their analyses and labels are. *)
Theorem chunks_independent_of_analysis (env env' : Env)
    (request : RetrievalRequest) (w w' : World)
    (analysis analysis' : QueryAnalysis)
    (response response' : RetrievalResponse) :
  embed_content env = embed_content env' ->
  weaviate_do env = weaviate_do env' ->
  fst (analyze_query env (query request) w) = Ok analysis ->
  fst (analyze_query env' (query request) w') = Ok analysis' ->
  is_greeting analysis || is_inappropriate analysis = false ->
  is_greeting analysis' || is_inappropriate analysis' = false ->
  fst (retrieve_context env request w) = Ok response ->
  fst (retrieve_context env' request w') = Ok response' ->
  chunks response = chunks response'
  /\ total_chunks response = total_chunks response'.
Proof.
  intros He Hw Ha Ha' Hs Hs'.
  rewrite ServiceFacts.analyze_query_run in Ha, Ha'. cbn [fst] in Ha, Ha'.
  inversion Ha as [Ha1]. inversion Ha' as [Ha1'].
  rewrite !retrieve_context_cases. cbv zeta.
  rewrite Ha1, Ha1', Hs, Hs', <- He, <- Hw.
  destruct (embed_content env (query request)) as [v|e];
    cbn [fst]; intros H H'; inversion H; inversion H'; split; reflexivity.
Qed.

Lemma chunks_independent_of_analysis_witness :
  chunks {| chunks := []; total_chunks := 0; creator_id := "hawa_singh";
            retrieval_strategy := "balanced" |}
  = chunks {| chunks := []; total_chunks := 0; creator_id := "hawa_singh";
              retrieval_strategy := "structured" |}
  /\ fst (retrieve_context model_env
            (new_request "what is seo" "hawa_singh" None None) [])
     = Ok {| chunks := []; total_chunks := 0; creator_id := "hawa_singh";
             retrieval_strategy := "structured" |}.
Proof.
  split; [|reflexivity].
  exact (proj1 (chunks_independent_of_analysis heuristic_env model_env
                  (new_request "what is seo" "hawa_singh" None None) [] []
                  (_fallback_analysis "what is seo") steps_analysis
                  _ _ eq_refl eq_refl eq_refl eq_refl eq_refl eq_refl
                  eq_refl eq_refl)).
Defined.

(** X26: the handler of POST /retrieve never answers 500.  A blank query
    and an empty owner id are refused with 400 before the retriever is
    called (nothing happens in the world); every other request is
    answered 200 with the response the retriever returns for it. *)
Theorem retrieve_endpoint_answers (env : Env) (request : RetrievalRequest)
    (w : World) :
  exists response w',
    retrieve_context env request w = (Ok response, w')
    /\ retrieve_endpoint env request w
       = if Py.all_space (query request) then
           (Ok (HttpError 400 "Query cannot be empty"), w)
         else if negb (Py.truthy (req_creator_id request)) then
           (Ok (HttpError 400 "Creator ID is required"), w)
         else (Ok (Http200 response), w').
Proof.
  assert (Htotal : exists response w',
             retrieve_context env request w = (Ok response, w')).
  { rewrite retrieve_context_cases. cbv zeta.
    destruct (is_greeting _ || is_inappropriate _); [eauto|].
    destruct (embed_content env (query request)); eauto. }
  destruct Htotal as (response & w' & Hrun).
  exists response, w'. split; [exact Hrun|].
  unfold retrieve_endpoint, try_catch.
  rewrite PyMore.truthy_strip, negb_involutive.
  destruct (Py.all_space (query request)); [reflexivity|].
  destruct (negb (Py.truthy (req_creator_id request))); [reflexivity|].
  unfold bind. rewrite Hrun. reflexivity.
Qed.

End ServiceMoreFacts.

(** ** From the chunker to the embedder *)

Module IngestionFacts.
Import Exc Mono Chunking ChunkingMore.

(** X27: no passage the chunker produces is refused by the blank check of
    the embedder: embedding a chunk object of [chunk_text] always starts
    with a provider call for its content. *)
Theorem chunks_reach_provider (self : SmartChunker) (text source : string)
    (p : Chunk) (env : Env) (w : World) :
  In p (chunk_text self text source) ->
  exists rest,
    log (snd (Embeddings.embed_text env
                (Embeddings.InDict (Some (content p))) w))
    = (log w ++ EvEmbedContent (content p) :: rest)%list.
Proof.
  intros Hin. apply (in_map content) in Hin.
  rewrite ChunkingMoreFacts.chunk_text_contents in Hin.
  pose proof (ChunkingMoreFacts.passages_not_blank self _
                (ChunkingMoreFacts.sentences_ok (_clean_text text))) as Hall.
  rewrite List.Forall_forall in Hall. specialize (Hall _ Hin).
  apply ChunkingMoreFacts.sentence_ok_not_blank in Hall.
  rewrite (EmbeddingsMoreFacts.embed_text_text env
             (Embeddings.InDict (Some (content p))) (content p) w eq_refl).
  rewrite Hall.
  destruct (EmbeddingsMoreFacts.retry_loop_log env (content p) [0; 1; 2] 2 w)
    as (evs & Hlog & Hfirst).
  destruct Hfirst as [evs' ->]; [discriminate|]. eauto.
Qed.

Lemma chunks_reach_provider_witness :
  In Inputs.small_passage
    (chunk_text Inputs.small_chunker Inputs.small_text "doc")
  /\ exists rest,
       log (snd (Embeddings.embed_text Inputs.flaky_env
                   (Embeddings.InDict (Some (content Inputs.small_passage)))
                   Inputs.world0))
       = (log Inputs.world0
          ++ EvEmbedContent (content Inputs.small_passage) :: rest)%list.
Proof.
  assert (Hin : In Inputs.small_passage
                  (chunk_text Inputs.small_chunker Inputs.small_text "doc")).
  { vm_compute. right. left. reflexivity. }
  split; [exact Hin|].
  exact (chunks_reach_provider _ _ _ _ Inputs.flaky_env Inputs.world0 Hin).
Defined.

End IngestionFacts.

(** ** Topic scores *)

Module TopicFacts.
Import QueryAnalyzerTopics.

Lemma filter_length_le {A} (p : A -> bool) (l : list A) :
  (List.length (List.filter p l) <= List.length l)%nat.
Proof.
  induction l as [|x l IH]; simpl; [lia|]. destruct (p x); simpl; lia.
Qed.

(** X28: there is one topic score, for hawa_singh; it lies between 0 and
    1, and it is 0 exactly when none of the topic's keywords occurs in the
    query. *)
Theorem topic_scores_bounds (query : string) :
  exists score,
    _calculate_topic_scores query = [("hawa_singh", score)]
    /\ (0 <= score)%Q /\ (score <= 1)%Q
    /\ (score == 0
        <-> forall keyword keywords,
              In ("hawa_singh", keywords) topic_keywords ->
              In keyword keywords -> Py.contains keyword query = false)%Q.
Proof.
  unfold _calculate_topic_scores, topic_keywords. cbn [map].
  eexists. split; [reflexivity|].
  set (keywords := ["youtube"; _; _; _; _; _; _; _; _; _; _; _; _; _; _; _; _;
                    _; _; _]).
  change (Z.of_nat (List.length keywords)) with 20.
  pose proof (filter_length_le (fun k => Py.contains k query) keywords) as Hle.
  change (List.length keywords) with 20%nat in Hle.
  unfold keyword_hits.
  set (hits := List.length (List.filter _ keywords)) in *.
  assert (H0 : (0 <= inject_Z (Z.of_nat hits))%Q).
  { change (inject_Z 0 <= inject_Z (Z.of_nat hits))%Q.
    rewrite <- Zle_Qle. lia. }
  assert (H1 : (inject_Z (Z.of_nat hits) <= 20)%Q).
  { change (inject_Z (Z.of_nat hits) <= inject_Z 20)%Q.
    rewrite <- Zle_Qle. lia. }
  change (inject_Z 20) with 20%Q.
  split; [|split].
  - apply Qle_shift_div_l; lra.
  - apply Qle_shift_div_r; lra.
  - split.
    + intros Hz keyword kws Hkws Hk.
      destruct Hkws as [Hkws|[]]. inversion Hkws; subst kws.
      assert (Hhits : hits = 0%nat).
      { assert (Hq : (inject_Z (Z.of_nat hits) == 0)%Q).
        { assert (H2 : (inject_Z (Z.of_nat hits)
                        == inject_Z (Z.of_nat hits) / 20 * 20)%Q) by field.
          rewrite H2, Hz. reflexivity. }
        unfold Qeq in Hq. cbn [Qnum Qden inject_Z] in Hq. lia. }
      subst hits. apply length_zero_iff_nil in Hhits.
      destruct (Py.contains keyword query) eqn:Hc; [|reflexivity].
      assert (Hin : In keyword
                      (List.filter (fun k => Py.contains k query) keywords)).
      { apply List.filter_In. split; assumption. }
      rewrite Hhits in Hin. destruct Hin.
    + intros Hnone.
      assert (Hnil : List.filter (fun k => Py.contains k query) keywords
                     = []).
      { destruct (List.filter _ keywords) as [|k rest] eqn:Hf;
          [reflexivity|].
        assert (Hin : In k (List.filter (fun k => Py.contains k query)
                              keywords))
          by (rewrite Hf; left; reflexivity).
        apply List.filter_In in Hin as [Hin Hc].
        rewrite (Hnone k keywords) in Hc; [discriminate | |exact Hin].
        left. reflexivity. }
      subst hits. rewrite Hnil. reflexivity.
Qed.

End TopicFacts.
